(** * Point-cloud processing core of the LiDAR scanner web application

  A shallow embedding of the processing code of
  [src/js/pointCloudProcessor.js] (octree builder, main-thread fallbacks,
  request bookkeeping) and [src/js/workers/pointCloudWorker.js] (filters,
  downsampling, transform, pipeline), with the properties of the
  specification stated and settled against it.

  JavaScript numbers are IEEE 754 binary64 values: they are modelled by
  Rocq's primitive floats, whose operations are the same correctly rounded
  binary64 operations. *)

From Stdlib Require Import ZArith List Bool String Lia.
From Stdlib Require Import Floats.PrimFloat Floats.SpecFloat Floats.FloatOps.
From Stdlib Require Floats.FloatAxioms.
From stdpp Require Import base option list gmap strings.
Import ListNotations.

#[local] Set Warnings "-inexact-float,-register-all".

Local Open Scope Z_scope.

(* ===================================================================== *)
(** ** JavaScript values and builtins used by the code                    *)
(* ===================================================================== *)

Module JS.

(** A JavaScript number. *)
Abbreviation number := float (only parsing).

(** What a JavaScript function can throw. *)
Inductive Exception :=
| TypeError (message : string)
| Error (message : string).

(** Outcome of code that may throw. *)
Inductive result (A : Type) :=
| Ok (a : A)
| Throw (e : Exception).
Arguments Ok {A} a.
Arguments Throw {A} e.

(** Sequencing of code that may throw. *)
Definition bind {A B} (m : result A) (k : A -> result B) : result B :=
  match m with
  | Ok a => k a
  | Throw e => Throw e
  end.

Fixpoint mapM {A B} (f : A -> result B) (l : list A) : result (list B) :=
  match l with
  | [] => Ok []
  | a :: l' =>
      bind (f a) (fun b => bind (mapM f l') (fun bs => Ok (b :: bs)))
  end.

(** [a > b], [a >= b]: false as soon as one side is NaN, like [<], [<=]. *)
Definition gtb (a b : number) : bool := PrimFloat.ltb b a.
Definition geb (a b : number) : bool := PrimFloat.leb b a.

(** [Math.min(a, b)]: NaN if either is NaN, and -0 is below +0. *)
Definition Math_min (a b : number) : number :=
  if is_nan a || is_nan b then nan
  else if PrimFloat.ltb a b then a
  else if PrimFloat.ltb b a then b
  else if get_sign a then a else b.

(** [Math.max(a, b)]: NaN if either is NaN, and +0 is above -0. *)
Definition Math_max (a b : number) : number :=
  if is_nan a || is_nan b then nan
  else if PrimFloat.ltb a b then b
  else if PrimFloat.ltb b a then a
  else if get_sign a then b else a.

(** [Math.sqrt(a)]. *)
Definition Math_sqrt (a : number) : number := PrimFloat.sqrt a.

(** [Math.pow(a, 2)]: the square. *)
Definition Math_pow2 (a : number) : number := PrimFloat.mul a a.

(** [Math.fround]: rounding to the nearest binary32 value, which is what a
    store into a [Float32Array] does. *)
Definition Math_fround (a : number) : number :=
  match Prim2SF a with
  | S754_finite s m e =>
      SF2Prim (binary_normalize 24 128 (cond_Zopp s (Zpos m)) e s)
  | _ => a
  end.

(** The number of a length or counter ([n] below 2^53 is exact). *)
Definition of_nat (n : nat) : number :=
  let z := Z.of_nat n in
  if z <? 9223372036854775808 then of_uint63 (Uint63Axioms.of_Z z)
  else SF2Prim (binary_normalize 53 1024 z 0 false).

(** The value of an integer literal or integer parameter. *)
Definition of_Z (z : Z) : number :=
  if z <? 0 then PrimFloat.opp (of_nat (Z.to_nat (- z))) else of_nat (Z.to_nat z).

(** What [String(Math.floor(v))] depends on.  [Math.floor] yields an
    integer, an infinity or NaN; number-to-string conversion prints
    distinct such values differently, except that -0 prints as ["0"].  The
    printed text is therefore represented by the value it denotes. *)
Inductive FloorText :=
| TInt (n : Z)
| TInfinity (negative : bool)
| TNaN.

#[global] Instance FloorText_eq_dec : EqDecision FloorText.
Proof. solve_decision. Defined.

Definition floorText (v : number) : FloorText :=
  match Prim2SF v with
  | S754_zero _ => TInt 0
  | S754_infinity s => TInfinity s
  | S754_nan => TNaN
  | S754_finite s m e => TInt (Z.shiftl (cond_Zopp s (Zpos m)) e)
  end.

(** Reading [a[i]] from an array of numbers for use in arithmetic: a
    missing element is [undefined], which arithmetic turns into NaN. *)
Definition get (a : list number) (i : nat) : number := nth i a nan.

(** The properties every plain object inherits from [Object.prototype]:
    reading one of these names off an object that has no own property of
    that name gives the inherited member, not [undefined]. *)
Definition Object_prototype_names : list string :=
  ["__proto__"; "constructor"; "hasOwnProperty"; "isPrototypeOf";
   "propertyIsEnumerable"; "toLocaleString"; "toString"; "valueOf";
   "__defineGetter__"; "__defineSetter__"; "__lookupGetter__";
   "__lookupSetter__"]%string.

Definition inherited (name : string) : bool :=
  existsb (String.eqb name) Object_prototype_names.

End JS.

Import JS.

(* ===================================================================== *)
(** ** pointCloudProcessor.js: points and the octree                      *)
(* ===================================================================== *)

Module Processor.

(** A point object [{x, y, z, r, g, b}]; the colour fields may be
    [undefined]. *)
Record Point := mkPoint {
  px : number; py : number; pz : number;
  pr : option number; pg : option number; pb : option number
}.

(** [{x, y, z}]. *)
Record Vec3 := mkVec3 { vx : number; vy : number; vz : number }.

(** [{min, max}]. *)
Record Box := mkBox { bmin : Vec3; bmax : Vec3 }.

(** An octree node [{boundingBox, points, children}]; [boundingBox] and
    [children] may be [null]. *)
Inductive Node := mkNode {
  boundingBox : option Box;
  points : list Point;
  children : option (list Node)
}.

(** [createNode(boundingBox)]. *)
Definition createNode (boundingBox : option Box) : Node :=
  mkNode boundingBox [] None.

(** [calculateBoundingBox(points)]; [null] for no points. *)
Definition calculateBoundingBox (points : list Point) : option Box :=
  match points with
  | [] => None
  | _ =>
      Some (fold_left
              (fun bb point =>
                 mkBox
                   (mkVec3 (Math_min (vx (bmin bb)) (px point))
                           (Math_min (vy (bmin bb)) (py point))
                           (Math_min (vz (bmin bb)) (pz point)))
                   (mkVec3 (Math_max (vx (bmax bb)) (px point))
                           (Math_max (vy (bmax bb)) (py point))
                           (Math_max (vz (bmax bb)) (pz point))))
              points
              (mkBox (mkVec3 infinity infinity infinity)
                     (mkVec3 neg_infinity neg_infinity neg_infinity)))
  end.

(** [(i & mask) ? a : b]. *)
Definition bit_select {A} (i mask : Z) (a b : A) : A :=
  if Z.land i mask =? 0 then b else a.

(** The bounding box of child [i] (the body of the first loop). *)
Definition childBox (bb : Box) (midX midY midZ : number) (i : Z) : Box :=
  let minX := bit_select i 1 midX (vx (bmin bb)) in
  let maxX := bit_select i 1 (vx (bmax bb)) midX in
  let minY := bit_select i 2 midY (vy (bmin bb)) in
  let maxY := bit_select i 2 (vy (bmax bb)) midY in
  let minZ := bit_select i 4 midZ (vz (bmin bb)) in
  let maxZ := bit_select i 4 (vz (bmax bb)) midZ in
  mkBox (mkVec3 minX minY minZ) (mkVec3 maxX maxY maxZ).

(** The child a point goes to (the index of the second loop). *)
Definition childIndex (midX midY midZ : number) (point : Point) : nat :=
  ((if gtb (px point) midX then 1 else 0) +
   (if gtb (py point) midY then 2 else 0) +
   (if gtb (pz point) midZ then 4 else 0))%nat.

(** [node.points.push(point)]. *)
Definition push_point (point : Point) (node : Node) : Node :=
  mkNode (boundingBox node) (points node ++ [point]) (children node).

(** The body of [subdivideNode(node, depth)].  [descend] is [None] when
    [depth < maxDepth] fails and otherwise holds the recursive call
    [child => subdivideNode(child, depth + 1)].  The code updates the node
    in place; here the updated node is returned.  Reading [bb.min] of a
    [null] box throws. *)
Definition subdivideNode_body (minPointsPerNode : Z)
           (descend : option (Node -> result Node)) (node : Node)
  : result Node :=
  match boundingBox node with
  | None => Throw (TypeError "Cannot read properties of null (reading 'min')")
  | Some bb =>
      let midX := PrimFloat.div (PrimFloat.add (vx (bmin bb)) (vx (bmax bb))) 2%float in
      let midY := PrimFloat.div (PrimFloat.add (vy (bmin bb)) (vy (bmax bb))) 2%float in
      let midZ := PrimFloat.div (PrimFloat.add (vz (bmin bb)) (vz (bmax bb))) 2%float in
      let children0 :=
        map (fun i => createNode (Some (childBox bb midX midY midZ i)))
            [0; 1; 2; 3; 4; 5; 6; 7] in
      let children1 :=
        fold_left
          (fun cs point =>
             alter (push_point point) (childIndex midX midY midZ point) cs)
          (points node) children0 in
      bind
        match descend with
        | None => Ok children1
        | Some subdivideChild =>
            mapM (fun child =>
                    if Z.of_nat (length (points child)) >? minPointsPerNode
                    then subdivideChild child
                    else Ok child)
                 children1
        end
        (fun children2 => Ok (mkNode (Some bb) [] (Some children2)))
  end.

(** The recursion of [subdivideNode], on the number [remaining] of levels
    that [depth] is below [maxDepth]: [depth < maxDepth] holds exactly
    when [remaining] is positive (see [subdivideNode_unfold]). *)
Fixpoint subdivide (minPointsPerNode : Z) (remaining : nat) {struct remaining}
  : Node -> result Node :=
  subdivideNode_body minPointsPerNode
    match remaining with
    | O => None
    | S remaining' => Some (subdivide minPointsPerNode remaining')
    end.

(** [subdivideNode(node, depth)], with the [maxDepth] and
    [minPointsPerNode] of the enclosing [buildOctree]. *)
Definition subdivideNode (maxDepth minPointsPerNode : Z)
           (node : Node) (depth : Z) : result Node :=
  subdivide minPointsPerNode (Z.to_nat (maxDepth - depth)) node.

(** [buildOctree(points, maxDepth = 8, minPointsPerNode = 5)], for integer
    arguments; an argument left out is [None]. *)
Definition buildOctree (points : list Point)
           (maxDepth minPointsPerNode : option Z) : result Node :=
  let maxDepth := default 8 maxDepth in
  let minPointsPerNode := default 5 minPointsPerNode in
  let boundingBox := calculateBoundingBox points in
  let root := mkNode boundingBox points None in
  if Z.of_nat (length points) >? minPointsPerNode
  then subdivideNode maxDepth minPointsPerNode root 0
  else Ok root.

(** *** Observations on a tree *)

(** The points held by the leaves below a node, left to right. *)
Fixpoint leafPoints (n : Node) : list Point :=
  match n with
  | mkNode _ pts None => pts
  | mkNode _ _ (Some cs) => flat_map leafPoints cs
  end.

(** Every node that has children holds no point of its own. *)
Fixpoint internalNodesEmpty (n : Node) : bool :=
  match n with
  | mkNode _ _ None => true
  | mkNode _ pts (Some cs) =>
      match pts with [] => true | _ => false end
      && forallb internalNodesEmpty cs
  end.

(** The leaf rule as the code applies it, for a node at depth [d] (the
    root is at depth 0) that was given [length (leafPoints n)] points: it
    has children exactly when it was given more than [minPointsPerNode]
    points and it is the root or its parent's depth is below [maxDepth]. *)
Fixpoint leafRule (maxDepth minPointsPerNode d : Z) (n : Node) : bool :=
  match n with
  | mkNode _ pts None =>
      (Z.of_nat (length pts) <=? minPointsPerNode)
      || ((0 <? d) && (maxDepth <=? d - 1))
  | mkNode _ _ (Some cs) =>
      (minPointsPerNode <? Z.of_nat (length (leafPoints n)))
      && ((d =? 0) || (d - 1 <? maxDepth))
      && forallb (leafRule maxDepth minPointsPerNode (d + 1)) cs
  end.

(** The leaf rule of the specification: a node is a leaf exactly when its
    depth equals [maxDepth] or it was given at most [minPointsPerNode]
    points. *)
Fixpoint specLeafRule (maxDepth minPointsPerNode d : Z) (n : Node) : bool :=
  match n with
  | mkNode _ pts None =>
      (d =? maxDepth) || (Z.of_nat (length pts) <=? minPointsPerNode)
  | mkNode _ _ (Some cs) =>
      negb ((d =? maxDepth)
            || (Z.of_nat (length (leafPoints n)) <=? minPointsPerNode))
      && forallb (specLeafRule maxDepth minPointsPerNode (d + 1)) cs
  end.

(** *** Main-thread fallbacks *)

Local Open Scope float_scope.

(** The parameter objects of the filters: absent keys are [undefined]. *)
Record FilterParams := mkFilterParams {
  radius : option number;
  minNeighbors : option number;
  factor : option Z
}.

(** The distance computed in the inner loop of [applyNoiseFilterLocal]. *)
Definition distance_between (point other : Point) : number :=
  Math_sqrt (Math_pow2 (px point - px other) +
             Math_pow2 (py point - py other) +
             Math_pow2 (pz point - pz other)).

(** The inner loop of [applyNoiseFilterLocal] for the point at index [i]:
    the count it ends with, [break] included. *)
Definition countNeighbors (points : list Point) (radius minNeighbors : number)
           (i : nat) (point : Point) : nat :=
  fst (fold_left
         (fun '(neighborCount, stop) '(j, other) =>
            if (stop : bool) then (neighborCount, stop)
            else if Nat.eqb i j then (neighborCount, false)
            else if distance_between point other <? radius
                 then (S neighborCount, geb (of_nat (S neighborCount)) minNeighbors)
                 else (neighborCount, false))
         (imap (fun j other => (j, other)) points)
         (O, false)).

Definition applyNoiseFilterLocal (points : list Point) (params : FilterParams)
  : list Point :=
  let radius := default 0.05 (radius params) in
  let minNeighbors := default 3 (minNeighbors params) in
  fold_left
    (fun result '(i, point) =>
       if geb (of_nat (countNeighbors points radius minNeighbors i point))
              minNeighbors
       then result ++ [point] else result)
    (imap (fun i point => (i, point)) points) [].

(** [applyDownsamplingLocal(points, factor)] for an integer [factor]. *)
Definition applyDownsamplingLocal (points : list Point) (factor : option Z)
  : list Point :=
  let factor := default 2%Z factor in
  if (factor <=? 1)%Z then points
  else
    let step := Z.to_nat factor in
    omap (fun k => points !! (k * step)%nat)
         (seq 0 ((length points + step - 1) / step)).

(** [applyTransformLocal(points, matrix)]; a [null] matrix is [None]. *)
Definition applyTransformLocal (points : list Point)
           (matrix : option (list number)) : list Point :=
  match matrix with
  | None => points
  | Some matrix =>
      let m := get matrix in
      map (fun point =>
             let x := m 0%nat * px point + m 4%nat * py point + m 8%nat * pz point + m 12%nat in
             let y := m 1%nat * px point + m 5%nat * py point + m 9%nat * pz point + m 13%nat in
             let z := m 2%nat * px point + m 6%nat * py point + m 10%nat * pz point + m 14%nat in
             let w := m 3%nat * px point + m 7%nat * py point + m 11%nat * pz point + m 15%nat in
             mkPoint (x / w) (y / w) (z / w) (pr point) (pg point) (pb point))
          points
  end.

(** The options of [processData]. *)
Record ProcessOptions := mkProcessOptions {
  noiseFilter : bool;
  noiseFilterParams : FilterParams;
  downsample : bool;
  downsampleFactor : option Z;
  transform : bool;
  transformMatrix : option (list number)
}.

(** The value the promise of [processDataLocally] is fulfilled with. *)
Definition processDataLocally (points : list Point) (options : ProcessOptions)
  : list Point :=
  let processed := points in
  let processed :=
    if noiseFilter options
    then applyNoiseFilterLocal processed (noiseFilterParams options)
    else processed in
  let processed :=
    if downsample options
    then applyDownsamplingLocal processed (downsampleFactor options)
    else processed in
  let processed :=
    if transform options
    then applyTransformLocal processed (transformMatrix options)
    else processed in
  processed.

(** *** Requests, callbacks and the worker's answers *)

(** A value received from the worker of which the code reads at most the
    [points] property: [absent] is [undefined], and an object is given by
    its [points] property and a name for the rest. *)
Inductive Payload :=
| absent
| object (points : option (list Point)) (rest : nat).

(** The [data] of a message from the worker. *)
Record Data := mkData {
  data_points : option (list Point);
  data_results : Payload;
  data_buffer : Payload;
  data_message : string;
  data_progress : Payload;
  data_stage : Payload
}.

(** A message from the worker, [{type, data, requestId}]. *)
Record WorkerMessage := mkWorkerMessage {
  type : string;
  data : Data;
  requestId : string
}.

(** The first argument of a callback. *)
Inductive Value :=
| VNull
| VData (d : Data)
| VPayload (p : Payload).

(** [result.points]. *)
Definition points_of (result : Value) : JS.result (option (list Point)) :=
  match result with
  | VData d => Ok (data_points d)
  | VPayload (object pts _) => Ok pts
  | VPayload absent | VNull =>
      Throw (TypeError "Cannot read properties of undefined (reading 'points')")
  end.

(** How a promise was settled. *)
Inductive Settlement :=
| Resolved (v : Value)
| Rejected (e : Exception).

(** The closures stored in [processingCallbacks]; each holds the
    [resolve] and [reject] of the promise [promise] it was made for. *)
Inductive Callback :=
| install_points (promise : nat)     (* processData, applyFilter, applyTransform *)
| install_analysis (promise : nat)   (* analyzeData *)
| hand_over (promise : nat).         (* generateBuffer *)

(** What the module posts to its worker. *)
Inductive WorkerRequest :=
| post_processData (requestId : string) (points : list Point)
                   (options : ProcessOptions)
| post_applyFilter (requestId : string) (filterType : string)
                   (points : list Point) (params : FilterParams)
| post_applyTransform (requestId : string) (points : list Point)
                      (transformMatrix : option (list number)).

(** What the module publishes on the event bus. *)
Inductive Publication :=
| pointCloud_filtered (points : option (list Point))
| pointCloud_analysisComplete (results : Payload)
| pointCloud_error (message : string)
| pointCloud_processingProgress (progress stage : Payload).

(** A continuation queued by [processData] on the main-thread path:
    [result => { processedPointData = result; resolve({ points: result }) }]. *)
Inductive Microtask :=
| install_local (result : list Point) (promise : nat).

(** The module's private variables, the promises it has handed out
    (absent from [promises] while pending), and its outputs. *)
Record State := mkState {
  rawPointData : option (list Point);
  processedPointData : option (list Point);
  worker : bool;
  processingCallbacks : gmap string Callback;
  analysisResults : Payload;
  promises : gmap nat Settlement;
  nextPromise : nat;
  microtasks : list Microtask;
  toWorker : list WorkerRequest;
  published : list Publication
}.

(** Assignments to the private variables. *)
Definition set_processedPointData (v : option (list Point)) (s : State) : State :=
  mkState (rawPointData s) v (worker s) (processingCallbacks s)
          (analysisResults s) (promises s) (nextPromise s) (microtasks s)
          (toWorker s) (published s).

Definition set_processingCallbacks (c : gmap string Callback) (s : State) : State :=
  mkState (rawPointData s) (processedPointData s) (worker s) c
          (analysisResults s) (promises s) (nextPromise s) (microtasks s)
          (toWorker s) (published s).

Definition set_analysisResults (r : Payload) (s : State) : State :=
  mkState (rawPointData s) (processedPointData s) (worker s)
          (processingCallbacks s) r (promises s) (nextPromise s)
          (microtasks s) (toWorker s) (published s).

Definition set_microtasks (q : list Microtask) (s : State) : State :=
  mkState (rawPointData s) (processedPointData s) (worker s)
          (processingCallbacks s) (analysisResults s) (promises s)
          (nextPromise s) q (toWorker s) (published s).

(** [new Promise(...)]: the promise gets the next free name. *)
Definition new_promise (s : State) : nat * State :=
  (nextPromise s,
   mkState (rawPointData s) (processedPointData s) (worker s)
           (processingCallbacks s) (analysisResults s) (promises s)
           (S (nextPromise s)) (microtasks s) (toWorker s) (published s)).

(** [resolve(v)] and [reject(e)]: no effect on a settled promise. *)
Definition settle (promise : nat) (o : Settlement) (s : State) : State :=
  match promises s !! promise with
  | Some _ => s
  | None =>
      mkState (rawPointData s) (processedPointData s) (worker s)
              (processingCallbacks s) (analysisResults s)
              (<[promise := o]> (promises s)) (nextPromise s) (microtasks s)
              (toWorker s) (published s)
  end.

Definition resolve (promise : nat) (v : Value) : State -> State :=
  settle promise (Resolved v).
Definition reject (promise : nat) (e : Exception) : State -> State :=
  settle promise (Rejected e).

(** [worker.postMessage(r)]. *)
Definition postMessage (r : WorkerRequest) (s : State) : State :=
  mkState (rawPointData s) (processedPointData s) (worker s)
          (processingCallbacks s) (analysisResults s) (promises s)
          (nextPromise s) (microtasks s) (toWorker s ++ [r]) (published s).

(** [EventBus.publish(...)]. *)
Definition publish (e : Publication) (s : State) : State :=
  mkState (rawPointData s) (processedPointData s) (worker s)
          (processingCallbacks s) (analysisResults s) (promises s)
          (nextPromise s) (microtasks s) (toWorker s) (published s ++ [e]).

(** Calling a stored closure with [(result, error)].  The second
    component tells whether the call threw. *)
Definition invoke (cb : Callback) (result : Value) (error : option Exception)
           (s : State) : State * bool :=
  match cb, error with
  | install_points p, Some e => (reject p e s, false)
  | install_points p, None =>
      match points_of result with
      | Ok pts => (resolve p result (set_processedPointData pts s), false)
      | Throw _ => (s, true)
      end
  | install_analysis p, Some e => (reject p e s, false)
  | install_analysis p, None =>
      let results :=
        match result with
        | VPayload r => r
        | VData d => object (data_points d) 0
        | VNull => absent
        end in
      (resolve p result (set_analysisResults results s), false)
  | hand_over p, Some e => (reject p e s, false)
  | hand_over p, None => (resolve p result s, false)
  end.

(** [if (processingCallbacks[requestId]) { processingCallbacks[requestId](...);
    delete processingCallbacks[requestId]; }], then the rest [k] of the
    case unless the callback threw.  [processingCallbacks] is a plain
    object: the lookup below is its property read for every [requestId]
    that is none of the names an object inherits from [Object.prototype]
    (see [JS.inherited]), as are all ids that [generateRequestId] makes;
    for an inherited name the read gives the inherited member instead of
    [undefined], which this table does not represent. *)
Definition answer (requestId : string) (result : Value)
           (error : option Exception) (k : State -> State) (s : State) : State :=
  match processingCallbacks s !! requestId with
  | Some cb =>
      let (s', threw) := invoke cb result error s in
      if threw then s'
      else k (set_processingCallbacks (delete requestId (processingCallbacks s')) s')
  | None => k s
  end.

(** [worker.onmessage]. *)
Definition onmessage (e : WorkerMessage) (s : State) : State :=
  let data := data e in
  let requestId := requestId e in
  if String.eqb (type e) "filterComplete" then
    let s := set_processedPointData (data_points data) s in
    answer requestId (VData data) None
           (fun s => publish (pointCloud_filtered (processedPointData s)) s) s
  else if String.eqb (type e) "analysisComplete" then
    let s := set_analysisResults (data_results data) s in
    answer requestId (VPayload (data_results data)) None
           (fun s => publish (pointCloud_analysisComplete (analysisResults s)) s) s
  else if String.eqb (type e) "bufferGenerated" then
    answer requestId (VPayload (data_buffer data)) None (fun s => s) s
  else if String.eqb (type e) "error" then
    answer requestId VNull (Some (Error (data_message data)))
           (publish (pointCloud_error (data_message data))) s
  else if String.eqb (type e) "progress" then
    publish (pointCloud_processingProgress (data_progress data) (data_stage data)) s
  else s.

(** [{ points: result }]. *)
Definition points_object (result : list Point) : Value :=
  VData (mkData (Some result) absent absent "" absent absent).

(** [processData(options)]; [requestId] is what [generateRequestId]
    returned.  The result is the promise returned. *)
Definition processData (options : ProcessOptions) (requestId : string)
           (s : State) : nat * State :=
  let (p, s) := new_promise s in
  match rawPointData s with
  | None => (p, reject p (Error "処理するデータがありません") s)
  | Some raw =>
      if worker s then
        let s := set_processingCallbacks
                   (<[requestId := install_points p]> (processingCallbacks s)) s in
        (p, postMessage (post_processData requestId raw options) s)
      else
        (p, set_microtasks
              (microtasks s ++ [install_local (processDataLocally raw options) p]) s)
  end.

(** [applyFilter(filterType, params)]. *)
Definition applyFilter (filterType : string) (params : FilterParams)
           (requestId : string) (s : State) : nat * State :=
  let (p, s) := new_promise s in
  match processedPointData s with
  | None => (p, reject p (Error "処理するデータがありません") s)
  | Some processed =>
      if worker s then
        let s := set_processingCallbacks
                   (<[requestId := install_points p]> (processingCallbacks s)) s in
        (p, postMessage (post_applyFilter requestId filterType processed params) s)
      else
        let install result :=
          resolve p (points_object result)
                  (set_processedPointData (Some result) s) in
        if String.eqb filterType "noise" then
          (p, install (applyNoiseFilterLocal processed params))
        else if String.eqb filterType "downsample" then
          (p, install (applyDownsamplingLocal processed (factor params)))
        else
          (p, reject p (Error ("未知のフィルタータイプ: " ++ filterType)) s)
  end.

(** [applyTransform(transformMatrix)]. *)
Definition applyTransform (transformMatrix : option (list number))
           (requestId : string) (s : State) : nat * State :=
  let (p, s) := new_promise s in
  match processedPointData s with
  | None => (p, reject p (Error "処理するデータがありません") s)
  | Some processed =>
      if worker s then
        let s := set_processingCallbacks
                   (<[requestId := install_points p]> (processingCallbacks s)) s in
        (p, postMessage (post_applyTransform requestId processed transformMatrix) s)
      else
        let result := applyTransformLocal processed transformMatrix in
        (p, resolve p (points_object result)
                    (set_processedPointData (Some result) s))
  end.

(** The first queued continuation runs. *)
Definition run_microtask (s : State) : State :=
  match microtasks s with
  | [] => s
  | install_local result p :: rest =>
      resolve p (points_object result)
              (set_processedPointData (Some result) (set_microtasks rest s))
  end.

(** The three requests that install a result. *)
Inductive Request :=
| request_processData (options : ProcessOptions)
| request_applyFilter (filterType : string) (params : FilterParams)
| request_applyTransform (transformMatrix : option (list number)).

(** Making a request; the result is the promise returned. *)
Definition call (r : Request) (requestId : string) (s : State) : nat * State :=
  match r with
  | request_processData options => processData options requestId s
  | request_applyFilter filterType params => applyFilter filterType params requestId s
  | request_applyTransform m => applyTransform m requestId s
  end.

(** The data a request works on; [None] when the request is refused for
    lack of data. *)
Definition input_of (r : Request) (s : State) : option (list Point) :=
  match r with
  | request_processData _ => rawPointData s
  | _ => processedPointData s
  end.

(** A message of type ['error'] for [requestId]. *)
Definition error_message (requestId message : string) : WorkerMessage :=
  mkWorkerMessage "error" (mkData None absent absent message absent absent)
                  requestId.

(** What can happen to the module between two points in time. *)
Inductive Event :=
| called (r : Request) (requestId : string)
| received (e : WorkerMessage)
| worker_failed
| microtask_ran.

(** [worker.onerror]. *)
Definition onerror (s : State) : State :=
  publish (pointCloud_error "Worker処理中にエラーが発生しました") s.

(** The state after an event, and after a sequence of events. *)
Definition step (ev : Event) (s : State) : State :=
  match ev with
  | called r requestId => snd (call r requestId s)
  | received e => onmessage e s
  | worker_failed => onerror s
  | microtask_ran => run_microtask s
  end.

Definition run (evs : list Event) (s : State) : State :=
  fold_left (fun s ev => step ev s) evs s.

(** *** Render buffers and analysis (main thread) *)

(** [{positions, colors, count}]; each array is a [Float32Array]. *)
Record RenderBuffer := mkRenderBuffer {
  positions : list number;
  colors : list number;
  count : nat
}.

(** [(c !== undefined) ? c / 255 : 1.0]. *)
Definition colorChannel (c : option number) : number :=
  match c with
  | Some c => c / 255
  | None => 1.0
  end.

(** [a[i] = v] on a [Float32Array]: the value is rounded to binary32, and
    a store past the end is ignored. *)
Definition store32 (i : nat) (v : number) (a : list number) : list number :=
  <[i := Math_fround v]> a.

(** [generateBufferLocal(points)]. *)
Definition generateBufferLocal (points : list Point) : RenderBuffer :=
  let pointCount := length points in
  let positions := replicate (pointCount * 3) 0 in
  let colors := replicate (pointCount * 3) 0 in
  let '(positions, colors) :=
    fold_left
      (fun '(positions, colors) '(i, point) =>
         let positions := store32 (i * 3) (px point) positions in
         let positions := store32 (i * 3 + 1) (py point) positions in
         let positions := store32 (i * 3 + 2) (pz point) positions in
         let colors := store32 (i * 3) (colorChannel (pr point)) colors in
         let colors := store32 (i * 3 + 1) (colorChannel (pg point)) colors in
         let colors := store32 (i * 3 + 2) (colorChannel (pb point)) colors in
         (positions, colors))
      (imap (fun i point => (i, point)) points)
      (positions, colors) in
  mkRenderBuffer positions colors pointCount.

(** The object [analyzeDataLocal] returns for a non-empty input. *)
Record Analysis := mkAnalysis {
  analysis_pointCount : nat;
  analysis_boundingBox : Box;
  analysis_dimensions : Vec3;
  analysis_center : Vec3;
  analysis_volume : number;
  analysis_density : number
}.

(** What [analyzeDataLocal] returns: [{error}] or the analysis. *)
Inductive AnalysisResult :=
| analysis_error (error : string)
| analysis (a : Analysis).

(** The running values [minX .. maxZ] and [sumX .. sumZ] of the loop. *)
Record Running := mkRunning {
  running_min : Vec3;
  running_max : Vec3;
  running_sum : Vec3
}.

(** [analyzeDataLocal(points)]; [null] or [undefined] points are [None]. *)
Definition analyzeDataLocal (points : option (list Point)) : AnalysisResult :=
  match points with
  | None | Some [] => analysis_error "データがありません"
  | Some points =>
      let r :=
        fold_left
          (fun r p =>
             mkRunning
               (mkVec3 (Math_min (vx (running_min r)) (px p))
                       (Math_min (vy (running_min r)) (py p))
                       (Math_min (vz (running_min r)) (pz p)))
               (mkVec3 (Math_max (vx (running_max r)) (px p))
                       (Math_max (vy (running_max r)) (py p))
                       (Math_max (vz (running_max r)) (pz p)))
               (mkVec3 (vx (running_sum r) + px p)
                       (vy (running_sum r) + py p)
                       (vz (running_sum r) + pz p)))
          points
          (mkRunning (mkVec3 infinity infinity infinity)
                     (mkVec3 neg_infinity neg_infinity neg_infinity)
                     (mkVec3 0 0 0)) in
      let count := length points in
      let avgX := vx (running_sum r) / of_nat count in
      let avgY := vy (running_sum r) / of_nat count in
      let avgZ := vz (running_sum r) / of_nat count in
      let dimensionX := vx (running_max r) - vx (running_min r) in
      let dimensionY := vy (running_max r) - vy (running_min r) in
      let dimensionZ := vz (running_max r) - vz (running_min r) in
      let volume := dimensionX * dimensionY * dimensionZ in
      let density := of_nat count / volume in
      analysis
        (mkAnalysis count
                    (mkBox (running_min r) (running_max r))
                    (mkVec3 dimensionX dimensionY dimensionZ)
                    (mkVec3 avgX avgY avgZ)
                    volume density)
  end.

(** *** The octree kept by the module *)

(** The module's variables together with its private [octree]. *)
Record Kept := mkKept {
  state : State;
  octree : option Node
}.

(** [getPointData()]: [processedPointData || []]. *)
Definition getPointData (m : Kept) : list Point :=
  default [] (processedPointData (state m)).

(** [getOctree()]. *)
Definition getOctree (m : Kept) : option Node := octree m.

(** The public [buildOctree(maxDepth, minPointsPerNode)]: how the promise
    it returns is settled, and the module afterwards. *)
Definition buildOctree_api (maxDepth minPointsPerNode : option Z) (m : Kept)
  : JS.result Node * Kept :=
  match processedPointData (state m) with
  | None => (Throw (Error "Octreeを構築するデータがありません"), m)
  | Some processed =>
      match octree m with
      | Some tree => (Ok tree, m)
      | None =>
          match buildOctree processed maxDepth minPointsPerNode with
          | Ok tree => (Ok tree, mkKept (state m) (Some tree))
          | Throw e => (Throw e, m)
          end
      end
  end.

(** What can happen to the module and its octree: an event of the
    request bookkeeping, which leaves [octree] alone, or a call of the
    public [buildOctree].  New data arriving over the event bus, which
    resets [octree], is not among these events. *)
Inductive ModuleEvent :=
| on_state (ev : Event)
| octree_requested (maxDepth minPointsPerNode : option Z).

Definition module_step (ev : ModuleEvent) (m : Kept) : Kept :=
  match ev with
  | on_state ev => mkKept (step ev (state m)) (octree m)
  | octree_requested maxDepth minPointsPerNode =>
      snd (buildOctree_api maxDepth minPointsPerNode m)
  end.

Definition module_run (evs : list ModuleEvent) (m : Kept) : Kept :=
  fold_left (fun m ev => module_step ev m) evs m.

End Processor.

(* ===================================================================== *)
(** ** workers/pointCloudWorker.js                                        *)
(* ===================================================================== *)

Module Worker.

Local Open Scope float_scope.

(** The constants of the file. *)
Definition CHUNK_SIZE : Z := 100000.
Definition MIN_DISTANCE : number := 0.01.
Definition DEFAULT_SAMPLING_RATE : number := 0.5.

(** The messages the worker posts, one constructor per [status] text.
    The [processTime] field of ['completed'], a difference of two clock
    readings, is not represented. *)
Inductive Message :=
| started (totalPoints : number)
| filtering (totalPoints : number)
| filtered (data : list number) (pointCount : number)
| downsampling (totalPoints : number)
| downsampled (data : list number) (pointCount : number)
| transforming (totalPoints : number)
| transformed (data : list number) (pointCount : number)
| optimizing (totalPoints : number)
| optimized (data : list number) (structure : string)
| progress (value : number) (operation : string)
| info (message : string)
| completed (data : list number) (pointCount : number)
| error (message : string).

(** What the worker's code acts on besides its arguments: the messages
    posted so far, and the values the coming calls of [Math.random] will
    return. *)
Record World := mkWorld {
  outbox : list Message;
  entropy : nat -> number
}.

(** Code with effects on the world. *)
Definition W (A : Type) : Type := World -> A * World.

(** [return a] and sequencing. *)
Definition ret {A} (a : A) : W A := fun w => (a, w).

Definition seq_ {A B} (m : W A) (k : A -> W B) : W B :=
  fun w => let (a, w') := m w in k a w'.

Declare Scope worker_scope.
Delimit Scope worker_scope with worker.
Notation "x <- m ;; k" := (seq_ m (fun x => k))
  (at level 100, m at next level, right associativity) : worker_scope.
Notation "m ;; k" := (seq_ m (fun _ => k))
  (at level 100, right associativity) : worker_scope.
Local Open Scope worker_scope.

(** [self.postMessage(m)]. *)
Definition postMessage (m : Message) : W unit :=
  fun w => (tt, mkWorld (outbox w ++ [m]) (entropy w)).

(** [Math.random()]. *)
Definition Math_random : W number :=
  fun w => (entropy w O, mkWorld (outbox w) (fun n => entropy w (S n))).

(** [if (b) m]. *)
Definition when (b : bool) (m : W unit) : W unit :=
  if b then m else ret tt.

(** A loop that threads the variables [s] it updates through its
    iterations. *)
Fixpoint foldM {A S} (body : S -> A -> W S) (l : list A) (s : S) : W S :=
  match l with
  | [] => ret s
  | a :: l' => s' <- body s a ;; foldM body l' s'
  end.

(** The values [i] takes in [for (let i = 0; i < length; i += 3)]. *)
Definition stride3 (length : nat) : list nat :=
  map (fun k => (3 * k)%nat) (seq 0 ((length + 2) / 3)).

(** [i % CHUNK_SIZE === 0]. *)
Definition is_chunk_start (i : nat) : bool :=
  (Z.of_nat i mod CHUNK_SIZE =? 0)%Z.

(** The option objects.  A key that is absent reads as [undefined]. *)
Record Options := mkOptions {
  threshold : option number;
  method : option string;
  rate : option number;
  voxelSize : option number;
  matrix : option (list number)
}.

(** [{}]. *)
Definition no_options : Options := mkOptions None None None None None.

(** The options of ['process']: the keys naming the stages to run. *)
Record PipelineOptions := mkPipelineOptions {
  filter : option Options;
  downsample : option Options;
  transform : option Options;
  optimize : option Options
}.

(** [v || d] on a number: [v] unless it is [undefined], 0 or NaN. *)
Definition or_else (v : option number) (d : number) : number :=
  match v with
  | Some v => if is_zero v || is_nan v then d else v
  | None => d
  end.

(** [pointData.length / 3]. *)
Definition totalPoints_of (pointData : list number) : number :=
  of_nat (length pointData) / 3.

(** *** Filters *)

Definition statisticalOutlierRemoval (pointData : list number)
           (stdDevMultiplier : option number) : W (list number) :=
  let stdDevMultiplier := default 1.0 stdDevMultiplier in
  positions <-
    foldM (fun positions i =>
             ret (positions ++ [[get pointData i; get pointData (i + 1);
                                 get pointData (i + 2)]]))
          (stride3 (length pointData)) [] ;;
  ret pointData.

Definition radiusOutlierRemoval (pointData : list number)
           (radius : option number) (minNeighbors : option number)
  : W (list number) :=
  let radius := default 0.05 radius in
  let minNeighbors := default 2 minNeighbors in
  ret pointData.

Definition distanceFilter (pointData : list number)
           (maxDistance : option number) : W (list number) :=
  let maxDistance := default 10.0 maxDistance in
  foldM (fun filtered i =>
           let x := get pointData i in
           let y := get pointData (i + 1) in
           let z := get pointData (i + 2) in
           let distance := Math_sqrt (x * x + y * y + z * z) in
           let filtered :=
             if distance <=? maxDistance then filtered ++ [x; y; z]
             else filtered in
           when (is_chunk_start i)
                (postMessage
                   (progress (of_nat i / of_nat (length pointData))
                             "filtering")) ;;
           ret filtered)
        (stride3 (length pointData)) [].

Definition filterPointCloud (pointData : list number) (options : Options)
           (returnResult : bool) : W (list number) :=
  let threshold := default MIN_DISTANCE (threshold options) in
  let method := default "statistical"%string (method options) in
  let totalPoints := totalPoints_of pointData in
  when returnResult (postMessage (filtering totalPoints)) ;;
  filteredData <-
    (if String.eqb method "statistical" then
       statisticalOutlierRemoval pointData (Some threshold)
     else if String.eqb method "radius" then
       radiusOutlierRemoval pointData (Some threshold) None
     else
       distanceFilter pointData (Some threshold)) ;;
  when returnResult
       (postMessage (filtered filteredData (totalPoints_of filteredData))) ;;
  ret filteredData.

(** *** Downsampling *)

Definition randomDownsampling (pointData : list number)
           (rate : option number) : W (list number) :=
  let rate := default 0.5 rate in
  if geb rate 1.0 then ret pointData
  else
    foldM (fun result i =>
             r <- Math_random ;;
             let result :=
               if r <=? rate
               then result ++ [get pointData i; get pointData (i + 1);
                               get pointData (i + 2)]
               else result in
             when (is_chunk_start i)
                  (postMessage
                     (progress (of_nat i / of_nat (length pointData))
                               "downsampling")) ;;
             ret result)
          (stride3 (length pointData)) [].

(** The key text of a voxel, [`${vx},${vy},${vz}`]. *)
Definition VoxelKey : Type := FloorText * FloorText * FloorText.

(** A voxel accumulator [{sum: [sx, sy, sz], count}]. *)
Record Voxel := mkVoxel {
  sum : number * number * number;
  count : nat
}.

(** A [Map] from key texts to accumulators: its entries in insertion
    order, which is the order [values()] iterates in. *)
Definition VoxelMap : Type := list (VoxelKey * Voxel).

Definition Map_has (m : VoxelMap) (key : VoxelKey) : bool :=
  existsb (fun e => bool_decide (fst e = key)) m.

(** [m.set(key, v)]: a new key goes last, a present key keeps its place. *)
Fixpoint Map_set (m : VoxelMap) (key : VoxelKey) (v : Voxel) : VoxelMap :=
  match m with
  | [] => [(key, v)]
  | e :: m' =>
      if bool_decide (fst e = key) then (key, v) :: m'
      else e :: Map_set m' key v
  end.

(** An update of the object that [m.get(key)] returns: the map holds the
    object, so the update is seen in the map. *)
Fixpoint Map_update (m : VoxelMap) (key : VoxelKey) (f : Voxel -> Voxel)
  : VoxelMap :=
  match m with
  | [] => []
  | e :: m' =>
      if bool_decide (fst e = key) then (fst e, f (snd e)) :: m'
      else e :: Map_update m' key f
  end.

Definition Map_values (m : VoxelMap) : list Voxel := map snd m.

Definition voxelKey (voxelSize x y z : number) : VoxelKey :=
  (floorText (x / voxelSize), floorText (y / voxelSize),
   floorText (z / voxelSize)).

Definition accumulate (x y z : number) (voxel : Voxel) : Voxel :=
  let '(s0, s1, s2) := sum voxel in
  mkVoxel (s0 + x, s1 + y, s2 + z) (S (count voxel)).

Definition centroid (voxel : Voxel) : list number :=
  let '(s0, s1, s2) := sum voxel in
  [s0 / of_nat (count voxel); s1 / of_nat (count voxel);
   s2 / of_nat (count voxel)].

Definition voxelDownsampling (pointData : list number)
           (voxelSize : option number) : W (list number) :=
  let voxelSize := default 0.05 voxelSize in
  voxels <-
    foldM (fun voxels i =>
             let x := get pointData i in
             let y := get pointData (i + 1) in
             let z := get pointData (i + 2) in
             let key := voxelKey voxelSize x y z in
             let voxels :=
               if negb (Map_has voxels key)
               then Map_set voxels key (mkVoxel (x, y, z) 1)
               else Map_update voxels key (accumulate x y z) in
             when (is_chunk_start i)
                  (postMessage
                     (progress (of_nat i / of_nat (length pointData))
                               "voxel-downsampling")) ;;
             ret voxels)
          (stride3 (length pointData)) ([] : VoxelMap) ;;
  let totalVoxels := length voxels in
  out <-
    foldM (fun '(result, done) voxel =>
             let result := result ++ centroid voxel in
             let done := S done in
             when (Z.of_nat done mod 1000 =? 0)%Z
                  (postMessage
                     (progress (of_nat done / of_nat totalVoxels)
                               "voxel-centroid")) ;;
             ret (result, done))
          (Map_values voxels) ([], O) ;;
  ret (fst out).

Definition downsamplePointCloud (pointData : list number) (options : Options)
           (returnResult : bool) : W (list number) :=
  let rate := default DEFAULT_SAMPLING_RATE (rate options) in
  let method := default "random"%string (method options) in
  let totalPoints := totalPoints_of pointData in
  when returnResult (postMessage (downsampling totalPoints)) ;;
  downsampledData <-
    (if String.eqb method "voxel" then
       voxelDownsampling pointData (Some (or_else (voxelSize options) 0.05))
     else
       randomDownsampling pointData (Some rate)) ;;
  when returnResult
       (postMessage
          (downsampled downsampledData (totalPoints_of downsampledData))) ;;
  ret downsampledData.

(** *** Transform *)

(** [applyTransformation(pointData, matrix)].  The result is a
    [Float32Array] of the input's length, zero at first: a store rounds to
    binary32, and a store past the end does nothing. *)
Definition applyTransformation (pointData : list number)
           (matrix : list number) : W (list number) :=
  let m := get matrix in
  foldM (fun result i =>
           let x := get pointData i in
           let y := get pointData (i + 1) in
           let z := get pointData (i + 2) in
           let result :=
             <[i := Math_fround (m 0%nat * x + m 1%nat * y + m 2%nat * z + m 3%nat)]> result in
           let result :=
             <[(i + 1)%nat := Math_fround (m 4%nat * x + m 5%nat * y + m 6%nat * z + m 7%nat)]> result in
           let result :=
             <[(i + 2)%nat := Math_fround (m 8%nat * x + m 9%nat * y + m 10%nat * z + m 11%nat)]> result in
           when (is_chunk_start i)
                (postMessage
                   (progress (of_nat i / of_nat (length pointData))
                             "transforming")) ;;
           ret result)
        (stride3 (length pointData)) (replicate (length pointData) 0).

(** The default of [matrix]. *)
Definition identity_matrix : list number :=
  [1; 0; 0; 0;  0; 1; 0; 0;  0; 0; 1; 0;  0; 0; 0; 1].

Definition transformPointCloud (pointData : list number) (options : Options)
           (returnResult : bool) : W (list number) :=
  let matrix := default identity_matrix (matrix options) in
  let totalPoints := totalPoints_of pointData in
  when returnResult (postMessage (transforming totalPoints)) ;;
  result <- applyTransformation pointData matrix ;;
  when returnResult
       (postMessage (transformed result (totalPoints_of result))) ;;
  ret result.

(** *** Data structures *)

Definition buildOctree (pointData : list number) : W (list number) :=
  postMessage (info "Building octree structure") ;;
  ret pointData.

Definition buildKdTree (pointData : list number) : W (list number) :=
  postMessage (info "Building KD-tree structure") ;;
  ret pointData.

Definition reorderPoints (pointData : list number) : W (list number) :=
  postMessage (info "Reordering points for improved memory locality") ;;
  ret pointData.

Definition optimizeDataStructure (pointData : list number)
           (options : Options) (returnResult : bool) : W (list number) :=
  let method := default "octree"%string (method options) in
  let totalPoints := totalPoints_of pointData in
  when returnResult (postMessage (optimizing totalPoints)) ;;
  optimizedData <-
    (if String.eqb method "octree" then buildOctree pointData
     else if String.eqb method "kdtree" then buildKdTree pointData
     else reorderPoints pointData) ;;
  when returnResult (postMessage (optimized optimizedData method)) ;;
  ret optimizedData.

(** *** The pipeline and the message handler *)

(** [if (options.stage) processedData = stage(processedData, options.stage, false)]. *)
Definition run_stage (stage : list number -> Options -> bool -> W (list number))
           (stage_options : option Options) (processedData : list number)
  : W (list number) :=
  match stage_options with
  | Some o => stage processedData o false
  | None => ret processedData
  end.

Definition processPointCloud (pointData : list number)
           (options : PipelineOptions) : W (list number) :=
  let totalPoints := totalPoints_of pointData in
  postMessage (started totalPoints) ;;
  processedData <- run_stage filterPointCloud (filter options) pointData ;;
  processedData <-
    run_stage downsamplePointCloud (downsample options) processedData ;;
  processedData <-
    run_stage transformPointCloud (transform options) processedData ;;
  processedData <-
    run_stage optimizeDataStructure (optimize options) processedData ;;
  postMessage (completed processedData (totalPoints_of processedData)) ;;
  ret processedData.

(** The [options] of an incoming message: read as stage options by the
    stage commands and as pipeline options by ['process']. *)
Record Request := mkRequest {
  cmd : string;
  data : list number;
  options : Options;
  stages : PipelineOptions
}.

(** [self.onmessage]: the only [throw] is the one for an unknown command,
    and the handler catches it itself. *)
Definition onmessage (e : Request) : W unit :=
  if String.eqb (cmd e) "process" then
    processPointCloud (data e) (stages e) ;; ret tt
  else if String.eqb (cmd e) "filter" then
    filterPointCloud (data e) (options e) true ;; ret tt
  else if String.eqb (cmd e) "downsample" then
    downsamplePointCloud (data e) (options e) true ;; ret tt
  else if String.eqb (cmd e) "transform" then
    transformPointCloud (data e) (options e) true ;; ret tt
  else if String.eqb (cmd e) "optimize" then
    optimizeDataStructure (data e) (options e) true ;; ret tt
  else
    postMessage (error ("Unknown command: " ++ cmd e)).

(** Running worker code from a world with an empty outbox. *)
Definition fresh (entropy : nat -> number) : World := mkWorld [] entropy.

(** What the code returns, and the outbox it leaves. *)
Definition value {A} (m : W A) (w : World) : A := fst (m w).
Definition posted {A} (m : W A) (w : World) : list Message :=
  outbox (snd (m w)).

(** *** Point sets as flat buffers *)

(** A point of a flat buffer: its three coordinates. *)
Definition Triple : Type := number * number * number.

(** [x, y, z]. *)
Definition flat (p : Triple) : list number :=
  let '(x, y, z) := p in [x; y; z].

(** The buffer [x0, y0, z0, x1, y1, z1, ...] of a point set. *)
Definition buffer (points : list Triple) : list number :=
  flat_map flat points.

(** [sqrt(x*x + y*y + z*z)], the distance to the origin. *)
Definition distance_to_origin (p : Triple) : number :=
  let '(x, y, z) := p in Math_sqrt (x * x + y * y + z * z).

End Worker.

(* ===================================================================== *)
(** * Notions used to state the properties                                *)
(* ===================================================================== *)

Section OctreeNotions.

Import Processor.
Local Open Scope float_scope.

(** A node as [createNode] makes it for a child: a box and no children. *)
Definition fresh_leaf (n : Node) : Prop :=
  children n = None /\ is_Some (boundingBox n).

(** What a child of a node at depth [d] is turned into. *)
Definition child_ok (maxDepth minPointsPerNode d : Z) (child child' : Node) : Prop :=
  internalNodesEmpty child' = true /\
  leafPoints child' ≡ₚ points child /\
  leafRule maxDepth minPointsPerNode (d + 1) child' = true.

(** A point object without colour. *)
Definition corner (x y z : number) : Point := mkPoint x y z None None None.

End OctreeNotions.

Section WorkerNotions.

Import Worker.
Local Open Scope worker_scope.
Local Open Scope float_scope.

(** The three numbers read at index [i]. *)
Definition reads (pointData : list number) (i : nat) : Triple :=
  (get pointData i, get pointData (i + 1), get pointData (i + 2)).

(** [distance3D(point, origin) <= maxDistance]. *)
Definition within (maxDistance : number) (p : Triple) : bool :=
  distance_to_origin p <=? maxDistance.

(** The branch of [filterPointCloud] that computes the result. *)
Definition filter_stage (pointData : list number) (options : Options)
  : W (list number) :=
  let threshold := default MIN_DISTANCE (threshold options) in
  let method := default "statistical"%string (method options) in
  if String.eqb method "statistical" then
    statisticalOutlierRemoval pointData (Some threshold)
  else if String.eqb method "radius" then
    radiusOutlierRemoval pointData (Some threshold) None
  else
    distanceFilter pointData (Some threshold).

(** The statistical filter as the specification words it: the mean
    distance of each point to the other points, the mean and the standard
    deviation of these values over all points, and the points whose value
    is at most [mean + stdDevMultiplier * stddev]. *)
Definition spec_distance (p q : Triple) : number :=
  let '(x1, y1, z1) := p in
  let '(x2, y2, z2) := q in
  Math_sqrt ((x2 - x1) * (x2 - x1) + (y2 - y1) * (y2 - y1) + (z2 - z1) * (z2 - z1)).

Definition spec_sum (l : list number) : number := fold_left PrimFloat.add l 0.

Definition spec_mean_neighbor_distance (pts : list Triple) (i : nat) (p : Triple)
  : number :=
  spec_sum (imap (fun j q => if Nat.eqb i j then 0 else spec_distance p q) pts)
  / of_nat (length pts - 1).

Definition spec_statistical_filter (stdDevMultiplier : number) (pts : list Triple)
  : list Triple :=
  let d := imap (spec_mean_neighbor_distance pts) pts in
  let n := of_nat (length pts) in
  let global_mean := spec_sum d / n in
  let global_stddev :=
    Math_sqrt (spec_sum (map (fun v => (v - global_mean) * (v - global_mean)) d) / n) in
  map fst
      (List.filter (fun pv => snd pv <=? global_mean + stdDevMultiplier * global_stddev)
                   (combine pts d)).

(** The message is an ['error']. *)
Definition is_error (m : Message) : bool :=
  match m with
  | error _ => true
  | _ => false
  end.

(** Code that posts messages, none of them an error, and leaves the rest of
    the outbox as it is. *)
Definition quiet {A} (m : W A) : Prop :=
  forall w, exists msgs,
    outbox (snd (m w)) = outbox w ++ msgs /\ forallb (fun x => negb (is_error x)) msgs = true.

(** The method names that the stages test for. *)
Definition knows_filter_method (m : string) : bool :=
  String.eqb m "statistical" || String.eqb m "radius".
Definition knows_downsample_method (m : string) : bool :=
  String.eqb m "voxel".
Definition knows_index_method (m : string) : bool :=
  String.eqb m "octree" || String.eqb m "kdtree".

(** Filter options that name a method no stage tests for. *)
Definition bogus_filter : Options :=
  mkOptions None (Some "bogus"%string) None None None.

(** The voxel of a point. *)
Definition key_of (voxelSize : number) (p : Triple) : VoxelKey :=
  let '(x, y, z) := p in voxelKey voxelSize x y z.

(** The distinct elements of a list, in the order of their first
    occurrences. *)
Definition occupied {K} `{EqDecision K} (keys : list K) : list K :=
  reverse (remove_dups (reverse keys)).

(** The points of a voxel, in input order. *)
Definition members (voxelSize : number) (k : VoxelKey) (pts : list Triple)
  : list Triple :=
  base.filter (fun p => key_of voxelSize p = k) pts.

(** [a1 + a2 + ... + an], added from left to right as the loop does. *)
Definition sum_in_order (l : list number) : number :=
  match l with
  | [] => 0
  | a :: l' => fold_left PrimFloat.add l' a
  end.

(** The arithmetic mean of a group of points, coordinate by coordinate. *)
Definition mean_point (group : list Triple) : list number :=
  let n := of_nat (length group) in
  [sum_in_order (map (fun p => fst (fst p)) group) / n;
   sum_in_order (map (fun p => snd (fst p)) group) / n;
   sum_in_order (map snd group) / n].

(** One iteration of the first loop, on the voxel map. *)
Definition insert_point (voxelSize : number) (voxels : VoxelMap) (p : Triple)
  : VoxelMap :=
  let '(x, y, z) := p in
  let key := voxelKey voxelSize x y z in
  if negb (Map_has voxels key)
  then Map_set voxels key (mkVoxel (x, y, z) 1)
  else Map_update voxels key (accumulate x y z).

(** [accumulate] for a point. *)
Definition add_point (v : Voxel) (p : Triple) : Voxel :=
  let '(x, y, z) := p in accumulate x y z v.

(** The accumulator of a group: its first point, then the others added. *)
Definition total (group : list Triple) : Voxel :=
  match group with
  | [] => mkVoxel (0, 0, 0) 0
  | p :: rest => fold_left add_point rest (mkVoxel p 1)
  end.

(** The points of a flat buffer. *)
Fixpoint triples (pointData : list number) : list Triple :=
  match pointData with
  | x :: y :: z :: rest => (x, y, z) :: triples rest
  | _ => []
  end.

(** The 8 corners of the unit cube. *)
Definition unit_cube : list Triple :=
  [(0, 0, 0); (1, 0, 0); (0, 1, 0); (1, 1, 0);
   (0, 0, 1); (1, 0, 1); (0, 1, 1); (1, 1, 1)].

(** What the worker computes for one point: the first three rows of the
    matrix, read row by row, applied to (x, y, z, 1), each result rounded to
    binary32.  Entries 12 to 15 of the matrix are not read. *)
Definition worker_transform (matrix : list number) (p : Triple) : Triple :=
  let '(x, y, z) := p in
  let m := get matrix in
  (Math_fround (m 0%nat * x + m 1%nat * y + m 2%nat * z + m 3%nat),
   Math_fround (m 4%nat * x + m 5%nat * y + m 6%nat * z + m 7%nat),
   Math_fround (m 8%nat * x + m 9%nat * y + m 10%nat * z + m 11%nat)).

(** One iteration of the loop of [applyTransformation], on the result. *)
Definition store_point (matrix : list number) (result : list number)
           (ip : nat * Triple) : list number :=
  let '(i, p) := ip in
  let '(a, b, c) := worker_transform matrix p in
  <[(i + 2)%nat := c]> (<[(i + 1)%nat := b]> (<[i := a]> result)).

(** The homogeneous transform of the specification: the 4x4 matrix applied
    to (x, y, z, 1), then the division by the resulting w.  The entries are
    laid out row by row, as [applyTransformation] reads them, in
    [spec_transform_rows], and column by column, as [applyTransformLocal]
    and [Matrix4.transformPoint] read them, in [spec_transform_columns]. *)
Definition spec_transform_rows (matrix : list number) (p : Triple) : Triple :=
  let '(x, y, z) := p in
  let m := get matrix in
  let x' := m 0%nat * x + m 1%nat * y + m 2%nat * z + m 3%nat in
  let y' := m 4%nat * x + m 5%nat * y + m 6%nat * z + m 7%nat in
  let z' := m 8%nat * x + m 9%nat * y + m 10%nat * z + m 11%nat in
  let w := m 12%nat * x + m 13%nat * y + m 14%nat * z + m 15%nat in
  (x' / w, y' / w, z' / w).

Definition spec_transform_columns (matrix : list number) (p : Triple) : Triple :=
  let '(x, y, z) := p in
  let m := get matrix in
  let x' := m 0%nat * x + m 4%nat * y + m 8%nat * z + m 12%nat in
  let y' := m 1%nat * x + m 5%nat * y + m 9%nat * z + m 13%nat in
  let z' := m 2%nat * x + m 6%nat * y + m 10%nat * z + m 14%nat in
  let w := m 3%nat * x + m 7%nat * y + m 11%nat * z + m 15%nat in
  (x' / w, y' / w, z' / w).

(** The coordinates of a point object. *)
Definition coordinates (point : Processor.Point) : Triple :=
  (Processor.px point, Processor.py point, Processor.pz point).

(** The matrix that leaves x, y, z as they are and sets w to 2. *)
Definition halving_matrix : list number :=
  [1; 0; 0; 0;  0; 1; 0; 0;  0; 0; 1; 0;  0; 0; 0; 2].

(** [Matrix4.translation(1, 0, 0)]. *)
Definition translation_by_1 : list number :=
  [1; 0; 0; 0;  0; 1; 0; 0;  0; 0; 1; 0;  1; 0; 0; 1].

End WorkerNotions.

Section RequestNotions.

Import Processor.

(** The promise a stored closure settles. *)
Definition promise_of (cb : Callback) : nat :=
  match cb with
  | install_points p | install_analysis p | hand_over p => p
  end.

(** The promise a queued continuation settles. *)
Definition microtask_promise (t : Microtask) : nat :=
  match t with
  | install_local _ p => p
  end.

(** The promises a state knows were all made before: their names are below
    the next free one. *)
Definition well_formed (s : State) : bool :=
  forallb (fun e => fst e <? nextPromise s)%nat (map_to_list (promises s))
  && forallb (fun e => promise_of (snd e) <? nextPromise s)%nat
             (map_to_list (processingCallbacks s))
  && forallb (fun t => microtask_promise t <? nextPromise s)%nat (microtasks s).

(** The same, as a proposition. *)
Definition promises_made_before (s : State) : Prop :=
  (forall q o, promises s !! q = Some o -> (q < nextPromise s)%nat) /\
  (forall requestId cb,
      processingCallbacks s !! requestId = Some cb ->
      (promise_of cb < nextPromise s)%nat) /\
  (forall t, t ∈ microtasks s -> (microtask_promise t < nextPromise s)%nat).

(** The event is a request made under [requestId] or a message of the
    worker for it. *)
Definition concerns (requestId : string) (ev : Event) : bool :=
  match ev with
  | called _ requestId' => String.eqb requestId' requestId
  | received e => String.eqb (Processor.requestId e) requestId
  | worker_failed | microtask_ran => false
  end.


(** The request made under [requestId] for promise [p] is pending. *)
Definition pending (p : nat) (requestId : string) (s : State) : Prop :=
  processingCallbacks s !! requestId = Some (install_points p) /\
  promises s !! p = None /\
  (forall requestId' cb,
      requestId' <> requestId ->
      processingCallbacks s !! requestId' = Some cb -> promise_of cb <> p) /\
  (forall t, t ∈ microtasks s -> microtask_promise t <> p) /\
  (p < nextPromise s)%nat.

(** The part of a state that [pending] depends on. *)
Definition bookkeeping (s : State)
  : gmap string Callback * gmap nat Settlement * list Microtask * nat :=
  (processingCallbacks s, promises s, microtasks s, nextPromise s).

(** A state of the module with a worker and one point loaded. *)
Definition sample_point : Point := mkPoint 1 2 3 None None None.

Definition sample_state : State :=
  mkState (Some [sample_point]) (Some [sample_point]) true ∅ absent ∅ 0 [] [] [].

End RequestNotions.

(* ===================================================================== *)
(** * Further notions                                                     *)
(* ===================================================================== *)

Section TreeNotions.

Import Processor.
Local Open Scope float_scope.

(** [P] holds of every element of a list (by recursion, for use in
    definitions by recursion on a tree). *)
Definition every {A} (P : A -> Prop) (l : list A) : Prop :=
  fold_right (fun a rest => P a /\ rest) True l.

(** The midpoint of a box, as [subdivideNode] computes it. *)
Definition midpoint (bb : Box) : Vec3 :=
  mkVec3 ((vx (bmin bb) + vx (bmax bb)) / 2)
         ((vy (bmin bb) + vy (bmax bb)) / 2)
         ((vz (bmin bb) + vz (bmax bb)) / 2).

(** The child of a node with box [bb] that a point is handed to. *)
Definition octantOf (bb : Box) (point : Point) : nat :=
  childIndex (vx (midpoint bb)) (vy (midpoint bb)) (vz (midpoint bb)) point.

(** The boxes of the eight octants of [bb], in the order of the children. *)
Definition octantBoxesOf (bb : Box) : list (option Box) :=
  map (fun i => Some (childBox bb (vx (midpoint bb)) (vy (midpoint bb))
                               (vz (midpoint bb)) i))
      [0; 1; 2; 3; 4; 5; 6; 7]%Z.

(** Every node with children has a box and exactly eight children, whose
    boxes are the octants of its box. *)
Fixpoint octantTree (n : Node) : Prop :=
  match n with
  | mkNode _ _ None => True
  | mkNode bb _ (Some cs) =>
      match bb with
      | Some b => map boundingBox cs = octantBoxesOf b
      | None => False
      end
      /\ every octantTree cs
  end.

(** Every point found in the leaves below the [i]-th child of a node lies
    in the [i]-th octant of the node's box. *)
Fixpoint wellPlaced (n : Node) : Prop :=
  match n with
  | mkNode _ _ None => True
  | mkNode bb _ (Some cs) =>
      match bb with
      | Some b =>
          forall i child,
            cs !! i = Some child ->
            Forall (fun point => octantOf b point = i) (leafPoints child)
      | None => False
      end
      /\ every wellPlaced cs
  end.

(** The number of levels below a node. *)
Fixpoint height (n : Node) : nat :=
  match n with
  | mkNode _ _ None => O
  | mkNode _ _ (Some cs) =>
      S (fold_right (fun c rest => Nat.max (height c) rest) O cs)
  end.

End TreeNotions.

Section MainThreadNotions.

Import Processor.
Local Open Scope float_scope.

(** Some occurrence of [point] in [points] has another entry of [points]
    at a distance below [radius]. *)
Definition hasNeighbor (points : list Point) (radius : number) (point : Point)
  : Prop :=
  exists i j other,
    points !! i = Some point /\ points !! j = Some other /\ i <> j /\
    (distance_between point other <? radius) = true.

(** The three numbers a point contributes to [positions], and to [colors]. *)
Definition positionsOf (point : Point) : list number :=
  [Math_fround (px point); Math_fround (py point); Math_fround (pz point)].

Definition colorsOf (point : Point) : list number :=
  [Math_fround (colorChannel (pr point));
   Math_fround (colorChannel (pg point));
   Math_fround (colorChannel (pb point))].

(** The coordinates added up from 0, in input order. *)
Definition coordinateSum (points : list Point) : Vec3 :=
  fold_left (fun s p => mkVec3 (vx s + px p) (vy s + py p) (vz s + pz p))
            points (mkVec3 0 0 0).

(** A module that holds [points] as processed data and no octree yet. *)
Definition loaded (points : list Point) : Kept :=
  mkKept (mkState (Some points) (Some points) true ∅ absent ∅ 0 [] [] []) None.

(** A message of type ['filterComplete'] for [requestId] that carries
    [points]. *)
Definition filterComplete_message (requestId : string)
           (points : option (list Point)) : WorkerMessage :=
  mkWorkerMessage "filterComplete"
                  (mkData points absent absent "" absent absent) requestId.

End MainThreadNotions.

Section FlowNotions.

Import Processor.

(** No stored closure and no queued continuation can settle the pending
    promise [p] any more. *)
Definition orphaned (p : nat) (s : State) : Prop :=
  promises s !! p = None /\
  (forall requestId cb,
      processingCallbacks s !! requestId = Some cb -> promise_of cb <> p) /\
  (forall t, t ∈ microtasks s -> microtask_promise t <> p) /\
  (p < nextPromise s)%nat.


(** A state of the module with a worker and no data. *)
Definition empty_state : State :=
  mkState None None true ∅ absent ∅ 0 [] [] [].

(** A state of the module without a worker and with one point loaded. *)
Definition workerless_state : State :=
  mkState (Some [sample_point]) (Some [sample_point]) false ∅ absent ∅ 0 [] [] [].

End FlowNotions.

Section WorkerFlowNotions.

Import Worker.
Local Open Scope float_scope.

(** The message is a ['progress'] or an ['info']. *)
Definition is_report (m : Message) : bool :=
  match m with
  | progress _ _ | info _ => true
  | _ => false
  end.

(** Code that appends messages to the outbox, each of which satisfies
    [allowed]. *)
Definition posts_only (allowed : Message -> bool) {A} (m : W A) : Prop :=
  forall w, exists msgs,
    outbox (snd (m w)) = outbox w ++ msgs /\ forallb allowed msgs = true.

(** The commands [self.onmessage] has a case for. *)
Definition known_command (cmd : string) : bool :=
  String.eqb cmd "process" || String.eqb cmd "filter"
  || String.eqb cmd "downsample" || String.eqb cmd "transform"
  || String.eqb cmd "optimize".

(** The stage a stage command runs, the message that announces it and the
    message that carries its result. *)
Definition stage_of (cmd : string)
  : option (list number -> Options -> bool -> W (list number)) :=
  if String.eqb cmd "filter" then Some filterPointCloud
  else if String.eqb cmd "downsample" then Some downsamplePointCloud
  else if String.eqb cmd "transform" then Some transformPointCloud
  else if String.eqb cmd "optimize" then Some optimizeDataStructure
  else None.

Definition announcement (cmd : string) (totalPoints : number) : Message :=
  if String.eqb cmd "filter" then filtering totalPoints
  else if String.eqb cmd "downsample" then downsampling totalPoints
  else if String.eqb cmd "transform" then transforming totalPoints
  else optimizing totalPoints.

Definition stage_result (cmd : string) (options : Options) (d : list number)
  : Message :=
  if String.eqb cmd "filter" then filtered d (totalPoints_of d)
  else if String.eqb cmd "downsample" then downsampled d (totalPoints_of d)
  else if String.eqb cmd "transform" then transformed d (totalPoints_of d)
  else optimized d (default "octree"%string (method options)).

(** The values the next [n] calls of [Math.random] return. *)
Definition draws (w : World) (n : nat) : list number :=
  map (entropy w) (seq 0 n).

(** The points whose draw is at most [rate]: the [k]-th point goes with
    the [k]-th draw. *)
Definition sampled (rate : number) (pts : list Triple) (w : World)
  : list Triple :=
  map fst (List.filter (fun pr => snd pr <=? rate)
                       (combine pts (draws w (length pts)))).

(** None of the coordinates is NaN. *)
Definition nan_free (p : Triple) : bool :=
  let '(x, y, z) := p in negb (is_nan x || is_nan y || is_nan z).

End WorkerFlowNotions.

(* ===================================================================== *)
(** * The builtins on sample values                                       *)
(* ===================================================================== *)

Section Builtins.

Local Open Scope float_scope.

Example Math_fround_samples :
  Math_fround 0.5 = 0.5 /\
  Math_fround 0.1 = 0x1.99999ap-4 /\
  Math_fround 1e40 = infinity /\
  Math_fround 1e-50 = 0 /\
  Math_fround nan = nan.
Proof. repeat split; vm_compute; reflexivity. Qed.

Example floorText_samples :
  floorText 3.7 = TInt 3 /\
  floorText (-3.2) = TInt (-4) /\
  floorText (-0.5) = TInt (-1) /\
  floorText (-0) = TInt 0 /\
  floorText (1 / 0) = TInfinity false /\
  floorText (0 / 0) = TNaN.
Proof. repeat split; vm_compute; reflexivity. Qed.

Example Math_min_max_samples :
  Math_min 1 2 = 1 /\
  Math_max 1 2 = 2 /\
  Math_min 0 (-0) = (-0) /\
  Math_max (-0) 0 = 0 /\
  Math_min nan 1 = nan /\
  Math_max infinity 1 = infinity.
Proof. repeat split; vm_compute; reflexivity. Qed.

Example of_nat_samples :
  of_nat 0 = 0 /\ of_nat 7 = 7 /\ of_Z (-3) = (-3) /\ of_nat 9 / 3 = 3.
Proof. repeat split; vm_compute; reflexivity. Qed.

End Builtins.

(* ===================================================================== *)
(** * The octree builder                                                  *)
(* ===================================================================== *)

Section Octree.

Import Processor.

Lemma childIndex_lt midX midY midZ point :
  (childIndex midX midY midZ point < 8)%nat.
Proof.
  unfold childIndex.
  destruct (gtb (px point) midX), (gtb (py point) midY), (gtb (pz point) midZ); lia.
Qed.

Lemma push_point_at (point : Point) (i : nat) (cs : list Node) :
  (i < length cs)%nat ->
  flat_map points (alter (push_point point) i cs) ≡ₚ point :: flat_map points cs.
Proof.
  revert i; induction cs as [|c cs IH]; intros i Hi; simpl in Hi; [lia|].
  destruct i as [|i].
  - change (alter (push_point point) 0%nat (c :: cs))
      with (push_point point c :: cs).
    cbn [flat_map push_point points]. rewrite <- app_assoc.
    symmetry. apply Permutation_middle.
  - change (alter (push_point point) (S i) (c :: cs))
      with (c :: alter (push_point point) i cs).
    cbn [flat_map]. rewrite IH by lia.
    symmetry. apply Permutation_middle.
Qed.

Lemma push_point_fresh (point : Point) (i : nat) (cs : list Node) :
  Forall fresh_leaf cs -> Forall fresh_leaf (alter (push_point point) i cs).
Proof.
  intros H; revert i; induction H as [|c cs Hc H IH]; intros i; [constructor|].
  destruct i as [|i].
  - change (alter (push_point point) 0%nat (c :: cs))
      with (push_point point c :: cs).
    constructor; [|assumption]. destruct Hc; split; assumption.
  - change (alter (push_point point) (S i) (c :: cs))
      with (c :: alter (push_point point) i cs).
    constructor; [assumption | apply IH].
Qed.

(** The second loop of [subdivideNode] hands every point to one child. *)
Lemma distribute_points midX midY midZ (pts : list Point) (cs : list Node) :
  length cs = 8%nat -> Forall fresh_leaf cs ->
  let cs' :=
    fold_left (fun cs point =>
                 alter (push_point point) (childIndex midX midY midZ point) cs)
              pts cs in
  length cs' = 8%nat /\ Forall fresh_leaf cs' /\
  flat_map points cs' ≡ₚ flat_map points cs ++ pts.
Proof.
  revert cs; induction pts as [|p pts IH]; intros cs Hlen Hfresh; simpl.
  - rewrite app_nil_r; auto.
  - destruct (IH (alter (push_point p) (childIndex midX midY midZ p) cs))
      as (Hl & Hf & Hp).
    + rewrite length_alter; assumption.
    + apply push_point_fresh; assumption.
    + repeat split; try assumption.
      rewrite Hp, push_point_at
        by (rewrite Hlen; apply childIndex_lt).
      simpl. apply Permutation_middle.
Qed.

Lemma mapM_Forall2 {A B} (f : A -> result B) (R : A -> B -> Prop) (l : list A) :
  Forall (fun a => exists b, f a = Ok b /\ R a b) l ->
  exists l', mapM f l = Ok l' /\ Forall2 R l l'.
Proof.
  induction 1 as [|a l (b & Hb & HR) _ (l' & Hl' & HR')]; simpl.
  - exists []; split; [reflexivity | constructor].
  - exists (b :: l'); rewrite Hb; simpl; rewrite Hl'; simpl.
    split; [reflexivity | constructor; assumption].
Qed.

Lemma flat_map_Forall2_perm {A B C} (f : A -> list C) (g : B -> list C) l l' :
  Forall2 (fun a b => g b ≡ₚ f a) l l' -> flat_map g l' ≡ₚ flat_map f l.
Proof.
  induction 1 as [|a b l l' H _ IH]; simpl; [reflexivity|].
  rewrite H, IH; reflexivity.
Qed.

Lemma forallb_Forall2_r {A B} (R : A -> B -> Prop) (t : B -> bool) l l' :
  Forall2 R l l' -> (forall a b, R a b -> t b = true) -> forallb t l' = true.
Proof.
  induction 1 as [|a b l l' H _ IH]; intros Ht; simpl; [reflexivity|].
  rewrite (Ht a b H), IH; auto.
Qed.

(** [subdivideNode(node, depth)] returns for every node that has a box
    and more than [minPointsPerNode] points, and what it returns has its
    points in its leaves only. *)
Lemma subdivide_spec (maxDepth minPointsPerNode : Z) (remaining : nat) :
  forall (node : Node) (d : Z),
    is_Some (boundingBox node) ->
    remaining = Z.to_nat (maxDepth - d) ->
    0 <= d ->
    minPointsPerNode < Z.of_nat (length (points node)) ->
    d = 0 \/ d - 1 < maxDepth ->
    exists node',
      subdivide minPointsPerNode remaining node = Ok node' /\
      is_Some (children node') /\
      internalNodesEmpty node' = true /\
      leafPoints node' ≡ₚ points node /\
      leafRule maxDepth minPointsPerNode d node' = true.
Proof.
  induction remaining as [|r IH]; intros node d [bb Hbb] Hrem Hd Hmin Hdepth.
  all: simpl; unfold subdivideNode_body; rewrite Hbb.
  all: set (midX := PrimFloat.div _ _);
       set (midY := PrimFloat.div (PrimFloat.add (vy _) _) _);
       set (midZ := PrimFloat.div (PrimFloat.add (vz _) _) _).
  all: set (children0 := map _ _).
  all: assert (Hlen0 : length children0 = 8%nat) by reflexivity.
  all: assert (Hfresh0 : Forall fresh_leaf children0)
    by (repeat constructor; simpl; eauto).
  all: destruct (distribute_points midX midY midZ (points node) children0
                   Hlen0 Hfresh0) as (Hlen1 & Hfresh1 & Hperm1).
  all: set (children1 := fold_left _ _ _) in *.
  all: assert (Hall : flat_map points children1 ≡ₚ points node)
    by (rewrite Hperm1; reflexivity).
  - (* depth is not below maxDepth: the children stay leaves *)
    assert (HR : Forall2 (child_ok maxDepth minPointsPerNode d) children1 children1).
    { apply Forall_Forall2_diag.
      eapply Forall_impl; [exact Hfresh1|].
      intros [cbb pts [cs|]] [Hc Hb]; simpl in Hc; [discriminate|].
      repeat split; simpl; [reflexivity|].
      apply orb_true_iff; right.
      apply andb_true_iff; split; [apply Z.ltb_lt | apply Z.leb_le]; lia. }
    simpl. eexists; split; [reflexivity|].
    split; [eexists; reflexivity|].
    assert (Hleaves : flat_map leafPoints children1 ≡ₚ points node).
    { rewrite <- Hall. apply flat_map_Forall2_perm.
      eapply Forall2_impl; [exact HR|]. intros a b (_ & H & _); exact H. }
    repeat split.
    + simpl. eapply forallb_Forall2_r; [exact HR|]. intros a b (H & _); exact H.
    + exact Hleaves.
    + cbn [leafRule leafPoints].
      rewrite (Permutation_length Hleaves).
      repeat (apply andb_true_iff; split).
      * apply Z.ltb_lt; lia.
      * apply orb_true_iff. destruct Hdepth; [left; apply Z.eqb_eq | right; apply Z.ltb_lt]; lia.
      * eapply forallb_Forall2_r; [exact HR|]. intros a b (_ & _ & H); exact H.
  - (* depth is below maxDepth: the children with enough points are subdivided *)
    destruct (mapM_Forall2
                (fun child =>
                   if Z.of_nat (length (points child)) >? minPointsPerNode
                   then subdivide minPointsPerNode r child else Ok child)
                (child_ok maxDepth minPointsPerNode d) children1) as (children2 & Hmap & HR).
    { eapply Forall_impl; [exact Hfresh1|].
      intros child [Hc Hb].
      destruct (Z.gtb_spec (Z.of_nat (length (points child))) minPointsPerNode) as [Hgt|Hle].
      - destruct (IH child (d + 1)) as (child' & Hsub & _ & He & Hp & Hr);
          try assumption; try lia.
        exists child'; repeat split; assumption.
      - exists child; split; [reflexivity|].
        destruct child as [cbb pts [cs|]]; simpl in Hc; [discriminate|].
        repeat split; simpl in *; [reflexivity|].
        apply orb_true_iff; left. apply Z.leb_le; lia. }
    rewrite Hmap. simpl. eexists; split; [reflexivity|].
    split; [eexists; reflexivity|].
    assert (Hleaves : flat_map leafPoints children2 ≡ₚ points node).
    { rewrite <- Hall. apply flat_map_Forall2_perm.
      eapply Forall2_impl; [exact HR|]. intros a b (_ & H & _); exact H. }
    repeat split.
    + simpl. eapply forallb_Forall2_r; [exact HR|]. intros a b (H & _); exact H.
    + exact Hleaves.
    + cbn [leafRule leafPoints].
      rewrite (Permutation_length Hleaves).
      repeat (apply andb_true_iff; split).
      * apply Z.ltb_lt; lia.
      * apply orb_true_iff. destruct Hdepth; [left; apply Z.eqb_eq | right; apply Z.ltb_lt]; lia.
      * eapply forallb_Forall2_r; [exact HR|]. intros a b (_ & _ & H); exact H.
Qed.

End Octree.

Section OctreeClaims.

Import Processor.
Local Open Scope float_scope.

(** The recursion of the model is the recursion of the source: the
    children are subdivided by [subdivideNode(child, depth + 1)] under
    the test [depth < maxDepth]. *)
Lemma subdivideNode_unfold (maxDepth minPointsPerNode : Z) (node : Node) (depth : Z) :
  subdivideNode maxDepth minPointsPerNode node depth =
  subdivideNode_body minPointsPerNode
    (if (depth <? maxDepth)%Z
     then Some (fun child =>
                  subdivideNode maxDepth minPointsPerNode child (depth + 1))
     else None)
    node.
Proof.
  unfold subdivideNode.
  destruct (Z.ltb_spec depth maxDepth) as [Hlt|Hge].
  - replace (Z.to_nat (maxDepth - depth))
      with (S (Z.to_nat (maxDepth - (depth + 1)))) by lia.
    reflexivity.
  - replace (Z.to_nat (maxDepth - depth)) with O by lia.
    reflexivity.
Qed.

Lemma calculateBoundingBox_nonempty (points : list Point) :
  points <> [] -> is_Some (calculateBoundingBox points).
Proof. destruct points; [congruence | eexists; reflexivity]. Qed.

(** [buildOctree] throws only for an empty input with a negative
    [minPointsPerNode]; otherwise the tree it returns has its points in
    its leaves only, each input point once, and follows [leafRule]. *)
Lemma buildOctree_spec (points : list Point) (maxDepth minPointsPerNode : option Z) :
  match buildOctree points maxDepth minPointsPerNode with
  | Ok root =>
      internalNodesEmpty root = true /\
      leafPoints root ≡ₚ points /\
      leafRule (default 8%Z maxDepth) (default 5%Z minPointsPerNode) 0 root = true
  | Throw _ => points = [] /\ (default 5%Z minPointsPerNode < 0)%Z
  end.
Proof.
  unfold buildOctree.
  generalize (default 8%Z maxDepth) (default 5%Z minPointsPerNode).
  clear maxDepth minPointsPerNode. intros maxDepth minPointsPerNode.
  destruct (Z.gtb_spec (Z.of_nat (length points)) minPointsPerNode) as [Hgt|Hle].
  - destruct points as [|p points].
    + unfold subdivideNode.
      destruct (Z.to_nat (maxDepth - 0)); simpl in *; (split; [reflexivity | lia]).
    + unfold subdivideNode.
      destruct (subdivide_spec maxDepth minPointsPerNode
                  (Z.to_nat (maxDepth - 0))
                  (mkNode (calculateBoundingBox (p :: points)) (p :: points) None) 0)
        as (root & Hroot & _ & He & Hp & Hr);
        [ apply calculateBoundingBox_nonempty; discriminate
        | reflexivity | lia | exact Hgt | left; reflexivity | ].
      rewrite Hroot. auto.
  - simpl. repeat split; [reflexivity|].
    apply orb_true_iff; left. apply Z.leb_le. exact Hle.
Qed.

(** C1: in the tree [buildOctree] returns, every node that has children
    holds no point of its own, and the points of the leaves are the input
    points, each exactly as often as in the input.  The builder returns a
    tree for every input except an empty one given a negative
    [minPointsPerNode], for which reading the [null] bounding box throws. *)
Theorem C1_octree_leaves_partition_input
        (points : list Point) (maxDepth minPointsPerNode : option Z) :
  match buildOctree points maxDepth minPointsPerNode with
  | Ok root => internalNodesEmpty root = true /\ leafPoints root ≡ₚ points
  | Throw _ => points = [] /\ (default 5%Z minPointsPerNode < 0)%Z
  end.
Proof.
  pose proof (buildOctree_spec points maxDepth minPointsPerNode) as H.
  destruct (buildOctree points maxDepth minPointsPerNode); [|exact H].
  destruct H as (He & Hp & _). split; assumption.
Qed.

(** The leaf rule the code follows, for every tree it returns: a node at
    depth [d] given [n] points has children exactly when
    [n > minPointsPerNode] and ([d = 0] or [d - 1 < maxDepth]). *)
Theorem octree_follows_leafRule
        (points : list Point) (maxDepth minPointsPerNode : option Z) (root : Node) :
  buildOctree points maxDepth minPointsPerNode = Ok root ->
  leafRule (default 8%Z maxDepth) (default 5%Z minPointsPerNode) 0 root = true.
Proof.
  intros Hroot.
  pose proof (buildOctree_spec points maxDepth minPointsPerNode) as H.
  rewrite Hroot in H. destruct H as (_ & _ & H). exact H.
Qed.

(** C5: with [maxDepth = 0] and [minPointsPerNode = 1], the two points
    (0,0,0) and (1,1,1) give a root that has eight children although its
    depth, 0, equals [maxDepth]; and with [maxDepth = 1] and
    [minPointsPerNode = 1], three points at (1,1,1) give a node at depth 1
    that has eight children.  Both trees break the leaf rule of the
    specification and follow the rule [leafRule] of the code, by which the
    root is subdivided whatever [maxDepth] is, and a node at depth
    [maxDepth] that holds more than [minPointsPerNode] points is subdivided
    once more. *)
Theorem C5_node_at_maxDepth_is_subdivided :
  (exists root children,
      buildOctree [corner 0 0 0; corner 1 1 1] (Some 0%Z) (Some 1%Z) = Ok root /\
      Processor.children root = Some children /\
      length children = 8%nat /\
      specLeafRule 0 1 0 root = false /\
      leafRule 0 1 0 root = true) /\
  (exists root child bb grandchildren rest,
      buildOctree [corner 1 1 1; corner 1 1 1; corner 1 1 1] (Some 1%Z) (Some 1%Z)
      = Ok root /\
      Processor.children root = Some (child :: rest) /\
      child = mkNode bb [] (Some grandchildren) /\
      length grandchildren = 8%nat /\
      specLeafRule 1 1 0 root = false /\
      leafRule 1 1 0 root = true).
Proof.
  split.
  - eexists; eexists. split; [vm_compute; reflexivity|].
    split; [reflexivity|].
    repeat split; vm_compute; reflexivity.
  - do 5 eexists. split; [vm_compute; reflexivity|].
    split; [reflexivity|]. split; [reflexivity|].
    repeat split; vm_compute; reflexivity.
Qed.

(** C10: an input of at most [minPointsPerNode] points gives a root
    without children that holds the whole input, in order, under the
    bounding box of the input; for an empty input that bounding box is
    [null], the point list is empty and there are no children. *)
Theorem C10_small_input_gives_single_leaf
        (points : list Point) (maxDepth minPointsPerNode : option Z) :
  (Z.of_nat (length points) <= default 5%Z minPointsPerNode)%Z ->
  buildOctree points maxDepth minPointsPerNode =
    Ok (mkNode (calculateBoundingBox points) points None) /\
  (points = [] ->
   buildOctree points maxDepth minPointsPerNode = Ok (mkNode None [] None)).
Proof.
  intros Hle.
  assert (H : buildOctree points maxDepth minPointsPerNode =
              Ok (mkNode (calculateBoundingBox points) points None)).
  { unfold buildOctree.
    destruct (Z.gtb_spec (Z.of_nat (length points)) (default 5%Z minPointsPerNode));
      [lia|reflexivity]. }
  split; [exact H|]. intros ->. exact H.
Qed.

Lemma C10_small_input_witness :
  buildOctree [corner 1 2 3; corner 4 5 6] None None =
    Ok (mkNode (Some (mkBox (mkVec3 1 2 3) (mkVec3 4 5 6)))
               [corner 1 2 3; corner 4 5 6] None) /\
  buildOctree [] (Some 8%Z) (Some 0%Z) = Ok (mkNode None [] None).
Proof.
  split.
  - apply (C10_small_input_gives_single_leaf [corner 1 2 3; corner 4 5 6] None None).
    simpl; lia.
  - apply (C10_small_input_gives_single_leaf [] (Some 8%Z) (Some 0%Z));
      [simpl; lia | reflexivity].
Defined.

End OctreeClaims.

(* ===================================================================== *)
(** * Loops of the worker over a flat buffer                              *)
(* ===================================================================== *)

Section WorkerLoops.

Import Worker.
Local Open Scope worker_scope.

(** The value a loop ends with does not depend on the world when each
    iteration's does not. *)
Lemma foldM_value {A S} (body : S -> A -> W S) (pure : S -> A -> S) :
  (forall s a w, fst (body s a w) = pure s a) ->
  forall l s w, fst (foldM body l s w) = fold_left pure l s.
Proof.
  intros Hbody l; induction l as [|a l IH]; intros s w; simpl; [reflexivity|].
  unfold seq_. specialize (Hbody s a w).
  destruct (body s a w) as [s' w']; simpl in Hbody; subst s'.
  apply IH.
Qed.

Lemma length_buffer (pts : list Triple) : length (buffer pts) = (3 * length pts)%nat.
Proof.
  induction pts as [|[[x y] z] pts IH]; [reflexivity|].
  change (buffer ((x, y, z) :: pts)) with (x :: y :: z :: buffer pts).
  cbn [length]. rewrite IH. lia.
Qed.

Lemma stride3_buffer (pts : list Triple) :
  stride3 (length (buffer pts)) = map (fun k => (3 * k)%nat) (seq 0 (length pts)).
Proof.
  unfold stride3. rewrite length_buffer.
  replace ((3 * length pts + 2) / 3)%nat with (length pts); [reflexivity|].
  apply Nat.div_unique with (r := 2%nat); lia.
Qed.

Lemma reads_buffer (pts : list Triple) (k : nat) (p : Triple) :
  pts !! k = Some p -> reads (buffer pts) (3 * k) = p.
Proof.
  revert k; induction pts as [|[[x y] z] pts IH]; intros k Hk; [discriminate|].
  destruct k as [|k]; simpl in Hk.
  - injection Hk as <-. reflexivity.
  - specialize (IH k Hk). unfold reads in *.
    replace (3 * S k)%nat with (S (S (S (3 * k)))) by lia.
    exact IH.
Qed.

(** On the buffer of a point set, the loop header
    [for (i = 0; i < length; i += 3)] with its three reads visits the
    points in order. *)
Lemma visits_buffer (pts : list Triple) :
  map (fun i => (i, reads (buffer pts) i)) (stride3 (length (buffer pts))) =
  imap (fun k p => ((3 * k)%nat, p)) pts.
Proof.
  rewrite stride3_buffer, map_map.
  apply list_eq; intros k.
  rewrite list_lookup_imap, list_lookup_fmap.
  destruct (pts !! k) as [p|] eqn:Hk.
  - rewrite lookup_seq_lt by (apply lookup_lt_Some in Hk; exact Hk).
    cbn [fmap option_fmap option_map Nat.add].
    rewrite (reads_buffer pts k p Hk). reflexivity.
  - rewrite lookup_seq_ge by (apply lookup_ge_None in Hk; lia).
    reflexivity.
Qed.

Lemma map_snd_imap_pair {A} (f : nat -> nat) (l : list A) :
  map snd (imap (fun k p => (f k, p)) l) = l.
Proof.
  revert f; induction l as [|a l IH]; intros f; simpl; [reflexivity|].
  f_equal. apply (IH (f ∘ S)).
Qed.

(** The value of a loop over a buffer whose iterations use the index for
    progress reports only. *)
Lemma foldM_buffer_value {S} (body : S -> nat -> W S) (pure : S -> Triple -> S)
      (pts : list Triple) :
  (forall s i w, fst (body s i w) = pure s (reads (buffer pts) i)) ->
  forall s w,
    fst (foldM body (stride3 (length (buffer pts))) s w) = fold_left pure pts s.
Proof.
  intros Hbody s w.
  rewrite (foldM_value body (fun s i => pure s (reads (buffer pts) i)) Hbody).
  rewrite <- (map_snd_imap_pair (fun k => (3 * k)%nat) pts) at 2.
  rewrite <- visits_buffer, map_map. simpl.
  generalize (stride3 (length (buffer pts))). intros l; revert s.
  induction l as [|i l IH]; intros s; simpl; [reflexivity | apply IH].
Qed.

End WorkerLoops.

(* ===================================================================== *)
(** * The outlier filter                                                  *)
(* ===================================================================== *)

Section FilterClaims.

Import Worker.
Local Open Scope worker_scope.
Local Open Scope float_scope.

Lemma fold_left_keep (keep : Triple -> bool) (pts : list Triple) (acc : list number) :
  fold_left (fun filtered p => if keep p then filtered ++ flat p else filtered)
            pts acc
  = acc ++ buffer (List.filter keep pts).
Proof.
  revert acc; induction pts as [|p pts IH]; intros acc; simpl.
  - rewrite app_nil_r; reflexivity.
  - rewrite IH. destruct (keep p); [|reflexivity].
    change (buffer (p :: List.filter keep pts))
      with (flat p ++ buffer (List.filter keep pts)).
    rewrite app_assoc; reflexivity.
Qed.

(** [distanceFilter] on the buffer of a point set: the buffer of the points
    within [maxDistance] of the origin, in their order. *)
Lemma distanceFilter_value (pts : list Triple) (maxDistance : number) (w : World) :
  value (distanceFilter (buffer pts) (Some maxDistance)) w
  = buffer (List.filter (within maxDistance) pts).
Proof.
  unfold value, distanceFilter.
  rewrite (foldM_buffer_value _
             (fun filtered p =>
                if within maxDistance p then filtered ++ flat p else filtered)).
  - apply fold_left_keep.
  - intros s i w'. unfold seq_, when, postMessage, ret.
    destruct (is_chunk_start i); reflexivity.
Qed.

(** The statistical and radius filters return their input. *)
Lemma statisticalOutlierRemoval_value (pointData : list number)
      (stdDevMultiplier : option number) (w : World) :
  value (statisticalOutlierRemoval pointData stdDevMultiplier) w = pointData.
Proof.
  unfold value, statisticalOutlierRemoval, seq_.
  destruct (foldM _ _ _ w); reflexivity.
Qed.

Lemma radiusOutlierRemoval_value (pointData : list number)
      (radius minNeighbors : option number) (w : World) :
  value (radiusOutlierRemoval pointData radius minNeighbors) w = pointData.
Proof. reflexivity. Qed.

(** What [filterPointCloud] returns is what that branch returns, in the
    world left by the announcement. *)
Lemma filterPointCloud_value (pointData : list number) (options : Options)
      (returnResult : bool) (w : World) :
  value (filterPointCloud pointData options returnResult) w
  = value (filter_stage pointData options)
          (snd (when returnResult
                     (postMessage (filtering (totalPoints_of pointData))) w)).
Proof.
  unfold value, filterPointCloud, filter_stage, seq_.
  destruct (when returnResult _ w) as [[] w1]. cbn [snd].
  match goal with
  | |- context [let (_, _) := ?m w1 in _] => destruct (m w1) as [d w2]
  end.
  cbn [fst]. destruct (when returnResult _ w2); reflexivity.
Qed.

Lemma sublist_filter_bool {A} (keep : A -> bool) (l : list A) :
  sublist (List.filter keep l) l.
Proof.
  induction l as [|a l IH]; simpl; [constructor|].
  destruct (keep a); [apply sublist_skip | apply sublist_cons]; exact IH.
Qed.

(** C6: with the method ['distance'] and threshold [maxDistance], the
    filter returns the buffer of exactly the points whose distance to the
    origin, [sqrt(x*x + y*y + z*z)], is at most [maxDistance]; these are a
    sublist of the input, in the input's order.  [(0,0,0), (10,0,0),
    (0,10,0)] with [maxDistance = 5] gives [(0,0,0)] only. *)
Theorem C6_distance_filter_keeps_points_within_maxDistance
        (pts : list Triple) (maxDistance : number)
        (rate voxelSize : option number) (matrix : option (list number))
        (returnResult : bool) (w : World) :
  let options :=
    mkOptions (Some maxDistance) (Some "distance"%string) rate voxelSize matrix in
  let kept := List.filter (within maxDistance) pts in
  value (filterPointCloud (buffer pts) options returnResult) w = buffer kept /\
  value (distanceFilter (buffer pts) (Some maxDistance)) w = buffer kept /\
  sublist kept pts /\
  (forall p, In p kept <-> In p pts /\ (distance_to_origin p <=? maxDistance) = true) /\
  value (filterPointCloud (buffer [(0, 0, 0); (10, 0, 0); (0, 10, 0)])
                          (mkOptions (Some 5) (Some "distance"%string)
                                     rate voxelSize matrix)
                          returnResult) w
  = buffer [(0, 0, 0)].
Proof.
  intros options kept.
  split; [|split; [|split; [|split]]].
  - rewrite filterPointCloud_value. apply distanceFilter_value.
  - apply distanceFilter_value.
  - apply sublist_filter_bool.
  - intros p. apply filter_In.
  - rewrite filterPointCloud_value.
    etransitivity;
      [ apply (distanceFilter_value [(0, 0, 0); (10, 0, 0); (0, 10, 0)] 5)
      | vm_compute; reflexivity ].
Qed.

(** C2: [statisticalOutlierRemoval] returns its input whatever it is.  For
    the three points (0,0,0), (1,0,0), (100,0,0) and multiplier 1 the
    filter keeps all three, while the mean neighbour distances are 50.5, 50
    and 99.5, their mean is about 66.7 and their deviation about 23.2, so
    that the third point is above [mean + 1 * stddev] and the filter of the
    specification rejects it. *)
Theorem C2_statistical_filter_returns_input :
  (forall pointData stdDevMultiplier w,
      value (statisticalOutlierRemoval pointData stdDevMultiplier) w = pointData) /\
  (forall returnResult w,
      value (filterPointCloud
               (buffer [(0, 0, 0); (1, 0, 0); (100, 0, 0)])
               (mkOptions (Some 1) (Some "statistical"%string) None None None)
               returnResult) w
      = buffer [(0, 0, 0); (1, 0, 0); (100, 0, 0)]) /\
  spec_statistical_filter 1 [(0, 0, 0); (1, 0, 0); (100, 0, 0)]
  = [(0, 0, 0); (1, 0, 0)].
Proof.
  split; [|split].
  - apply statisticalOutlierRemoval_value.
  - intros returnResult w. rewrite filterPointCloud_value.
    apply statisticalOutlierRemoval_value.
  - vm_compute. reflexivity.
Qed.

(** C8, as stated, fails: the single point (10,0,0) is removed by the
    distance method with threshold 5. *)
Lemma C8_single_far_point_is_removed :
  ~ (forall (pts : list Triple) (options : Options) (w : World),
        (length pts < 2)%nat ->
        value (filterPointCloud (buffer pts) options true) w = buffer pts).
Proof.
  intros H.
  specialize (H [(10, 0, 0)]
                (mkOptions (Some 5) (Some "distance"%string) None None None)
                (fresh (fun _ => 0))).
  assert (Hlen : (length [(10, 0, 0)] < 2)%nat) by (simpl; lia).
  specialize (H Hlen). vm_compute in H. discriminate H.
Qed.

(** C8, amended: on fewer than 2 points the methods ['statistical'] (also
    the default) and ['radius'] return the input unchanged; every other
    method name applies the distance test, so that an empty input is
    returned unchanged and a single point is returned unchanged when its
    distance to the origin is at most the threshold and removed otherwise. *)
Theorem C8_filter_on_fewer_than_two_points
        (pts : list Triple) (options : Options) (returnResult : bool) (w : World) :
  (length pts < 2)%nat ->
  let method := default "statistical"%string (method options) in
  let threshold := default MIN_DISTANCE (threshold options) in
  value (filterPointCloud (buffer pts) options returnResult) w =
  if String.eqb method "statistical" || String.eqb method "radius" then buffer pts
  else match pts with
       | [p] => if distance_to_origin p <=? threshold then buffer pts else []
       | _ => buffer pts
       end.
Proof.
  intros Hlen method threshold.
  rewrite filterPointCloud_value. unfold filter_stage.
  fold method threshold.
  destruct (String.eqb method "statistical"); cbn [orb].
  - apply statisticalOutlierRemoval_value.
  - destruct (String.eqb method "radius").
    + apply radiusOutlierRemoval_value.
    + rewrite distanceFilter_value.
      destruct pts as [|p [|q pts]]; [reflexivity | | simpl in Hlen; lia].
      cbn [List.filter]. unfold within.
      destruct (distance_to_origin p <=? threshold); reflexivity.
Qed.

Lemma C8_fewer_than_two_points_witness :
  value (filterPointCloud (buffer [(10, 0, 0)])
                          (mkOptions (Some 5) (Some "distance"%string) None None None)
                          true) (fresh (fun _ => 0)) = [] /\
  value (filterPointCloud (buffer [(1, 0, 0)])
                          (mkOptions (Some 5) (Some "distance"%string) None None None)
                          true) (fresh (fun _ => 0)) = [1; 0; 0].
Proof.
  split.
  - apply (C8_filter_on_fewer_than_two_points
             [(10, 0, 0)]
             (mkOptions (Some 5) (Some "distance"%string) None None None)
             true (fresh (fun _ => 0))).
    simpl; lia.
  - apply (C8_filter_on_fewer_than_two_points
             [(1, 0, 0)]
             (mkOptions (Some 5) (Some "distance"%string) None None None)
             true (fresh (fun _ => 0))).
    simpl; lia.
Defined.

End FilterClaims.

(* ===================================================================== *)
(** * Method names the stages do not know                                 *)
(* ===================================================================== *)

Section MethodClaims.

Import Worker.
Local Open Scope worker_scope.
Local Open Scope float_scope.

Lemma quiet_ret {A} (a : A) : quiet (ret a).
Proof. intros w; exists []; simpl; rewrite app_nil_r; auto. Qed.

Lemma quiet_seq {A B} (m : W A) (k : A -> W B) :
  quiet m -> (forall a, quiet (k a)) -> quiet (seq_ m k).
Proof.
  intros Hm Hk w. unfold seq_.
  destruct (Hm w) as (msgs1 & H1 & Hq1).
  destruct (m w) as [a w1]; simpl in H1.
  destruct (Hk a w1) as (msgs2 & H2 & Hq2).
  exists (msgs1 ++ msgs2). rewrite H2, H1, app_assoc.
  split; [reflexivity|]. rewrite forallb_app, Hq1, Hq2; reflexivity.
Qed.

Lemma quiet_postMessage (m : Message) : is_error m = false -> quiet (postMessage m).
Proof. intros Hm w; exists [m]; simpl; rewrite Hm; auto. Qed.

Lemma quiet_when (b : bool) (m : W unit) : quiet m -> quiet (when b m).
Proof. destruct b; [auto | intros _; apply quiet_ret]. Qed.

Lemma quiet_Math_random : quiet Math_random.
Proof. intros w; exists []; simpl; rewrite app_nil_r; auto. Qed.

Lemma quiet_foldM {A S} (body : S -> A -> W S) (l : list A) (s : S) :
  (forall s a, quiet (body s a)) -> quiet (foldM body l s).
Proof.
  intros Hbody; revert s; induction l as [|a l IH]; intros s; simpl.
  - apply quiet_ret.
  - apply quiet_seq; auto.
Qed.

Lemma quiet_if {A} (b : bool) (m1 m2 : W A) : quiet m1 -> quiet m2 -> quiet (if b then m1 else m2).
Proof. destruct b; auto. Qed.

Create HintDb quiet.
#[local] Hint Resolve quiet_ret quiet_postMessage quiet_when quiet_Math_random
  quiet_if : quiet.
#[local] Hint Extern 2 (quiet (seq_ _ _)) => apply quiet_seq; [|intros ?] : quiet.
#[local] Hint Extern 2 (quiet (foldM _ _ _)) => apply quiet_foldM; intros ? ? : quiet.
#[local] Hint Extern 1 (is_error _ = false) => reflexivity : quiet.

Ltac prove_quiet := unfold run_stage; auto 12 with quiet.

Lemma quiet_distanceFilter pd t : quiet (distanceFilter pd t).
Proof. unfold distanceFilter. prove_quiet. Qed.

Lemma quiet_statisticalOutlierRemoval pd t : quiet (statisticalOutlierRemoval pd t).
Proof. unfold statisticalOutlierRemoval. prove_quiet. Qed.

Lemma quiet_radiusOutlierRemoval pd r n : quiet (radiusOutlierRemoval pd r n).
Proof. unfold radiusOutlierRemoval. prove_quiet. Qed.

Lemma quiet_randomDownsampling pd r : quiet (randomDownsampling pd r).
Proof. unfold randomDownsampling. prove_quiet. Qed.

Lemma quiet_voxelDownsampling pd v : quiet (voxelDownsampling pd v).
Proof.
  unfold voxelDownsampling.
  apply quiet_seq; [prove_quiet | intros voxels].
  apply quiet_seq; [|prove_quiet].
  apply quiet_foldM. intros [result done] voxel. prove_quiet.
Qed.

Lemma quiet_applyTransformation pd m : quiet (applyTransformation pd m).
Proof. unfold applyTransformation. prove_quiet. Qed.

Lemma quiet_buildOctree pd : quiet (buildOctree pd).
Proof. unfold buildOctree. prove_quiet. Qed.

Lemma quiet_buildKdTree pd : quiet (buildKdTree pd).
Proof. unfold buildKdTree. prove_quiet. Qed.

Lemma quiet_reorderPoints pd : quiet (reorderPoints pd).
Proof. unfold reorderPoints. prove_quiet. Qed.

#[local] Hint Resolve quiet_distanceFilter quiet_statisticalOutlierRemoval
  quiet_radiusOutlierRemoval quiet_randomDownsampling quiet_voxelDownsampling
  quiet_applyTransformation quiet_buildOctree quiet_buildKdTree
  quiet_reorderPoints : quiet.

Lemma quiet_filterPointCloud pd o rr : quiet (filterPointCloud pd o rr).
Proof. unfold filterPointCloud. prove_quiet. Qed.

Lemma quiet_downsamplePointCloud pd o rr : quiet (downsamplePointCloud pd o rr).
Proof. unfold downsamplePointCloud. prove_quiet. Qed.

Lemma quiet_transformPointCloud pd o rr : quiet (transformPointCloud pd o rr).
Proof. unfold transformPointCloud. prove_quiet. Qed.

Lemma quiet_optimizeDataStructure pd o rr : quiet (optimizeDataStructure pd o rr).
Proof. unfold optimizeDataStructure. prove_quiet. Qed.

#[local] Hint Resolve quiet_filterPointCloud quiet_downsamplePointCloud
  quiet_transformPointCloud quiet_optimizeDataStructure : quiet.

Lemma quiet_run_stage stage o pd :
  (forall pd o rr, quiet (stage pd o rr)) -> quiet (run_stage stage o pd).
Proof. intros H. unfold run_stage. destruct o; auto with quiet. Qed.

(** The pipeline posts no error, whatever its options name. *)
Lemma quiet_processPointCloud pd stages : quiet (processPointCloud pd stages).
Proof.
  unfold processPointCloud.
  repeat (apply quiet_seq; [|intros ?]);
    try (apply quiet_run_stage; auto with quiet); auto with quiet.
Qed.

(** The messages of a pipeline run: ['started'], the stages' messages,
    none of them an error, and ['completed'] with the data returned. *)
Lemma processPointCloud_trace (pd : list number) (stages : PipelineOptions) (w : World) :
  exists msgs,
    posted (processPointCloud pd stages) w =
      outbox w ++ started (totalPoints_of pd) :: msgs ++
      [completed (value (processPointCloud pd stages) w)
                 (totalPoints_of (value (processPointCloud pd stages) w))] /\
    forallb (fun x => negb (is_error x)) msgs = true.
Proof.
  unfold posted, value, processPointCloud, seq_.
  destruct (postMessage (started (totalPoints_of pd)) w) as [[] w0] eqn:H0.
  assert (Hw0 : outbox w0 = outbox w ++ [started (totalPoints_of pd)])
    by (injection H0 as <-; reflexivity).
  pose proof (quiet_run_stage filterPointCloud (filter stages) pd
                quiet_filterPointCloud w0) as (m1 & H1 & Q1).
  destruct (run_stage filterPointCloud (filter stages) pd w0) as [d1 w1].
  pose proof (quiet_run_stage downsamplePointCloud (downsample stages) d1
                quiet_downsamplePointCloud w1) as (m2 & H2 & Q2).
  destruct (run_stage downsamplePointCloud (downsample stages) d1 w1) as [d2 w2].
  pose proof (quiet_run_stage transformPointCloud (transform stages) d2
                quiet_transformPointCloud w2) as (m3 & H3 & Q3).
  destruct (run_stage transformPointCloud (transform stages) d2 w2) as [d3 w3].
  pose proof (quiet_run_stage optimizeDataStructure (optimize stages) d3
                quiet_optimizeDataStructure w3) as (m4 & H4 & Q4).
  destruct (run_stage optimizeDataStructure (optimize stages) d3 w3) as [d4 w4].
  cbn [fst snd] in *.
  exists (m1 ++ m2 ++ m3 ++ m4). split.
  - cbn [postMessage outbox snd fst]. rewrite H4, H3, H2, H1, Hw0.
    rewrite <- !app_assoc. reflexivity.
  - rewrite !forallb_app, Q1, Q2, Q3, Q4. reflexivity.
Qed.

(** C7, as stated, fails: a pipeline whose filter names the unknown method
    ['bogus'] posts no error; it runs the distance filter with the default
    threshold, which removes the point (10,0,0), and completes. *)
Lemma C7_unknown_filter_method_runs_distance_filter :
  let e := mkRequest "process" [10; 0; 0] no_options
                     (mkPipelineOptions (Some bogus_filter) None None None) in
  posted (onmessage e) (fresh (fun _ => 0))
  = [started 1; progress 0 "filtering"; completed [] 0] /\
  ~ (exists message, In (error message) (posted (onmessage e) (fresh (fun _ => 0)))).
Proof.
  split; [vm_compute; reflexivity|].
  intros [message Hin]. vm_compute in Hin.
  destruct Hin as [H|[H|[H|[]]]]; discriminate H.
Qed.

(** C7, amended: a method name that a stage does not know raises no error
    and is not refused.  The filter stage then runs the distance filter, the
    downsample stage the random sampling and the index stage
    [reorderPoints]; and a pipeline run posts ['started'], the messages of
    its stages, none of which is an error, and ['completed'] with the data
    the stages returned, whatever methods its options name. *)
Theorem C7_unknown_method_runs_the_default
        (pointData : list number)
        (filterOptions downsampleOptions indexOptions : Options)
        (filterMethod downsampleMethod indexMethod : string)
        (returnResult : bool) (w : World) :
  method filterOptions = Some filterMethod ->
  knows_filter_method filterMethod = false ->
  method downsampleOptions = Some downsampleMethod ->
  knows_downsample_method downsampleMethod = false ->
  method indexOptions = Some indexMethod ->
  knows_index_method indexMethod = false ->
  filterPointCloud pointData filterOptions returnResult w =
    (when returnResult (postMessage (filtering (totalPoints_of pointData))) ;;
     d <- distanceFilter pointData
                         (Some (default MIN_DISTANCE (threshold filterOptions))) ;;
     when returnResult (postMessage (filtered d (totalPoints_of d))) ;;
     ret d) w /\
  downsamplePointCloud pointData downsampleOptions returnResult w =
    (when returnResult (postMessage (downsampling (totalPoints_of pointData))) ;;
     d <- randomDownsampling
            pointData
            (Some (default DEFAULT_SAMPLING_RATE (rate downsampleOptions))) ;;
     when returnResult (postMessage (downsampled d (totalPoints_of d))) ;;
     ret d) w /\
  optimizeDataStructure pointData indexOptions returnResult w =
    (when returnResult (postMessage (optimizing (totalPoints_of pointData))) ;;
     d <- reorderPoints pointData ;;
     when returnResult (postMessage (optimized d indexMethod)) ;;
     ret d) w /\
  forall (options : Options) (stages : PipelineOptions),
    let e := mkRequest "process" pointData options stages in
    exists msgs,
      posted (onmessage e) w =
        outbox w ++ started (totalPoints_of pointData) :: msgs ++
        [completed (value (processPointCloud pointData stages) w)
                   (totalPoints_of (value (processPointCloud pointData stages) w))] /\
      forallb (fun x => negb (is_error x)) msgs = true.
Proof.
  intros Hf Hfu Hd Hdu Hi Hiu.
  unfold knows_filter_method, knows_downsample_method, knows_index_method in *.
  apply orb_false_iff in Hfu as [Hf1 Hf2].
  apply orb_false_iff in Hiu as [Hi1 Hi2].
  repeat split.
  - unfold filterPointCloud. rewrite Hf. cbn [from_option id].
    rewrite Hf1, Hf2. reflexivity.
  - unfold downsamplePointCloud. rewrite Hd. cbn [from_option id].
    rewrite Hdu. reflexivity.
  - unfold optimizeDataStructure. rewrite Hi. cbn [from_option id].
    rewrite Hi1, Hi2. reflexivity.
  - intros options stages.
    destruct (processPointCloud_trace pointData stages w) as (msgs & Ht & Hq).
    exists msgs. split; [|exact Hq].
    rewrite <- Ht. unfold posted, onmessage, seq_.
    cbn [cmd data Worker.stages String.eqb Ascii.eqb Bool.eqb].
    destruct (processPointCloud pointData stages w); reflexivity.
Qed.

Lemma C7_unknown_method_witness :
  filterPointCloud [10; 0; 0] bogus_filter true (fresh (fun _ => 0)) =
    (when true (postMessage (filtering (totalPoints_of [10; 0; 0]))) ;;
     d <- distanceFilter [10; 0; 0] (Some MIN_DISTANCE) ;;
     when true (postMessage (filtered d (totalPoints_of d))) ;;
     ret d) (fresh (fun _ => 0)).
Proof.
  apply (C7_unknown_method_runs_the_default
           [10; 0; 0] bogus_filter bogus_filter bogus_filter
           "bogus" "bogus" "bogus" true (fresh (fun _ => 0)));
    reflexivity.
Defined.

End MethodClaims.

(* ===================================================================== *)
(** * Voxel downsampling                                                  *)
(* ===================================================================== *)

Section VoxelClaims.

Import Worker.
Local Open Scope worker_scope.
Local Open Scope float_scope.

Lemma occupied_snoc {K} `{EqDecision K} (l : list K) (k : K) :
  occupied (l ++ [k]) = if decide (k ∈ l) then occupied l else occupied l ++ [k].
Proof.
  unfold occupied. rewrite reverse_snoc. cbn [remove_dups].
  destruct (decide_rel elem_of k (reverse l)) as [Hin|Hnin];
    rewrite elem_of_reverse in *.
  - rewrite decide_True by assumption. reflexivity.
  - rewrite decide_False by assumption. apply reverse_cons.
Qed.

Lemma NoDup_occupied {K} `{EqDecision K} (l : list K) : NoDup (occupied l).
Proof. unfold occupied. rewrite reverse_Permutation. apply NoDup_remove_dups. Qed.

Lemma elem_of_occupied {K} `{EqDecision K} (l : list K) (k : K) :
  k ∈ occupied l <-> k ∈ l.
Proof.
  unfold occupied. rewrite elem_of_reverse, elem_of_remove_dups.
  apply elem_of_reverse.
Qed.

Lemma Map_has_map (g : VoxelKey -> Voxel) (ks : list VoxelKey) (k : VoxelKey) :
  Map_has (map (fun k' => (k', g k')) ks) k = bool_decide (k ∈ ks).
Proof.
  induction ks as [|k' ks IH].
  - symmetry. apply bool_decide_eq_false_2. apply not_elem_of_nil.
  - unfold Map_has in *. cbn [map existsb fst]. rewrite IH.
    destruct (decide (k' = k)) as [->|Hne].
    + rewrite bool_decide_eq_true_2 by reflexivity.
      symmetry. apply bool_decide_eq_true_2. left.
    + rewrite (bool_decide_eq_false_2 (k' = k)) by assumption. cbn [orb].
      apply bool_decide_ext. rewrite elem_of_cons. intuition congruence.
Qed.

Lemma Map_set_map (g : VoxelKey -> Voxel) (ks : list VoxelKey) (k : VoxelKey) (v : Voxel) :
  k ∉ ks ->
  Map_set (map (fun k' => (k', g k')) ks) k v = map (fun k' => (k', g k')) ks ++ [(k, v)].
Proof.
  induction ks as [|k' ks IH]; intros Hk; simpl; [reflexivity|].
  apply not_elem_of_cons in Hk as [Hne Hk].
  rewrite bool_decide_eq_false_2 by congruence.
  rewrite IH by assumption. reflexivity.
Qed.

Lemma Map_update_map (g : VoxelKey -> Voxel) (ks : list VoxelKey) (k : VoxelKey)
      (f : Voxel -> Voxel) :
  NoDup ks ->
  Map_update (map (fun k' => (k', g k')) ks) k f
  = map (fun k' => (k', if decide (k' = k) then f (g k') else g k')) ks.
Proof.
  induction 1 as [|k' ks Hk' Hnd IH]; simpl; [reflexivity|].
  destruct (decide (k' = k)) as [->|Hne].
  - rewrite bool_decide_eq_true_2 by reflexivity. simpl. f_equal.
    apply map_ext_in. intros k'' Hin.
    rewrite decide_False; [reflexivity|].
    intros ->. apply Hk'. apply list_elem_of_In. exact Hin.
  - rewrite bool_decide_eq_false_2 by assumption. rewrite IH. reflexivity.
Qed.

Lemma total_snoc (group : list Triple) (p : Triple) :
  group <> [] -> total (group ++ [p]) = add_point (total group) p.
Proof.
  destruct group as [|q rest]; [congruence|]. intros _.
  simpl. rewrite fold_left_app. reflexivity.
Qed.

Lemma members_snoc voxelSize k pts p :
  members voxelSize k (pts ++ [p]) =
  if decide (key_of voxelSize p = k)
  then members voxelSize k pts ++ [p] else members voxelSize k pts.
Proof.
  unfold members. rewrite filter_app, filter_singleton by exact pts.
  destruct (decide (key_of voxelSize p = k)); [reflexivity | apply app_nil_r].
Qed.

Lemma members_nonempty voxelSize k pts :
  k ∈ map (key_of voxelSize) pts <-> members voxelSize k pts <> [].
Proof.
  unfold members. split.
  - intros Hin Hnil. apply list_elem_of_fmap in Hin as (p & -> & Hp).
    apply (filter_nil_not_elem_of _ pts p Hnil); [reflexivity | exact Hp].
  - intros Hne. destruct (base.filter _ pts) as [|p rest] eqn:Hf; [congruence|].
    assert (Hp : p ∈ base.filter (fun p => key_of voxelSize p = k) pts)
      by (rewrite Hf; left).
    apply list_elem_of_filter in Hp as [<- Hp].
    apply list_elem_of_fmap. exists p; auto.
Qed.

(** The voxel map after the first loop: one entry per occupied voxel, in
    the order in which the voxels were first met, holding the total of the
    voxel's points. *)
Lemma voxels_after_loop (voxelSize : number) (pts : list Triple) :
  fold_left (insert_point voxelSize) pts []
  = map (fun k => (k, total (members voxelSize k pts)))
        (occupied (map (key_of voxelSize) pts)).
Proof.
  induction pts as [|p pts IH] using rev_ind; [reflexivity|].
  rewrite fold_left_app, IH. cbn [fold_left].
  rewrite map_app. cbn [map]. rewrite occupied_snoc.
  set (k := key_of voxelSize p).
  set (ks := occupied (map (key_of voxelSize) pts)).
  assert (Hins : insert_point voxelSize
                   (map (fun k => (k, total (members voxelSize k pts))) ks) p
                 = if bool_decide (k ∈ ks)
                   then Map_update (map (fun k => (k, total (members voxelSize k pts))) ks)
                                   k (fun v => add_point v p)
                   else Map_set (map (fun k => (k, total (members voxelSize k pts))) ks)
                                k (mkVoxel p 1)).
  { unfold insert_point, k, key_of. destruct p as [[x y] z].
    rewrite Map_has_map. destruct (bool_decide _); reflexivity. }
  rewrite Hins.
  destruct (decide (k ∈ map (key_of voxelSize) pts)) as [Hin|Hnin].
  - rewrite bool_decide_eq_true_2 by (unfold ks; apply elem_of_occupied; exact Hin).
    rewrite Map_update_map by (unfold ks; apply NoDup_occupied).
    apply map_ext. intros k'. f_equal.
    rewrite members_snoc. fold k.
    destruct (decide (k' = k)) as [->|Hne].
    + rewrite decide_True by reflexivity.
      rewrite total_snoc; [reflexivity|].
      apply members_nonempty. exact Hin.
    + rewrite decide_False by congruence. reflexivity.
  - rewrite bool_decide_eq_false_2 by (unfold ks; rewrite elem_of_occupied; exact Hnin).
    rewrite Map_set_map by (unfold ks; rewrite elem_of_occupied; exact Hnin).
    rewrite map_app. cbn [map]. f_equal.
    + apply map_ext_in. intros k' Hk'. f_equal.
      rewrite members_snoc. fold k.
      rewrite decide_False; [reflexivity|].
      intros Heq. apply Hnin. rewrite Heq.
      apply elem_of_occupied. apply list_elem_of_In. exact Hk'.
    + f_equal. f_equal.
      rewrite members_snoc. fold k. rewrite decide_True by reflexivity.
      assert (Hnil : members voxelSize k pts = []).
      { destruct (members voxelSize k pts) eqn:Hm; [reflexivity|].
        exfalso. apply Hnin. apply members_nonempty. rewrite Hm. discriminate. }
      rewrite Hnil. reflexivity.
Qed.

Lemma fold_left_centroids (l : list Voxel) (acc : list number) (n : nat) :
  fold_left (fun '(result, done) voxel => (result ++ centroid voxel, S done))
            l (acc, n)
  = (acc ++ flat_map centroid l, (n + length l)%nat).
Proof.
  revert acc n; induction l as [|v l IH]; intros acc n; simpl.
  - rewrite app_nil_r, Nat.add_0_r; reflexivity.
  - rewrite IH, <- app_assoc. f_equal. lia.
Qed.

(** What [voxelDownsampling] returns on the buffer of a point set: the
    centroids of the entries of the voxel map, in the map's order. *)
Lemma voxelDownsampling_value (pts : list Triple) (voxelSize : number) (w : World) :
  value (voxelDownsampling (buffer pts) (Some voxelSize)) w
  = flat_map centroid
             (Map_values (fold_left (insert_point voxelSize) pts [])).
Proof.
  unfold value, voxelDownsampling. cbn [from_option id]. unfold seq_ at 1.
  lazymatch goal with
  | |- context [foldM ?body (stride3 _) ?s w] =>
      assert (H1 : fst (foldM body (stride3 (length (buffer pts))) s w)
                   = fold_left (insert_point voxelSize) pts s);
      [ apply foldM_buffer_value; intros voxels i w';
        unfold seq_, when, postMessage, ret;
        destruct (is_chunk_start i); reflexivity
      | destruct (foldM body (stride3 (length (buffer pts))) s w) as [voxels w1] ]
  end.
  cbn [fst] in H1. subst voxels. unfold seq_.
  lazymatch goal with
  | |- context [foldM ?body ?l ?s w1] =>
      assert (H2 : fst (foldM body l s w1)
                   = fold_left (fun '(result, done) voxel =>
                                  (result ++ centroid voxel, S done)) l s);
      [ apply foldM_value; intros [result done] voxel w';
        unfold seq_, when, postMessage, ret;
        destruct (_ =? _)%Z; reflexivity
      | destruct (foldM body l s w1) as [out w2] ]
  end.
  cbn [fst] in *. subst out. rewrite fold_left_centroids. reflexivity.
Qed.

Lemma fold_left_add_point (rest : list Triple) (v : Voxel) :
  fold_left add_point rest v
  = mkVoxel (fold_left PrimFloat.add (map (fun p => fst (fst p)) rest) (fst (fst (sum v))),
             fold_left PrimFloat.add (map (fun p => snd (fst p)) rest) (snd (fst (sum v))),
             fold_left PrimFloat.add (map snd rest) (snd (sum v)))
            (count v + length rest).
Proof.
  revert v; induction rest as [|[[x y] z] rest IH]; intros [[[s0 s1] s2] n]; simpl.
  - rewrite Nat.add_0_r; reflexivity.
  - rewrite IH. simpl. do 2 f_equal. lia.
Qed.

(** The centroid of a voxel's accumulator is the mean of its points. *)
Lemma centroid_total (group : list Triple) :
  group <> [] -> centroid (total group) = mean_point group.
Proof.
  destruct group as [|[[x y] z] rest]; [congruence|]. intros _.
  unfold total. rewrite fold_left_add_point. reflexivity.
Qed.

Lemma flat_map_map_ext {A B C} (f : B -> list C) (g : A -> B) (h : A -> list C)
      (l : list A) :
  (forall a, In a l -> f (g a) = h a) -> flat_map f (map g l) = flat_map h l.
Proof.
  induction l as [|a l IH]; intros H; simpl; [reflexivity|].
  rewrite H by (left; reflexivity). rewrite IH; [reflexivity|].
  intros b Hb. apply H. right. exact Hb.
Qed.

(** C4, as stated, fails: the output is not independent of the input
    order, not even as a set of points.  With [voxelSize = 1] the points
    (0.1,0,0), (0.2,0,0), (0.3,0,0) share a voxel; in this order their
    x coordinates add up to 0.6000000000000001 and the centroid is
    (0.20000000000000004, 0, 0), in the reverse order they add up to 0.6 and
    the centroid is (0.19999999999999998, 0, 0). *)
Lemma C4_centroid_depends_on_input_order :
  ~ (forall (pts pts' : list Triple) (voxelSize : number) (w : World),
        (0 <? voxelSize) = true ->
        pts ≡ₚ pts' ->
        forall p : Triple,
          p ∈ triples (value (voxelDownsampling (buffer pts) (Some voxelSize)) w) <->
          p ∈ triples (value (voxelDownsampling (buffer pts') (Some voxelSize)) w)).
Proof.
  intros H.
  pose (pts := [(0.1, 0, 0); (0.2, 0, 0); (0.3, 0, 0)] : list Triple).
  specialize (H pts (rev pts) 1 (fresh (fun _ => 0)) eq_refl (Permutation_rev pts)
                ((0.1 + 0.2 + 0.3) / 3, 0, 0)).
  destruct H as [H _].
  assert (Hin : ((0.1 + 0.2 + 0.3) / 3, 0, 0)
                ∈ triples (value (voxelDownsampling (buffer pts) (Some 1))
                                 (fresh (fun _ => 0))))
    by (vm_compute; constructor).
  apply H in Hin. vm_compute in Hin.
  apply list_elem_of_singleton in Hin.
  apply (f_equal (fun t : Triple =>
                     PrimFloat.eqb (fst (fst t)) ((0.1 + 0.2 + 0.3) / 3))) in Hin.
  vm_compute in Hin. discriminate Hin.
Qed.

(** C4, amended: voxel downsampling groups the points by the integer key
    [(floor(x/voxelSize), floor(y/voxelSize), floor(z/voxelSize))] and
    returns exactly one point per occupied voxel, in the order in which the
    voxels are first met: the voxel's coordinate sums, added up in input
    order, divided by the number of its points.  Which voxels are occupied
    and how many points each holds does not depend on the input order; the
    sums, being floating-point sums, may.  The 8 corners of the unit cube
    with [voxelSize = 2] give the single point (0.5, 0.5, 0.5). *)
Theorem C4_voxel_downsampling_gives_one_mean_per_voxel
        (pts : list Triple) (voxelSize : number) (w : World) :
  let cells := occupied (map (key_of voxelSize) pts) in
  value (voxelDownsampling (buffer pts) (Some voxelSize)) w
  = flat_map (fun k => mean_point (members voxelSize k pts)) cells /\
  NoDup cells /\
  (forall k, k ∈ cells <-> exists p, p ∈ pts /\ key_of voxelSize p = k) /\
  (forall pts',
      pts ≡ₚ pts' ->
      occupied (map (key_of voxelSize) pts') ≡ₚ cells /\
      forall k, length (members voxelSize k pts') = length (members voxelSize k pts)) /\
  value (voxelDownsampling (buffer unit_cube) (Some 2)) w = [0.5; 0.5; 0.5].
Proof.
  intros cells.
  assert (Hvalue : forall pts0 size,
             value (voxelDownsampling (buffer pts0) (Some size)) w
             = flat_map (fun k => mean_point (members size k pts0))
                        (occupied (map (key_of size) pts0))).
  { intros pts0 size.
    rewrite voxelDownsampling_value, voxels_after_loop.
    unfold Map_values. rewrite map_map. cbn [snd].
    apply flat_map_map_ext. intros k Hk. apply centroid_total.
    apply members_nonempty. apply elem_of_occupied.
    apply list_elem_of_In. exact Hk. }
  split; [apply Hvalue|].
  split; [apply NoDup_occupied|].
  split; [|split].
  - intros k. unfold cells. rewrite elem_of_occupied, list_elem_of_fmap.
    split; intros (p & H1 & H2); exists p; auto.
  - intros pts' Hperm. split.
    + apply NoDup_Permutation; try apply NoDup_occupied.
      intros k. unfold cells. rewrite !elem_of_occupied.
      split; intros Hk; apply list_elem_of_fmap in Hk as (p & -> & Hp);
        apply list_elem_of_fmap_2; [rewrite Hperm | rewrite <- Hperm]; exact Hp.
    + intros k. unfold members. apply Permutation_length.
      apply filter_Permutation. symmetry. exact Hperm.
  - rewrite Hvalue. vm_compute. reflexivity.
Qed.

End VoxelClaims.

(* ===================================================================== *)
(** * The transform stage                                                 *)
(* ===================================================================== *)

Section TransformClaims.

Import Worker.
Local Open Scope worker_scope.
Local Open Scope float_scope.

(** The value of a loop over a buffer whose iterations use the index. *)
Lemma foldM_buffer_value_indexed {S} (body : S -> nat -> W S)
      (pure : S -> nat * Triple -> S) (pts : list Triple) :
  (forall s i w, fst (body s i w) = pure s (i, reads (buffer pts) i)) ->
  forall s w,
    fst (foldM body (stride3 (length (buffer pts))) s w)
    = fold_left pure (imap (fun k p => ((3 * k)%nat, p)) pts) s.
Proof.
  intros Hbody s w.
  rewrite (foldM_value body (fun s i => pure s (i, reads (buffer pts) i)) Hbody).
  rewrite <- visits_buffer.
  generalize (stride3 (length (buffer pts))). intros l; revert s.
  induction l as [|i l IH]; intros s; simpl; [reflexivity | apply IH].
Qed.

Lemma store_points (matrix : list number) (pts : list Triple) :
  forall (done : list number) (k0 : nat),
    length done = (3 * k0)%nat ->
    fold_left (store_point matrix)
              (imap (fun k p => ((3 * (k0 + k))%nat, p)) pts)
              (done ++ replicate (3 * length pts) 0)
    = done ++ buffer (map (worker_transform matrix) pts).
Proof.
  induction pts as [|p pts IH]; intros done k0 Hlen; [reflexivity|].
  rewrite imap_cons. cbn [fold_left].
  replace (3 * length (p :: pts))%nat with (S (S (S (3 * length pts))))
    by (simpl; lia).
  rewrite !replicate_S.
  unfold store_point at 2. destruct (worker_transform matrix p) as [[a b] c] eqn:Hp.
  replace (3 * (k0 + 0))%nat with (length done + 0)%nat by lia.
  rewrite insert_app_r.
  replace (length done + 0 + 1)%nat with (length done + 1)%nat by lia.
  rewrite insert_app_r.
  replace (length done + 0 + 2)%nat with (length done + 2)%nat by lia.
  rewrite insert_app_r. cbn [insert list_insert].
  change (done ++ a :: b :: c :: replicate (3 * length pts) 0)
    with (done ++ [a; b; c] ++ replicate (3 * length pts) 0).
  rewrite app_assoc.
  rewrite (imap_ext _ (fun k p => ((3 * (S k0 + k))%nat, p)))
    by (intros; simpl; f_equal; lia).
  rewrite (IH (done ++ [a; b; c]) (S k0))
    by (rewrite length_app; simpl; lia).
  cbn [map]. rewrite Hp.
  change (buffer ((a, b, c) :: map (worker_transform matrix) pts))
    with ([a; b; c] ++ buffer (map (worker_transform matrix) pts)).
  rewrite app_assoc. reflexivity.
Qed.

(** [applyTransformation] on the buffer of a point set. *)
Lemma applyTransformation_value (pts : list Triple) (matrix : list number) (w : World) :
  value (applyTransformation (buffer pts) matrix) w
  = buffer (map (worker_transform matrix) pts).
Proof.
  unfold value, applyTransformation.
  rewrite (foldM_buffer_value_indexed _ (store_point matrix)).
  - rewrite length_buffer.
    apply (store_points matrix pts [] 0). reflexivity.
  - intros s i w'. unfold seq_, when, postMessage, ret.
    destruct (is_chunk_start i); reflexivity.
Qed.

(** C3: both transforms return as many points as they are given, and
    [applyTransformLocal] returns the homogeneous transform of each point,
    divided by w.  [applyTransformation], the worker's transform, does not:
    it never reads the fourth row and never divides.  For the point
    (1, 2, 3) and the matrix diag(1, 1, 1, 2), whose w is 2, it returns
    (1, 2, 3) where the homogeneous transform is (0.5, 1, 1.5); for
    [Matrix4.translation(1, 0, 0)] it returns (1, 2, 3) where
    [applyTransformLocal] returns (2, 2, 3). *)
Theorem C3_worker_transform_skips_division_by_w :
  (forall pts matrix w,
      value (applyTransformation (buffer pts) matrix) w
      = buffer (map (worker_transform matrix) pts)) /\
  (forall points matrix,
      map coordinates (Processor.applyTransformLocal points (Some matrix))
      = map (spec_transform_columns matrix) (map coordinates points)) /\
  (forall w, value (applyTransformation [1; 2; 3] halving_matrix) w = [1; 2; 3]) /\
  spec_transform_rows halving_matrix (1, 2, 3) = (0.5, 1, 1.5) /\
  spec_transform_columns halving_matrix (1, 2, 3) = (0.5, 1, 1.5) /\
  (forall w, value (applyTransformation [1; 2; 3] translation_by_1) w = [1; 2; 3]) /\
  map coordinates
      (Processor.applyTransformLocal [Processor.mkPoint 1 2 3 None None None]
                                     (Some translation_by_1))
  = [(2, 2, 3)].
Proof.
  split; [exact applyTransformation_value|].
  split.
  { intros points matrix. unfold Processor.applyTransformLocal.
    rewrite !map_map. apply map_ext. intros point. reflexivity. }
  split.
  { intros w. etransitivity;
      [ apply (applyTransformation_value [(1, 2, 3)] halving_matrix w)
      | vm_compute; reflexivity ]. }
  split; [vm_compute; reflexivity|].
  split; [vm_compute; reflexivity|].
  split.
  { intros w. etransitivity;
      [ apply (applyTransformation_value [(1, 2, 3)] translation_by_1 w)
      | vm_compute; reflexivity ]. }
  vm_compute. reflexivity.
Qed.

End TransformClaims.

(* ===================================================================== *)
(** * Requests answered by an error                                       *)
(* ===================================================================== *)

Section RequestClaims.

Import Processor.

Lemma well_formed_promises (s : State) (p : nat) :
  well_formed s = true -> (nextPromise s <= p)%nat -> promises s !! p = None.
Proof.
  unfold well_formed. rewrite !andb_true_iff. intros [[H _] _] Hp.
  destruct (promises s !! p) as [o|] eqn:Hl; [|reflexivity].
  apply elem_of_map_to_list in Hl. apply list_elem_of_In in Hl.
  rewrite forallb_forall in H. specialize (H _ Hl).
  apply Nat.ltb_lt in H. simpl in H. lia.
Qed.

Lemma well_formed_callbacks (s : State) (requestId : string) (cb : Callback) :
  well_formed s = true ->
  processingCallbacks s !! requestId = Some cb ->
  (promise_of cb < nextPromise s)%nat.
Proof.
  unfold well_formed. rewrite !andb_true_iff. intros [[_ H] _] Hl.
  apply elem_of_map_to_list in Hl. apply list_elem_of_In in Hl.
  rewrite forallb_forall in H. specialize (H _ Hl).
  apply Nat.ltb_lt in H. exact H.
Qed.

Lemma well_formed_microtasks (s : State) (t : Microtask) :
  well_formed s = true -> t ∈ microtasks s ->
  (microtask_promise t < nextPromise s)%nat.
Proof.
  unfold well_formed. rewrite !andb_true_iff. intros [_ H] Hl.
  apply list_elem_of_In in Hl.
  rewrite forallb_forall in H. specialize (H _ Hl).
  apply Nat.ltb_lt in H. exact H.
Qed.

(** Settling another promise leaves [p] as it is. *)
Lemma settle_other (p q : nat) (o : Settlement) (s : State) :
  q <> p -> promises (settle q o s) !! p = promises s !! p.
Proof.
  intros Hne. unfold settle. destruct (promises s !! q); [reflexivity|].
  simpl. apply lookup_insert_ne. exact Hne.
Qed.

Lemma settle_pending (p : nat) (o : Settlement) (s : State) :
  promises s !! p = None -> promises (settle p o s) !! p = Some o.
Proof.
  intros Hp. unfold settle. rewrite Hp. simpl. apply lookup_insert_eq.
Qed.

Lemma settle_rest (q : nat) (o : Settlement) (s : State) :
  processingCallbacks (settle q o s) = processingCallbacks s /\
  microtasks (settle q o s) = microtasks s /\
  nextPromise (settle q o s) = nextPromise s /\
  processedPointData (settle q o s) = processedPointData s /\
  rawPointData (settle q o s) = rawPointData s /\
  worker (settle q o s) = worker s.
Proof. unfold settle. destruct (promises s !! q); repeat split. Qed.



Lemma pending_bookkeeping (p : nat) (requestId : string) (s s' : State) :
  bookkeeping s' = bookkeeping s -> pending p requestId s -> pending p requestId s'.
Proof.
  unfold bookkeeping, pending. intros H. injection H as -> -> -> ->. auto.
Qed.

Lemma pending_settle (p q : nat) (requestId : string) (o : Settlement) (s : State) :
  q <> p -> pending p requestId s -> pending p requestId (settle q o s).
Proof.
  intros Hne (Hcb & Hp & Hothers & Hmt & Hlt).
  destruct (settle_rest q o s) as (E1 & E2 & E3 & _).
  unfold pending. rewrite E1, E2, E3, settle_other by exact Hne. auto.
Qed.

Lemma pending_register (p p' : nat) (requestId requestId' : string) (s : State) :
  requestId' <> requestId -> p' <> p ->
  pending p requestId s ->
  pending p requestId
          (set_processingCallbacks
             (<[requestId' := install_points p']> (processingCallbacks s)) s).
Proof.
  intros Hrid Hp' (Hcb & Hp & Hothers & Hmt & Hlt).
  unfold pending, set_processingCallbacks; simpl.
  repeat split; try assumption.
  - rewrite lookup_insert_ne by exact Hrid. exact Hcb.
  - intros rid cb Hne Hl.
    destruct (decide (rid = requestId')) as [->|Hne'].
    + rewrite lookup_insert_eq in Hl. injection Hl as <-. exact Hp'.
    + rewrite lookup_insert_ne in Hl by congruence. eapply Hothers; eassumption.
Qed.

Lemma pending_delete (p : nat) (requestId requestId' : string) (s : State) :
  requestId' <> requestId ->
  pending p requestId s ->
  pending p requestId
          (set_processingCallbacks (delete requestId' (processingCallbacks s)) s).
Proof.
  intros Hrid (Hcb & Hp & Hothers & Hmt & Hlt).
  unfold pending, set_processingCallbacks; simpl.
  repeat split; try assumption.
  - rewrite lookup_delete_ne by exact Hrid. exact Hcb.
  - intros rid cb Hne Hl.
    destruct (decide (rid = requestId')) as [->|Hne'].
    + rewrite lookup_delete_eq in Hl. discriminate.
    + rewrite lookup_delete_ne in Hl by congruence. eapply Hothers; eassumption.
Qed.

Lemma pending_new_promise (p : nat) (requestId : string) (s : State) :
  pending p requestId s ->
  pending p requestId (snd (new_promise s)) /\ fst (new_promise s) <> p.
Proof.
  intros (Hcb & Hp & Hothers & Hmt & Hlt).
  unfold pending, new_promise; simpl. repeat split; try assumption; lia.
Qed.

Lemma pending_enqueue (p p' : nat) (requestId : string) (result : list Point) (s : State) :
  p' <> p -> pending p requestId s ->
  pending p requestId (set_microtasks (microtasks s ++ [install_local result p']) s).
Proof.
  intros Hp' (Hcb & Hp & Hothers & Hmt & Hlt).
  unfold pending, set_microtasks; simpl. repeat split; try assumption.
  intros t Ht. apply elem_of_app in Ht as [Ht|Ht]; [auto|].
  apply list_elem_of_singleton in Ht as ->. exact Hp'.
Qed.

Lemma pending_invoke (p : nat) (requestId : string) (cb : Callback)
      (result : Value) (error : option Exception) (s : State) :
  promise_of cb <> p -> pending p requestId s ->
  pending p requestId (fst (invoke cb result error s)).
Proof.
  intros Hne H.
  destruct cb as [q|q|q], error as [e|]; simpl in *;
    try (apply pending_settle; [exact Hne | exact H]).
  destruct (points_of result) as [pts|e]; simpl; [|exact H].
  apply pending_settle; [exact Hne|].
  eapply pending_bookkeeping; [|exact H]. reflexivity.
Qed.

Lemma pending_answer (p : nat) (requestId requestId' : string) (result : Value)
      (error : option Exception) (k : State -> State) (s : State) :
  requestId' <> requestId ->
  (forall s, bookkeeping (k s) = bookkeeping s) ->
  pending p requestId s ->
  pending p requestId (answer requestId' result error k s).
Proof.
  intros Hrid Hk H. unfold answer.
  destruct (processingCallbacks s !! requestId') as [cb|] eqn:Hl.
  - assert (Hcb : promise_of cb <> p).
    { destruct H as (_ & _ & Hothers & _). eapply Hothers; eassumption. }
    pose proof (pending_invoke p requestId cb result error s Hcb H) as H'.
    destruct (invoke cb result error s) as [s' threw]. simpl in H'.
    destruct threw; [exact H'|].
    eapply pending_bookkeeping; [apply Hk|].
    apply pending_delete; assumption.
  - eapply pending_bookkeeping; [apply Hk | exact H].
Qed.

(** A request that is pending stays so through every event that does not
    concern its [requestId]. *)
Lemma pending_step (p : nat) (requestId : string) (ev : Event) (s : State) :
  concerns requestId ev = false ->
  pending p requestId s -> pending p requestId (step ev s).
Proof.
  intros Hev H. destruct ev as [r requestId'|e| |]; simpl in Hev.
  - (* a request under another id *)
    apply String.eqb_neq in Hev.
    destruct (pending_new_promise p requestId s H) as [Hnew Hfresh].
    assert (Hrej : forall e,
               pending p requestId (reject (fst (new_promise s)) e (snd (new_promise s))))
      by (intros e; apply pending_settle; assumption).
    assert (Hreg : pending p requestId
                     (set_processingCallbacks
                        (<[requestId' := install_points (fst (new_promise s))]>
                           (processingCallbacks (snd (new_promise s))))
                        (snd (new_promise s))))
      by (apply pending_register; assumption).
    assert (Hinst : forall result,
               pending p requestId
                 (resolve (fst (new_promise s)) (points_object result)
                          (set_processedPointData (Some result) (snd (new_promise s))))).
    { intros result. apply pending_settle; [exact Hfresh|].
      eapply pending_bookkeeping; [|exact Hnew]. reflexivity. }
    destruct r as [options|filterType params|m]; simpl;
      unfold processData, applyFilter, applyTransform.
    + destruct (new_promise s) as [p' s0]; simpl in *.
      destruct (rawPointData s0); [|apply Hrej].
      destruct (worker s0); simpl.
      * eapply pending_bookkeeping; [|exact Hreg]. reflexivity.
      * apply pending_enqueue; assumption.
    + destruct (new_promise s) as [p' s0]; simpl in *.
      destruct (processedPointData s0); [|apply Hrej].
      destruct (worker s0); simpl.
      * eapply pending_bookkeeping; [|exact Hreg]. reflexivity.
      * destruct (String.eqb filterType "noise"); [apply Hinst|].
        destruct (String.eqb filterType "downsample"); [apply Hinst | apply Hrej].
    + destruct (new_promise s) as [p' s0]; simpl in *.
      destruct (processedPointData s0); [|apply Hrej].
      destruct (worker s0); simpl.
      * eapply pending_bookkeeping; [|exact Hreg]. reflexivity.
      * apply Hinst.
  - (* a message for another id *)
    apply String.eqb_neq in Hev. simpl. unfold onmessage.
    repeat match goal with
           | |- context [if String.eqb ?a ?b then _ else _] =>
               destruct (String.eqb a b)
           end;
      try (apply pending_answer; [exact Hev | intros; reflexivity |]);
      try (eapply pending_bookkeeping; [|exact H]; reflexivity);
      exact H.
  - (* the worker failed *)
    exact H.
  - (* a queued continuation *)
    simpl. unfold run_microtask.
    destruct (microtasks s) as [|[result q] rest] eqn:Hq; [exact H|].
    assert (Hq' : q <> p).
    { destruct H as (_ & _ & _ & Hmt & _).
      apply (Hmt (install_local result q)). rewrite Hq. left. }
    apply pending_settle; [exact Hq'|].
    destruct H as (Hcb & Hp & Hothers & Hmt & Hlt).
    unfold pending; simpl. repeat split; try assumption.
    intros t Ht. apply Hmt. rewrite Hq. right. exact Ht.
Qed.

Lemma pending_run (p : nat) (requestId : string) (evs : list Event) (s : State) :
  forallb (fun ev => negb (concerns requestId ev)) evs = true ->
  pending p requestId s -> pending p requestId (run evs s).
Proof.
  revert s; induction evs as [|ev evs IH]; intros s Hevs H; [exact H|].
  simpl in Hevs. apply andb_true_iff in Hevs as [Hev Hevs].
  apply negb_true_iff in Hev.
  apply (IH (step ev s) Hevs). apply pending_step; assumption.
Qed.

(** A request made while a worker exists and the data is there registers
    its callback, and leaves the data as it is. *)
Lemma pending_after_call (r : Request) (requestId : string) (s : State) :
  well_formed s = true -> worker s = true -> is_Some (input_of r s) ->
  pending (fst (call r requestId s)) requestId (snd (call r requestId s)) /\
  processedPointData (snd (call r requestId s)) = processedPointData s /\
  worker (snd (call r requestId s)) = true.
Proof.
  intros Hwf Hw [input Hin].
  assert (Hreg : pending (nextPromise s) requestId
                   (set_processingCallbacks
                      (<[requestId := install_points (nextPromise s)]>
                         (processingCallbacks s))
                      (snd (new_promise s)))).
  { unfold pending, set_processingCallbacks, new_promise; simpl.
    split; [apply lookup_insert_eq|].
    split; [apply well_formed_promises; [exact Hwf | lia]|].
    split; [|split; [|lia]].
    - intros rid cb Hne Hl. rewrite lookup_insert_ne in Hl by congruence.
      pose proof (well_formed_callbacks s rid cb Hwf Hl). lia.
    - intros t Ht. pose proof (well_formed_microtasks s t Hwf Ht). lia. }
  destruct r as [options|filterType params|m]; simpl in *;
    unfold processData, applyFilter, applyTransform, new_promise in *; simpl in *;
    rewrite Hin, Hw; simpl; repeat split; try assumption;
    (eapply pending_bookkeeping; [|exact Hreg]; reflexivity).
Qed.


(** The ['error'] case never touches the data, whatever the state. *)
Lemma error_keeps_data (requestId message : string) (s : State) :
  processedPointData (onmessage (error_message requestId message) s)
  = processedPointData s.
Proof.
  unfold onmessage, error_message, answer.
  cbn [type data Processor.requestId data_message String.eqb Ascii.eqb Bool.eqb].
  destruct (processingCallbacks s !! requestId) as [cb|]; [|reflexivity].
  destruct cb as [q|q|q]; cbn [invoke]; unfold reject, publish, set_processingCallbacks;
    simpl; apply settle_rest.
Qed.



Lemma well_formed_iff (s : State) :
  well_formed s = true <-> promises_made_before s.
Proof.
  unfold well_formed, promises_made_before.
  rewrite !andb_true_iff, !forallb_forall. split.
  - intros [[H1 H2] H3]. repeat split.
    + intros q o Hl. apply elem_of_map_to_list, list_elem_of_In in Hl.
      apply Nat.ltb_lt. exact (H1 _ Hl).
    + intros rid cb Hl. apply elem_of_map_to_list, list_elem_of_In in Hl.
      apply Nat.ltb_lt. exact (H2 _ Hl).
    + intros t Ht. apply list_elem_of_In in Ht. apply Nat.ltb_lt. exact (H3 _ Ht).
  - intros (H1 & H2 & H3). repeat split.
    + intros [q o] Hl. apply list_elem_of_In, elem_of_map_to_list in Hl.
      apply Nat.ltb_lt. exact (H1 _ _ Hl).
    + intros [rid cb] Hl. apply list_elem_of_In, elem_of_map_to_list in Hl.
      apply Nat.ltb_lt. exact (H2 _ _ Hl).
    + intros t Ht. apply list_elem_of_In in Ht. apply Nat.ltb_lt. exact (H3 _ Ht).
Qed.

Lemma made_before_bookkeeping (s s' : State) :
  bookkeeping s' = bookkeeping s -> promises_made_before s -> promises_made_before s'.
Proof.
  unfold bookkeeping, promises_made_before. intros H. injection H as -> -> -> ->. auto.
Qed.

Lemma made_before_settle (q : nat) (o : Settlement) (s : State) :
  (q < nextPromise s)%nat ->
  promises_made_before s -> promises_made_before (settle q o s).
Proof.
  intros Hq (H1 & H2 & H3).
  destruct (settle_rest q o s) as (E1 & E2 & E3 & _).
  unfold promises_made_before. rewrite E1, E2, E3. repeat split; try assumption.
  intros q' o' Hl. destruct (decide (q = q')) as [<-|Hne]; [exact Hq|].
  rewrite settle_other in Hl by exact Hne. eapply H1; exact Hl.
Qed.

Lemma made_before_new_promise (s : State) :
  promises_made_before s ->
  promises_made_before (snd (new_promise s)) /\
  (fst (new_promise s) < nextPromise (snd (new_promise s)))%nat.
Proof.
  intros (H1 & H2 & H3). unfold promises_made_before, new_promise; simpl.
  repeat split; try lia.
  - intros q o Hl. specialize (H1 q o Hl). lia.
  - intros rid cb Hl. specialize (H2 rid cb Hl). lia.
  - intros t Ht. specialize (H3 t Ht). lia.
Qed.

Lemma made_before_register (p : nat) (requestId : string) (s : State) :
  (p < nextPromise s)%nat ->
  promises_made_before s ->
  promises_made_before
    (set_processingCallbacks
       (<[requestId := install_points p]> (processingCallbacks s)) s).
Proof.
  intros Hp (H1 & H2 & H3). unfold promises_made_before, set_processingCallbacks; simpl.
  repeat split; try assumption.
  intros rid cb Hl. destruct (decide (rid = requestId)) as [->|Hne].
  - rewrite lookup_insert_eq in Hl. injection Hl as <-. exact Hp.
  - rewrite lookup_insert_ne in Hl by congruence. eapply H2; exact Hl.
Qed.

Lemma made_before_delete (requestId : string) (s : State) :
  promises_made_before s ->
  promises_made_before
    (set_processingCallbacks (delete requestId (processingCallbacks s)) s).
Proof.
  intros (H1 & H2 & H3). unfold promises_made_before, set_processingCallbacks; simpl.
  repeat split; try assumption.
  intros rid cb Hl. destruct (decide (rid = requestId)) as [->|Hne].
  - rewrite lookup_delete_eq in Hl. discriminate.
  - rewrite lookup_delete_ne in Hl by congruence. eapply H2; exact Hl.
Qed.

Lemma made_before_invoke (cb : Callback) (result : Value)
      (error : option Exception) (s : State) :
  (promise_of cb < nextPromise s)%nat ->
  promises_made_before s -> promises_made_before (fst (invoke cb result error s)).
Proof.
  intros Hcb H.
  destruct cb as [q|q|q], error as [e|]; simpl in *;
    try (apply made_before_settle; [exact Hcb | exact H]).
  destruct (points_of result) as [pts|e]; simpl; [|exact H].
  apply made_before_settle; [exact Hcb|].
  eapply made_before_bookkeeping; [|exact H]. reflexivity.
Qed.

Lemma made_before_answer (requestId : string) (result : Value)
      (error : option Exception) (k : State -> State) (s : State) :
  (forall s, bookkeeping (k s) = bookkeeping s) ->
  promises_made_before s ->
  promises_made_before (answer requestId result error k s).
Proof.
  intros Hk H. unfold answer.
  destruct (processingCallbacks s !! requestId) as [cb|] eqn:Hl.
  - assert (Hcb : (promise_of cb < nextPromise s)%nat)
      by (destruct H as (_ & H2 & _); eapply H2; exact Hl).
    pose proof (made_before_invoke cb result error s Hcb H) as H'.
    destruct (invoke cb result error s) as [s' threw]. simpl in H'.
    destruct threw; [exact H'|].
    eapply made_before_bookkeeping; [apply Hk|].
    apply made_before_delete. exact H'.
  - eapply made_before_bookkeeping; [apply Hk | exact H].
Qed.

(** Every event keeps a state well formed. *)
Lemma well_formed_step (ev : Event) (s : State) :
  well_formed s = true -> well_formed (step ev s) = true.
Proof.
  rewrite !well_formed_iff. intros H.
  destruct ev as [r requestId|e| |]; simpl.
  - destruct (made_before_new_promise s H) as [Hnew Hfresh].
    assert (Hrej : forall e,
               promises_made_before
                 (reject (fst (new_promise s)) e (snd (new_promise s))))
      by (intros e; apply made_before_settle; assumption).
    assert (Hreg : promises_made_before
                     (set_processingCallbacks
                        (<[requestId := install_points (fst (new_promise s))]>
                           (processingCallbacks (snd (new_promise s))))
                        (snd (new_promise s))))
      by (apply made_before_register; assumption).
    assert (Hinst : forall result,
               promises_made_before
                 (resolve (fst (new_promise s)) (points_object result)
                          (set_processedPointData (Some result) (snd (new_promise s))))).
    { intros result. apply made_before_settle; [exact Hfresh|].
      eapply made_before_bookkeeping; [|exact Hnew]. reflexivity. }
    destruct r as [options|filterType params|m]; simpl;
      unfold processData, applyFilter, applyTransform.
    + destruct (new_promise s) as [p' s0]; simpl in *.
      destruct (rawPointData s0); [|apply Hrej].
      destruct (worker s0); simpl.
      * eapply made_before_bookkeeping; [|exact Hreg]. reflexivity.
      * destruct Hnew as (H1 & H2 & H3).
        unfold promises_made_before, set_microtasks; simpl.
        repeat split; try assumption.
        intros t Ht. apply elem_of_app in Ht as [Ht|Ht]; [auto|].
        apply list_elem_of_singleton in Ht as ->. exact Hfresh.
    + destruct (new_promise s) as [p' s0]; simpl in *.
      destruct (processedPointData s0); [|apply Hrej].
      destruct (worker s0); simpl.
      * eapply made_before_bookkeeping; [|exact Hreg]. reflexivity.
      * destruct (String.eqb filterType "noise"); [apply Hinst|].
        destruct (String.eqb filterType "downsample"); [apply Hinst | apply Hrej].
    + destruct (new_promise s) as [p' s0]; simpl in *.
      destruct (processedPointData s0); [|apply Hrej].
      destruct (worker s0); simpl.
      * eapply made_before_bookkeeping; [|exact Hreg]. reflexivity.
      * apply Hinst.
  - unfold onmessage.
    repeat match goal with
           | |- context [if String.eqb ?a ?b then _ else _] =>
               destruct (String.eqb a b)
           end;
      try (apply made_before_answer; [intros; reflexivity |]);
      try (eapply made_before_bookkeeping; [|exact H]; reflexivity);
      exact H.
  - exact H.
  - unfold run_microtask.
    destruct (microtasks s) as [|[result q] rest] eqn:Hq; [exact H|].
    destruct H as (H1 & H2 & H3).
    assert (Hq' : (q < nextPromise s)%nat)
      by (apply (H3 (install_local result q)); rewrite Hq; left).
    apply made_before_settle; [exact Hq'|].
    unfold promises_made_before; simpl. repeat split; try assumption.
    intros t Ht. apply H3. rewrite Hq. right. exact Ht.
Qed.




End RequestClaims.

(* ===================================================================== *)
(** * The octree: boxes, placement and height                             *)
(* ===================================================================== *)

Section OctreeShape.

Import Processor.
Local Open Scope float_scope.

Lemma every_Forall {A} (P : A -> Prop) (l : list A) : every P l <-> Forall P l.
Proof.
  induction l as [|a l IH]; simpl.
  - split; [constructor | trivial].
  - rewrite Forall_cons, IH. reflexivity.
Qed.

Lemma Forall2_right {A B} (R : A -> B -> Prop) (P : B -> Prop) l l' :
  Forall2 R l l' -> (forall a b, R a b -> P b) -> Forall P l'.
Proof. induction 1; intros HP; constructor; eauto. Qed.

Lemma Forall2_map_eq {A B C} (R : A -> B -> Prop) (f : A -> C) (g : B -> C) l l' :
  Forall2 R l l' -> (forall a b, R a b -> g b = f a) -> map g l' = map f l.
Proof. induction 1; intros Hfg; simpl; [reflexivity | f_equal; eauto]. Qed.

Lemma height_children (r : nat) (cs : list Node) :
  Forall (fun c => (height c <= r)%nat) cs ->
  (fold_right (fun c rest => Nat.max (height c) rest) O cs <= r)%nat.
Proof. induction 1; simpl; lia. Qed.

Lemma map_alter_push {B} (f : Node -> B) (point : Point) (i : nat) (cs : list Node) :
  (forall c, f (push_point point c) = f c) ->
  map f (alter (push_point point) i cs) = map f cs.
Proof.
  intros Hf. revert i; induction cs as [|c cs IH]; intros [|i]; try reflexivity.
  - change (alter (push_point point) 0%nat (c :: cs))
      with (push_point point c :: cs).
    simpl. rewrite Hf. reflexivity.
  - change (alter (push_point point) (S i) (c :: cs))
      with (c :: alter (push_point point) i cs).
    simpl. rewrite IH. reflexivity.
Qed.

(** The second loop of [subdivideNode] leaves the boxes alone and appends
    to child [i], in input order, the points whose index is [i]. *)
Lemma distribute_exact midX midY midZ (pts : list Point) (cs : list Node) :
  let cs' :=
    fold_left (fun cs point =>
                 alter (push_point point) (childIndex midX midY midZ point) cs)
              pts cs in
  map boundingBox cs' = map boundingBox cs /\
  forall i c', cs' !! i = Some c' ->
    exists c, cs !! i = Some c /\
      points c' =
      points c ++ base.filter (fun p => childIndex midX midY midZ p = i) pts.
Proof.
  revert cs; induction pts as [|p pts IH]; intros cs; simpl.
  - split; [reflexivity|]. intros i c' H; exists c'.
    rewrite app_nil_r; auto.
  - destruct (IH (alter (push_point p) (childIndex midX midY midZ p) cs))
      as [Hb Hp].
    split.
    + rewrite Hb. apply map_alter_push. reflexivity.
    + intros i c' Hi. destruct (Hp i c' Hi) as (c1 & Hc1 & Hpts).
      rewrite filter_cons.
      destruct (decide (childIndex midX midY midZ p = i)) as [<-|Hne].
      * rewrite list_lookup_alter_eq in Hc1.
        destruct (cs !! childIndex midX midY midZ p) as [c|] eqn:Hc;
          simpl in Hc1; [|discriminate Hc1].
        exists c; split; [reflexivity|].
        injection Hc1 as <-.
        rewrite Hpts. simpl. rewrite <- app_assoc. reflexivity.
      * rewrite list_lookup_alter_ne in Hc1 by assumption.
        exists c1; split; assumption.
Qed.

(** A node put together from children that were grown from the children
    the second loop filled. *)
Lemma node_of_children (bb : Box) (pts : list Point) (cs1 cs2 : list Node) (r : nat) :
  map boundingBox cs1 = octantBoxesOf bb ->
  (forall i c, cs1 !! i = Some c ->
               points c = base.filter (fun p => octantOf bb p = i) pts) ->
  flat_map points cs1 ≡ₚ pts ->
  Forall2 (fun c c' =>
             boundingBox c' = boundingBox c /\ octantTree c' /\ wellPlaced c' /\
             leafPoints c' ≡ₚ points c /\ (height c' <= r)%nat) cs1 cs2 ->
  let node' := mkNode (Some bb) [] (Some cs2) in
  octantTree node' /\ wellPlaced node' /\ leafPoints node' ≡ₚ pts /\
  (height node' <= S r)%nat.
Proof.
  intros Hboxes Hpts Hall HR; cbn zeta.
  split; [|split; [|split]].
  - split.
    + rewrite <- Hboxes. eapply Forall2_map_eq; [exact HR|].
      intros a b (H & _); exact H.
    + apply every_Forall. eapply Forall2_right; [exact HR|].
      intros a b (_ & H & _); exact H.
  - split.
    + intros i child Hi.
      destruct (Forall2_lookup_r _ _ _ _ _ HR Hi) as (c & Hc & _ & _ & _ & Hl & _).
      apply Forall_forall. intros p Hp.
      rewrite Hl, (Hpts i c Hc) in Hp.
      apply list_elem_of_filter in Hp. apply Hp.
    + apply every_Forall. eapply Forall2_right; [exact HR|].
      intros a b (_ & _ & H & _); exact H.
  - cbn [leafPoints]. rewrite <- Hall. apply flat_map_Forall2_perm.
    eapply Forall2_impl; [exact HR|]. intros a b (_ & _ & _ & H & _); exact H.
  - cbn [height]. apply le_n_S. apply height_children.
    eapply Forall2_right; [exact HR|]. intros a b (_ & _ & _ & _ & H); exact H.
Qed.

(** [subdivideNode] returns for every node with a box; it keeps the box,
    gives every node below eight children with the octant boxes, hands
    every point to the octant of its index, and goes down at most one
    level more than [remaining]. *)
Lemma subdivide_shape (minPointsPerNode : Z) (remaining : nat) :
  forall (node : Node) (bb : Box),
    boundingBox node = Some bb ->
    exists node',
      subdivide minPointsPerNode remaining node = Ok node' /\
      boundingBox node' = Some bb /\
      octantTree node' /\ wellPlaced node' /\
      leafPoints node' ≡ₚ points node /\
      (height node' <= S remaining)%nat.
Proof.
  induction remaining as [|r IH]; intros node bb Hbb.
  all: simpl; unfold subdivideNode_body; rewrite Hbb.
  all: change (PrimFloat.div (PrimFloat.add (vx (bmin bb)) (vx (bmax bb))) 2)
         with (vx (midpoint bb));
       change (PrimFloat.div (PrimFloat.add (vy (bmin bb)) (vy (bmax bb))) 2)
         with (vy (midpoint bb));
       change (PrimFloat.div (PrimFloat.add (vz (bmin bb)) (vz (bmax bb))) 2)
         with (vz (midpoint bb)).
  all: set (children0 := map _ _).
  all: assert (Hlen0 : length children0 = 8%nat) by reflexivity.
  all: assert (Hfresh0 : Forall fresh_leaf children0)
    by (repeat constructor; simpl; eauto).
  all: destruct (distribute_points (vx (midpoint bb)) (vy (midpoint bb))
                   (vz (midpoint bb)) (points node) children0 Hlen0 Hfresh0)
    as (_ & Hfresh1 & Hperm1).
  all: destruct (distribute_exact (vx (midpoint bb)) (vy (midpoint bb))
                   (vz (midpoint bb)) (points node) children0) as (Hboxes & Hexact).
  all: set (children1 := fold_left _ _ _) in *.
  all: assert (Hpts : forall i c, children1 !! i = Some c ->
         points c = base.filter (fun p => octantOf bb p = i) (points node))
    by (intros i c Hi; destruct (Hexact i c Hi) as (c0 & Hc0 & ->);
        replace (points c0) with (@nil Point); [reflexivity|];
        apply list_elem_of_lookup_2 in Hc0; unfold children0 in Hc0;
        apply list_elem_of_fmap in Hc0; destruct Hc0 as (k & -> & _);
        reflexivity).
  all: assert (Hall : flat_map points children1 ≡ₚ points node)
    by (rewrite Hperm1; reflexivity).
  - assert (HR : Forall2 (fun c c' =>
             boundingBox c' = boundingBox c /\ octantTree c' /\ wellPlaced c' /\
             leafPoints c' ≡ₚ points c /\ (height c' <= 0)%nat)
             children1 children1).
    { apply Forall_Forall2_diag. eapply Forall_impl; [exact Hfresh1|].
      intros [cbb pts [cs|]] [Hc _]; simpl in Hc; [discriminate|].
      simpl; auto. }
    simpl. eexists; split; [reflexivity|]. split; [reflexivity|].
    apply (node_of_children bb (points node) children1 children1 0);
      assumption.
  - destruct (mapM_Forall2
                (fun child =>
                   if Z.of_nat (length (points child)) >? minPointsPerNode
                   then subdivide minPointsPerNode r child else Ok child)
                (fun c c' =>
                   boundingBox c' = boundingBox c /\ octantTree c' /\
                   wellPlaced c' /\ leafPoints c' ≡ₚ points c /\
                   (height c' <= S r)%nat)
                children1) as (children2 & Hmap & HR).
    { eapply Forall_impl; [exact Hfresh1|].
      intros child [Hc [cbb Hb]].
      destruct (Z.of_nat (length (points child)) >? minPointsPerNode)%Z.
      - destruct (IH child cbb Hb) as (child' & Hsub & Hb' & Ho & Hw & Hp & Hh).
        exists child'; rewrite Hb; auto 10.
      - exists child; split; [reflexivity|].
        destruct child as [b pts [cs|]]; simpl in Hc; [discriminate|].
        simpl; repeat split; auto; lia. }
    rewrite Hmap. simpl. eexists; split; [reflexivity|]. split; [reflexivity|].
    apply (node_of_children bb (points node) children1 children2 (S r));
      assumption.
Qed.

(** What [buildOctree] returns, whatever its arguments. *)
Lemma buildOctree_shape (points : list Point) (maxDepth minPointsPerNode : option Z) :
  match buildOctree points maxDepth minPointsPerNode with
  | Ok root =>
      boundingBox root = calculateBoundingBox points /\
      octantTree root /\ wellPlaced root /\
      (height root <= S (Z.to_nat (default 8%Z maxDepth)))%nat
  | Throw _ => points = []
  end.
Proof.
  unfold buildOctree.
  generalize (default 8%Z maxDepth) (default 5%Z minPointsPerNode).
  clear maxDepth minPointsPerNode. intros maxDepth minPointsPerNode.
  destruct (Z.of_nat (length points) >? minPointsPerNode)%Z.
  - destruct points as [|p points].
    + unfold subdivideNode.
      destruct (Z.to_nat (maxDepth - 0)); reflexivity.
    + unfold subdivideNode.
      destruct (calculateBoundingBox_nonempty (p :: points)) as [bb Hbb];
        [discriminate|].
      destruct (subdivide_shape minPointsPerNode (Z.to_nat (maxDepth - 0))
                  (mkNode (calculateBoundingBox (p :: points)) (p :: points) None)
                  bb Hbb) as (root & Hroot & Hb & Ho & Hw & _ & Hh).
      rewrite Hroot, Hb, Hbb. rewrite Z.sub_0_r in Hh. auto.
  - simpl. repeat split. lia.
Qed.

(** X1.  Whatever its arguments, [buildOctree] throws only for an empty
    input; the root of the tree it returns has the bounding box of the
    input, and every node with children has a box and exactly eight
    children whose boxes are, in order, the eight octants of that box about its
    midpoint. *)
Theorem X1_octree_children_are_the_eight_octants
  (points : list Point) (maxDepth minPointsPerNode : option Z) :
  match buildOctree points maxDepth minPointsPerNode with
  | Ok root =>
      boundingBox root = calculateBoundingBox points /\ octantTree root
  | Throw _ => points = []
  end.
Proof.
  pose proof (buildOctree_shape points maxDepth minPointsPerNode) as H.
  destruct (buildOctree points maxDepth minPointsPerNode); [|exact H].
  destruct H as (? & ? & _); auto.
Qed.

(** X2.  In the tree [buildOctree] returns, every point found in the
    leaves below the [i]-th child of a node has index [i] with respect to
    the midpoint of the node's box: bit 0 of the index says that its x is
    above the midpoint, bit 1 its y, bit 2 its z. *)
Theorem X2_octree_points_lie_in_their_octant
  (points : list Point) (maxDepth minPointsPerNode : option Z) (root : Node) :
  buildOctree points maxDepth minPointsPerNode = Ok root -> wellPlaced root.
Proof.
  intros Hroot.
  pose proof (buildOctree_shape points maxDepth minPointsPerNode) as H.
  rewrite Hroot in H. apply H.
Qed.

Lemma X2_octree_placement_witness :
  exists root,
    buildOctree [corner 0 0 0; corner 1 1 1; corner 1 0 0] (Some 1%Z) (Some 1%Z)
    = Ok root /\ wellPlaced root.
Proof.
  eexists; split; [vm_compute; reflexivity|].
  apply (X2_octree_points_lie_in_their_octant
           [corner 0 0 0; corner 1 1 1; corner 1 0 0] (Some 1%Z) (Some 1%Z)).
  vm_compute; reflexivity.
Defined.

(** X3.  The tree [buildOctree] returns has at most [maxDepth + 1] levels
    below its root (one level for a negative [maxDepth]). *)
Theorem X3_octree_height_is_bounded
  (points : list Point) (maxDepth minPointsPerNode : option Z) (root : Node) :
  buildOctree points maxDepth minPointsPerNode = Ok root ->
  (height root <= S (Z.to_nat (default 8%Z maxDepth)))%nat.
Proof.
  intros Hroot.
  pose proof (buildOctree_shape points maxDepth minPointsPerNode) as H.
  rewrite Hroot in H. apply H.
Qed.

Lemma X3_octree_height_witness :
  exists root,
    buildOctree [corner 0 0 0; corner 1 1 1; corner 1 0 0] (Some 1%Z) (Some 0%Z)
    = Ok root /\ (height root <= 2)%nat.
Proof.
  eexists; split; [vm_compute; reflexivity|].
  apply (X3_octree_height_is_bounded
           [corner 0 0 0; corner 1 1 1; corner 1 0 0] (Some 1%Z) (Some 0%Z)).
  vm_compute; reflexivity.
Defined.

End OctreeShape.

(* ===================================================================== *)
(** * The main-thread fallbacks                                           *)
(* ===================================================================== *)

Section MainThread.

Import Processor.
Local Open Scope float_scope.

(** X4.  The root of the tree [buildOctree] returns has children exactly
    when the input has more than [minPointsPerNode] points, whatever
    [maxDepth] is. *)
Theorem X4_root_is_subdivided_iff_enough_points
  (points : list Point) (maxDepth minPointsPerNode : option Z) (root : Node) :
  buildOctree points maxDepth minPointsPerNode = Ok root ->
  (is_Some (children root) <->
   (default 5%Z minPointsPerNode < Z.of_nat (length points))%Z).
Proof.
  intros Hroot.
  pose proof (buildOctree_spec points maxDepth minPointsPerNode) as H.
  rewrite Hroot in H. destruct H as (_ & Hperm & Hrule).
  apply Permutation_length in Hperm.
  destruct root as [bb pts [cs|]]; cbn [leafRule] in Hrule; cbn [children].
  - apply andb_true_iff in Hrule as [Hrule _].
    apply andb_true_iff in Hrule as [Hrule _].
    apply Z.ltb_lt in Hrule. rewrite Hperm in Hrule.
    split; [intros _; exact Hrule | intros _; eexists; reflexivity].
  - rewrite Z.ltb_irrefl, andb_false_l, orb_false_r in Hrule.
    apply Z.leb_le in Hrule. simpl in Hperm. rewrite Hperm in Hrule.
    split; [intros [? ?]; discriminate | lia].
Qed.

Lemma X4_root_rule_witness :
  exists root,
    buildOctree [corner 0 0 0; corner 1 1 1] (Some 0%Z) (Some 1%Z) = Ok root /\
    (is_Some (children root) <-> (1 < 2)%Z).
Proof.
  eexists; split; [vm_compute; reflexivity|].
  apply (X4_root_is_subdivided_iff_enough_points
           [corner 0 0 0; corner 1 1 1] (Some 0%Z) (Some 1%Z)).
  vm_compute; reflexivity.
Defined.

Lemma omap_lookup {A B} (f : A -> option B) (l : list A) (k : nat) :
  Forall (fun a => is_Some (f a)) l ->
  omap f l !! k = l !! k ≫= f.
Proof.
  intros H; revert k; induction H as [|a l [b Hb] _ IH]; intros k.
  - reflexivity.
  - cbn [omap list_omap]. rewrite Hb. destruct k as [|k]; simpl.
    + symmetry; exact Hb.
    + apply IH.
Qed.

(** X5.  [applyDownsamplingLocal] with a factor of at least 2 (2 when it
    is left out) returns the points at the indices 0, factor, 2 * factor,
    ... of its input, in that order, and nothing else. *)
Theorem X5_downsampling_takes_every_factor_th_point
  (points : list Point) (factor : option Z) (k : nat) :
  (2 <= default 2%Z factor)%Z ->
  applyDownsamplingLocal points factor !! k
  = points !! (k * Z.to_nat (default 2%Z factor))%nat.
Proof.
  intros Hf. unfold applyDownsamplingLocal.
  destruct (Z.leb_spec (default 2%Z factor) 1) as [?|_]; [lia|].
  cbn zeta. set (step := Z.to_nat (default 2%Z factor)).
  assert (Hstep : (2 <= step)%nat) by (unfold step; lia).
  set (n := ((length points + step - 1) / step)%nat).
  assert (Hn : forall j, (j < n)%nat <-> (j * step < length points)%nat).
  { intros j. unfold n. split.
    - intros Hj.
      destruct (Nat.lt_ge_cases (j * step) (length points)) as [?|Hge];
        [assumption|].
      exfalso. apply (Nat.lt_irrefl j). eapply Nat.lt_le_trans; [exact Hj|].
      apply Nat.lt_succ_r. apply Nat.Div0.div_lt_upper_bound. nia.
    - intros Hj. apply Nat.div_le_lower_bound; nia. }
  rewrite omap_lookup.
  - destruct (Nat.lt_ge_cases k n) as [Hk|Hk].
    + rewrite lookup_seq_lt by exact Hk. reflexivity.
    + rewrite lookup_seq_ge by exact Hk. simpl. symmetry.
      apply lookup_ge_None.
      destruct (Nat.lt_ge_cases (k * step) (length points)) as [Hlt|?];
        [|assumption].
      apply Hn in Hlt. lia.
  - apply Forall_forall. intros j Hj. apply elem_of_seq in Hj.
    apply lookup_lt_is_Some. apply Hn. lia.
Qed.

Lemma X5_downsampling_witness :
  (2 <= default 2%Z (Some 2%Z))%Z /\
  applyDownsamplingLocal
    [corner 0 0 0; corner 1 1 1; corner 2 2 2; corner 3 3 3; corner 4 4 4]
    (Some 2%Z) !! 2%nat
  = [corner 0 0 0; corner 1 1 1; corner 2 2 2; corner 3 3 3; corner 4 4 4]
      !! (2 * Z.to_nat (default 2%Z (Some 2%Z)))%nat.
Proof.
  split; [simpl; lia|].
  apply (X5_downsampling_takes_every_factor_th_point
           [corner 0 0 0; corner 1 1 1; corner 2 2 2; corner 3 3 3; corner 4 4 4]
           (Some 2%Z) 2).
  simpl; lia.
Defined.

(** The count of the inner loop rises only at another index within the
    radius. *)
Lemma count_rises (radius minNeighbors : number) (i : nat) (point : Point)
      (l : list (nat * Point)) :
  forall (c : nat) (stop : bool),
    (c < fst (fold_left
                (fun '(neighborCount, stop) '(j, other) =>
                   if (stop : bool) then (neighborCount, stop)
                   else if Nat.eqb i j then (neighborCount, false)
                   else if (distance_between point other <? radius)%float
                        then (S neighborCount,
                              geb (of_nat (S neighborCount)) minNeighbors)
                        else (neighborCount, false))
                l (c, stop)))%nat ->
    exists j other,
      (j, other) ∈ l /\ i <> j /\ (distance_between point other <? radius) = true.
Proof.
  induction l as [|[j other] l IH]; intros c stop H; simpl in H; [lia|].
  assert (Hlater : forall c' stop',
             (c < fst (fold_left
                (fun '(neighborCount, stop) '(j, other) =>
                   if (stop : bool) then (neighborCount, stop)
                   else if Nat.eqb i j then (neighborCount, false)
                   else if (distance_between point other <? radius)%float
                        then (S neighborCount,
                              geb (of_nat (S neighborCount)) minNeighbors)
                        else (neighborCount, false))
                l (c', stop')))%nat -> c' = c ->
             exists j other,
               (j, other) ∈ l /\ i <> j /\
               (distance_between point other <? radius) = true).
  { intros c' stop' H' ->. exact (IH c stop' H'). }
  destruct stop.
  - destruct (Hlater _ _ H eq_refl) as (j' & o' & Hin & Hne & Hd).
    exists j', o'. split; [right; exact Hin | auto].
  - destruct (Nat.eqb_spec i j) as [->|Hij].
    + destruct (Hlater _ _ H eq_refl) as (j' & o' & Hin & Hne & Hd).
      exists j', o'. split; [right; exact Hin | auto].
    + destruct (distance_between point other <? radius) eqn:Hd.
      * exists j, other. split; [left | auto].
      * destruct (Hlater _ _ H eq_refl) as (j' & o' & Hin & Hne & Hd').
        exists j', o'. split; [right; exact Hin | auto].
Qed.

Lemma countNeighbors_positive (points : list Point) (radius minNeighbors : number)
      (i : nat) (point : Point) :
  (0 < countNeighbors points radius minNeighbors i point)%nat ->
  exists j other,
    points !! j = Some other /\ i <> j /\
    (distance_between point other <? radius) = true.
Proof.
  intros H. apply count_rises in H. destruct H as (j & other & Hin & Hne & Hd).
  exists j, other. split; [|auto].
  apply elem_of_lookup_imap in Hin. destruct Hin as (j' & o' & Heq & Hl).
  injection Heq as -> ->. exact Hl.
Qed.

Lemma fold_left_keep_indexed {A} (t : nat -> A -> bool) (l : list (nat * A))
      (acc : list A) :
  fold_left (fun result '(i, point) =>
               if t i point then result ++ [point] else result) l acc
  = acc ++ map snd (List.filter (fun '(i, point) => t i point) l).
Proof.
  revert acc; induction l as [|[i a] l IH]; intros acc; simpl.
  - rewrite app_nil_r; reflexivity.
  - rewrite IH. destruct (t i a); [|reflexivity].
    simpl. rewrite <- app_assoc. reflexivity.
Qed.

Lemma sublist_map_filter {A B} (f : A -> B) (keep : A -> bool) (l : list A) :
  sublist (map f (List.filter keep l)) (map f l).
Proof.
  induction l as [|a l IH]; simpl; [constructor|].
  destruct (keep a); simpl; [apply sublist_skip | apply sublist_cons]; exact IH.
Qed.

(** [applyNoiseFilterLocal] as a selection among the indexed points. *)
Lemma applyNoiseFilterLocal_value (points : list Point) (params : FilterParams) :
  applyNoiseFilterLocal points params
  = map snd
        (List.filter
           (fun '(i, point) =>
              geb (of_nat (countNeighbors points (default 0.05 (radius params))
                                          (default 3 (minNeighbors params)) i point))
                  (default 3 (minNeighbors params)))
           (imap (fun i point => (i, point)) points)).
Proof.
  unfold applyNoiseFilterLocal.
  rewrite (fold_left_keep_indexed
             (fun i point =>
                geb (of_nat (countNeighbors points (default 0.05 (radius params))
                                            (default 3 (minNeighbors params)) i point))
                    (default 3 (minNeighbors params)))).
  reflexivity.
Qed.

(** X6.  [applyNoiseFilterLocal] returns some of the points of its input,
    unchanged and in their input order. *)
Theorem X6_noise_filter_returns_a_sublist
  (points : list Point) (params : FilterParams) :
  sublist (applyNoiseFilterLocal points params) points.
Proof.
  rewrite applyNoiseFilterLocal_value.
  rewrite <- (map_snd_imap_pair (fun i => i) points) at 2.
  apply sublist_map_filter.
Qed.

(** X7.  When [minNeighbors] is above 0 (or is not a number), every point
    [applyNoiseFilterLocal] keeps has another entry of the input, at a
    different index, at a distance below [radius]: a point with no such
    neighbour is removed. *)
Theorem X7_noise_filter_removes_isolated_points
  (points : list Point) (params : FilterParams) :
  geb 0 (default 3 (minNeighbors params)) = false ->
  Forall (hasNeighbor points (default 0.05 (radius params)))
         (applyNoiseFilterLocal points params).
Proof.
  intros Hmin. rewrite applyNoiseFilterLocal_value.
  apply Forall_forall. intros point Hin.
  apply list_elem_of_In, in_map_iff in Hin.
  destruct Hin as ([i p] & Hp & Hin). simpl in Hp; subst p.
  apply filter_In in Hin. destruct Hin as [Hin Hkeep].
  apply list_elem_of_In, elem_of_lookup_imap in Hin.
  destruct Hin as (i' & p' & Heq & Hl). injection Heq as <- <-.
  destruct (countNeighbors points (default 0.05 (radius params))
              (default 3 (minNeighbors params)) i point) as [|c] eqn:Hc.
  - change (of_nat 0) with 0 in Hkeep. congruence.
  - destruct (countNeighbors_positive points (default 0.05 (radius params))
                (default 3 (minNeighbors params)) i point) as (j & other & Hj & Hne & Hd);
      [rewrite Hc; lia|].
    exists i, j, other. auto.
Qed.

Lemma X7_noise_filter_witness :
  let points := [corner 0 0 0; corner 0.01 0 0; corner 5 5 5] in
  let params := mkFilterParams None (Some 1) None in
  geb 0 (default 3 (minNeighbors params)) = false /\
  applyNoiseFilterLocal points params = [corner 0 0 0; corner 0.01 0 0] /\
  Forall (hasNeighbor points (default 0.05 (radius params)))
         (applyNoiseFilterLocal points params).
Proof.
  split; [reflexivity|]. split; [vm_compute; reflexivity|].
  apply (X7_noise_filter_removes_isolated_points
           [corner 0 0 0; corner 0.01 0 0; corner 5 5 5]
           (mkFilterParams None (Some 1) None)).
  reflexivity.
Defined.

(** The loop of [analyzeDataLocal] and the loop of [calculateBoundingBox]
    keep the same minima and maxima. *)
Lemma running_fold (points : list Point) :
  forall (r : Running) (bb : Box) (s : Vec3),
    running_min r = bmin bb -> running_max r = bmax bb -> running_sum r = s ->
    let r' :=
      fold_left
        (fun r p =>
           mkRunning
             (mkVec3 (Math_min (vx (running_min r)) (px p))
                     (Math_min (vy (running_min r)) (py p))
                     (Math_min (vz (running_min r)) (pz p)))
             (mkVec3 (Math_max (vx (running_max r)) (px p))
                     (Math_max (vy (running_max r)) (py p))
                     (Math_max (vz (running_max r)) (pz p)))
             (mkVec3 (vx (running_sum r) + px p)
                     (vy (running_sum r) + py p)
                     (vz (running_sum r) + pz p)))
        points r in
    mkBox (running_min r') (running_max r')
    = fold_left
        (fun bb point =>
           mkBox
             (mkVec3 (Math_min (vx (bmin bb)) (px point))
                     (Math_min (vy (bmin bb)) (py point))
                     (Math_min (vz (bmin bb)) (pz point)))
             (mkVec3 (Math_max (vx (bmax bb)) (px point))
                     (Math_max (vy (bmax bb)) (py point))
                     (Math_max (vz (bmax bb)) (pz point))))
        points bb
    /\ running_sum r'
       = fold_left (fun s p => mkVec3 (vx s + px p) (vy s + py p) (vz s + pz p))
                   points s.
Proof.
  induction points as [|p points IH]; intros r bb s Hmin Hmax Hsum; cbn zeta.
  - simpl. rewrite Hmin, Hmax, Hsum. destruct bb; auto.
  - cbn [fold_left]. apply IH; simpl; rewrite ?Hmin, ?Hmax, ?Hsum; reflexivity.
Qed.

(** X8.  [analyzeDataLocal] returns its error object exactly for an empty
    input.  Otherwise [pointCount] is the number of points, [boundingBox]
    is the box [calculateBoundingBox] computes for the same points,
    [center] is the sum of the coordinates, added from 0 in input order,
    divided by the number of points, [dimensions] are the extents of the
    box, [volume] is their product and [density] the number of points
    divided by the volume. *)
Theorem X8_analysis_of_a_point_set (points : list Point) :
  match analyzeDataLocal (Some points) with
  | analysis_error _ => points = []
  | analysis a =>
      let n := of_nat (length points) in
      let bb := analysis_boundingBox a in
      let d := analysis_dimensions a in
      analysis_pointCount a = length points /\
      calculateBoundingBox points = Some bb /\
      analysis_center a
      = mkVec3 (vx (coordinateSum points) / n) (vy (coordinateSum points) / n)
               (vz (coordinateSum points) / n) /\
      d = mkVec3 (vx (bmax bb) - vx (bmin bb)) (vy (bmax bb) - vy (bmin bb))
                 (vz (bmax bb) - vz (bmin bb)) /\
      analysis_volume a = vx d * vy d * vz d /\
      analysis_density a = n / analysis_volume a
  end.
Proof.
  destruct points as [|p points]; [reflexivity|].
  unfold analyzeDataLocal, calculateBoundingBox, coordinateSum.
  destruct (running_fold (p :: points)
              (mkRunning (mkVec3 infinity infinity infinity)
                         (mkVec3 neg_infinity neg_infinity neg_infinity)
                         (mkVec3 0 0 0))
              (mkBox (mkVec3 infinity infinity infinity)
                     (mkVec3 neg_infinity neg_infinity neg_infinity))
              (mkVec3 0 0 0) eq_refl eq_refl eq_refl) as [Hbox Hsum].
  cbn zeta in Hbox, Hsum.
  cbn [analysis_pointCount analysis_boundingBox analysis_dimensions
       analysis_center analysis_volume analysis_density bmin bmax vx vy vz].
  rewrite <- Hbox, <- Hsum. repeat split.
Qed.

(** The stores of one round of the loop of [generateBufferLocal] fill the
    next three places of each array. *)
Lemma store_rows (pts : list Point) :
  forall (P C : list number) (k0 : nat),
    length P = (k0 * 3)%nat -> length C = (k0 * 3)%nat ->
    fold_left
      (fun '(positions, colors) '(i, point) =>
         let positions := store32 (i * 3) (px point) positions in
         let positions := store32 (i * 3 + 1) (py point) positions in
         let positions := store32 (i * 3 + 2) (pz point) positions in
         let colors := store32 (i * 3) (colorChannel (pr point)) colors in
         let colors := store32 (i * 3 + 1) (colorChannel (pg point)) colors in
         let colors := store32 (i * 3 + 2) (colorChannel (pb point)) colors in
         (positions, colors))
      (imap (fun i point => ((k0 + i)%nat, point)) pts)
      (P ++ replicate (length pts * 3) 0, C ++ replicate (length pts * 3) 0)
    = (P ++ flat_map positionsOf pts, C ++ flat_map colorsOf pts).
Proof.
  unfold store32.
  induction pts as [|p pts IH]; intros P C k0 HP HC; [reflexivity|].
  rewrite imap_cons. cbn [fold_left].
  change (length (p :: pts) * 3)%nat with (S (S (S (length pts * 3)))).
  rewrite !replicate_S.
  replace ((k0 + 0) * 3)%nat with (length P + 0)%nat at 1 2 3 by lia.
  replace ((k0 + 0) * 3)%nat with (length C + 0)%nat by lia.
  replace (length P + 0 + 1)%nat with (length P + 1)%nat by lia.
  replace (length P + 0 + 2)%nat with (length P + 2)%nat by lia.
  replace (length C + 0 + 1)%nat with (length C + 1)%nat by lia.
  replace (length C + 0 + 2)%nat with (length C + 2)%nat by lia.
  rewrite !insert_app_r. cbn [insert list_insert].
  rewrite (imap_ext _ (fun i point => ((S k0 + i)%nat, point)))
    by (intros; simpl; f_equal; lia).
  change (P ++ Math_fround (px p) :: Math_fround (py p) :: Math_fround (pz p)
            :: replicate (length pts * 3) 0)
    with (P ++ positionsOf p ++ replicate (length pts * 3) 0).
  change (C ++ Math_fround (colorChannel (pr p))
            :: Math_fround (colorChannel (pg p))
            :: Math_fround (colorChannel (pb p))
            :: replicate (length pts * 3) 0)
    with (C ++ colorsOf p ++ replicate (length pts * 3) 0).
  rewrite !app_assoc.
  rewrite (IH (P ++ positionsOf p) (C ++ colorsOf p) (S k0))
    by (rewrite length_app; simpl; lia).
  cbn [flat_map]. rewrite !app_assoc. reflexivity.
Qed.

(** X9.  [generateBufferLocal] writes every place of both arrays:
    [positions] holds the coordinates of the points in input order, each
    rounded to binary32, [colors] holds their colour channels divided by
    255, with 1 for a channel that is [undefined], rounded likewise, and
    [count] is the number of points. *)
Theorem X9_render_buffer_holds_every_point (points : list Point) :
  generateBufferLocal points
  = mkRenderBuffer (flat_map positionsOf points) (flat_map colorsOf points)
                   (length points).
Proof.
  unfold generateBufferLocal.
  pose proof (store_rows points [] [] 0 eq_refl eq_refl) as H.
  cbn [app Nat.add] in H. unfold store32 in *. rewrite H. reflexivity.
Qed.

Lemma octree_kept (ev : ModuleEvent) (m : Kept) (tree : Node) :
  octree m = Some tree -> octree (module_step ev m) = Some tree.
Proof.
  intros H. destruct ev as [ev|maxDepth minPointsPerNode]; simpl; [exact H|].
  unfold buildOctree_api. rewrite H.
  destruct (processedPointData (state m)); exact H.
Qed.

Lemma octree_kept_run (evs : list ModuleEvent) (m : Kept) (tree : Node) :
  octree m = Some tree -> octree (module_run evs m) = Some tree.
Proof.
  revert m; induction evs as [|ev evs IH]; intros m H; [exact H|].
  apply (IH (module_step ev m)). apply octree_kept. exact H.
Qed.

(** X10.  Once the public [buildOctree] has fulfilled its promise with a
    tree, every later call fulfils its promise with that same tree as long
    as there is processed data, whatever [maxDepth] and [minPointsPerNode]
    it is given and whatever requests, worker messages and other calls
    came in between (new data arriving over the event bus apart); in
    particular the tree is not rebuilt after a filter result has replaced
    the processed data. *)
Theorem X10_octree_is_built_once
  (maxDepth minPointsPerNode maxDepth' minPointsPerNode' : option Z)
  (m m1 : Kept) (tree : Node) (evs : list ModuleEvent) :
  buildOctree_api maxDepth minPointsPerNode m = (Ok tree, m1) ->
  let m2 := module_run evs m1 in
  is_Some (processedPointData (state m2)) ->
  buildOctree_api maxDepth' minPointsPerNode' m2 = (Ok tree, m2) /\
  getOctree m2 = Some tree.
Proof.
  intros Hbuilt m2 [processed Hdata].
  assert (H1 : octree m1 = Some tree).
  { unfold buildOctree_api in Hbuilt.
    destruct (processedPointData (state m)); [|discriminate].
    destruct (octree m) as [t|] eqn:Ht.
    - injection Hbuilt as <- <-. exact Ht.
    - destruct (buildOctree l maxDepth minPointsPerNode); [|discriminate].
      injection Hbuilt as <- <-. reflexivity. }
  pose proof (octree_kept_run evs m1 tree H1) as H2. fold m2 in H2.
  split; [|exact H2].
  unfold buildOctree_api. rewrite Hdata, H2. reflexivity.
Qed.

Lemma X10_octree_witness :
  let evs := [on_state (received (filterComplete_message "req_1"
                                    (Some [corner 9 9 9])))] in
  exists tree m1,
    buildOctree_api (Some 0%Z) (Some 1%Z) (loaded [corner 0 0 0; corner 1 1 1])
    = (Ok tree, m1) /\
    getPointData (module_run evs m1) = [corner 9 9 9] /\
    leafPoints tree = [corner 0 0 0; corner 1 1 1] /\
    buildOctree_api None None (module_run evs m1) = (Ok tree, module_run evs m1) /\
    getOctree (module_run evs m1) = Some tree.
Proof.
  cbn zeta. eexists; eexists.
  split; [vm_compute; reflexivity|].
  split; [vm_compute; reflexivity|].
  split; [vm_compute; reflexivity|].
  eapply (X10_octree_is_built_once (Some 0%Z) (Some 1%Z) None None
            (loaded [corner 0 0 0; corner 1 1 1])).
  - vm_compute; reflexivity.
  - vm_compute. eexists; reflexivity.
Defined.

End MainThread.

(* ===================================================================== *)
(** * Requests: answers, refusals and the main-thread path                *)
(* ===================================================================== *)

Section RequestFlows.

Import Processor.

Lemma settle_outputs (q : nat) (o : Settlement) (s : State) :
  toWorker (settle q o s) = toWorker s /\ published (settle q o s) = published s.
Proof. unfold settle. destruct (promises s !! q); split; reflexivity. Qed.

(** X12.  A request made while its input data is missing is refused on
    the spot: its promise is rejected with the no-data error, and nothing
    is posted to the worker, stored in [processingCallbacks], queued,
    installed or published. *)
Theorem X12_request_without_data_is_refused
  (s : State) (r : Request) (requestId : string) :
  well_formed s = true ->
  input_of r s = None ->
  let p := fst (call r requestId s) in
  let s' := snd (call r requestId s) in
  promises s' !! p = Some (Rejected (Error "処理するデータがありません")) /\
  toWorker s' = toWorker s /\
  processingCallbacks s' = processingCallbacks s /\
  microtasks s' = microtasks s /\
  processedPointData s' = processedPointData s /\
  published s' = published s.
Proof.
  intros Hwf Hin.
  assert (Hfresh : promises s !! nextPromise s = None)
    by (apply well_formed_promises; [exact Hwf | lia]).
  assert (H : forall e q s0,
             promises s0 !! q = None ->
             promises (reject q e s0) !! q = Some (Rejected e) /\
             toWorker (reject q e s0) = toWorker s0 /\
             processingCallbacks (reject q e s0) = processingCallbacks s0 /\
             microtasks (reject q e s0) = microtasks s0 /\
             processedPointData (reject q e s0) = processedPointData s0 /\
             published (reject q e s0) = published s0).
  { intros e q s0 Hq. unfold reject.
    destruct (settle_rest q (Rejected e) s0) as (E1 & E2 & _ & E4 & _).
    destruct (settle_outputs q (Rejected e) s0) as (E5 & E6).
    rewrite E1, E2, E4, E5, E6.
    split; [apply settle_pending; exact Hq | repeat split]. }
  destruct r as [options|filterType params|m]; simpl in Hin;
    unfold call, processData, applyFilter, applyTransform, new_promise;
    cbn [rawPointData processedPointData]; rewrite Hin;
    apply H; exact Hfresh.
Qed.

Lemma X12_refusal_witness :
  let p := fst (call (request_processData
                        (mkProcessOptions false (mkFilterParams None None None)
                                          false None false None))
                     "req_1" empty_state) in
  let s' := snd (call (request_processData
                         (mkProcessOptions false (mkFilterParams None None None)
                                           false None false None))
                      "req_1" empty_state) in
  promises s' !! p = Some (Rejected (Error "処理するデータがありません")) /\
  toWorker s' = toWorker empty_state /\
  processingCallbacks s' = processingCallbacks empty_state /\
  microtasks s' = microtasks empty_state /\
  processedPointData s' = processedPointData empty_state /\
  published s' = published empty_state.
Proof.
  apply (X12_request_without_data_is_refused
           empty_state
           (request_processData
              (mkProcessOptions false (mkFilterParams None None None)
                                false None false None))
           "req_1");
    reflexivity.
Defined.

(** The ['filterComplete'] case of [worker.onmessage], whatever the state. *)
Lemma filterComplete_installs (e : WorkerMessage) (s : State) :
  type e = "filterComplete"%string ->
  processedPointData (onmessage e s) = data_points (data e) /\
  published (onmessage e s)
  = published s ++ [pointCloud_filtered (data_points (data e))].
Proof.
  intros Ht. unfold onmessage. rewrite Ht, String.eqb_refl.
  unfold answer. cbn [processingCallbacks set_processedPointData].
  destruct (processingCallbacks s !! requestId e) as [cb|]; [|split; reflexivity].
  destruct cb as [q|q|q]; cbn [invoke points_of]; unfold resolve.
  all: match goal with
       | |- context [settle ?q ?o ?s0] =>
           destruct (settle_rest q o s0) as (E1 & _ & _ & E4 & _);
           destruct (settle_outputs q o s0) as (_ & E6)
       end.
  all: unfold publish, set_processingCallbacks;
    cbn [processedPointData published]; rewrite E4, E6; split; reflexivity.
Qed.

(** The ['filterComplete'] case on a pending request. *)
Lemma filterComplete_resolves (p : nat) (e : WorkerMessage) (s : State) :
  pending p (requestId e) s ->
  type e = "filterComplete"%string ->
  promises (onmessage e s) !! p = Some (Resolved (VData (data e))) /\
  processingCallbacks (onmessage e s) !! requestId e = None.
Proof.
  intros (Hcb & Hp & _) Ht. unfold onmessage. rewrite Ht, String.eqb_refl.
  unfold answer. cbn [processingCallbacks set_processedPointData].
  rewrite Hcb. cbn [invoke points_of]. unfold resolve.
  match goal with
  | |- context [settle p ?o ?s0] =>
      pose proof (settle_pending p o s0 Hp) as Hset;
      destruct (settle_rest p o s0) as (E1 & _)
  end.
  unfold publish, set_processingCallbacks; cbn [promises processingCallbacks].
  rewrite E1. split; [exact Hset | apply lookup_delete_eq].
Qed.

(** X13.  Let a request ([processData], [applyFilter] or [applyTransform])
    be made while a worker exists and its input data is there, and let the
    worker answer it with a ['filterComplete'] message, possibly after
    other events that do not concern its id.  Until the answer the promise
    is pending; the answer fulfils it with the message's data, installs
    the points of the message as the processed data and removes the
    stored callback. *)
Theorem X13_worker_result_fulfils_and_installs
  (s : State) (r : Request) (evs : list Event) (e : WorkerMessage) :
  well_formed s = true ->
  worker s = true ->
  is_Some (input_of r s) ->
  forallb (fun ev => negb (concerns (requestId e) ev)) evs = true ->
  type e = "filterComplete"%string ->
  let p := fst (call r (requestId e) s) in
  let s1 := snd (call r (requestId e) s) in
  let s2 := run evs s1 in
  let s3 := onmessage e s2 in
  promises s2 !! p = None /\
  promises s3 !! p = Some (Resolved (VData (data e))) /\
  processedPointData s3 = data_points (data e) /\
  processingCallbacks s3 !! requestId e = None.
Proof.
  intros Hwf Hw Hin Hevs Ht p s1 s2 s3.
  destruct (pending_after_call r (requestId e) s Hwf Hw Hin) as (Hpend & _).
  fold p s1 in Hpend.
  pose proof (pending_run p (requestId e) evs s1 Hevs Hpend) as Hpend2.
  fold s2 in Hpend2.
  destruct (filterComplete_resolves p e s2 Hpend2 Ht) as (Hres & Hdel).
  destruct (filterComplete_installs e s2 Ht) as (Hdata & _).
  split; [apply Hpend2|]. auto.
Qed.

Lemma X13_worker_result_witness :
  let r := request_applyFilter "noise" (mkFilterParams None None None) in
  let e := filterComplete_message "req_1" (Some [corner 7 8 9]) in
  let evs := [called (request_applyTransform None) "req_2";
              received (error_message "req_3" "other"); worker_failed] in
  let p := fst (call r (requestId e) sample_state) in
  let s1 := snd (call r (requestId e) sample_state) in
  let s2 := run evs s1 in
  let s3 := onmessage e s2 in
  promises s2 !! p = None /\
  promises s3 !! p = Some (Resolved (VData (data e))) /\
  processedPointData s3 = data_points (data e) /\
  processingCallbacks s3 !! requestId e = None.
Proof.
  apply (X13_worker_result_fulfils_and_installs
           sample_state
           (request_applyFilter "noise" (mkFilterParams None None None))
           [called (request_applyTransform None) "req_2";
            received (error_message "req_3" "other"); worker_failed]
           (filterComplete_message "req_1" (Some [corner 7 8 9])));
    try reflexivity.
  eexists; reflexivity.
Defined.

(** X14.  Let the request id of a ['filterComplete'] message be none of
    the names an object inherits from [Object.prototype], and let nothing
    be stored under ['__proto__'] (as is the case for the ids that
    [generateRequestId] makes).  Then the message replaces the processed
    data by its [points] and publishes them as ['pointCloud:filtered'],
    in every such state: also when its [points] are [undefined], which
    leaves the module without processed data, and also when no request is
    stored under its id, in which case no promise is settled and nothing
    else changes. *)
Theorem X14_filterComplete_always_replaces_the_data
  (e : WorkerMessage) (s : State) :
  type e = "filterComplete"%string ->
  inherited (requestId e) = false ->
  processingCallbacks s !! "__proto__"%string = None ->
  let s' := onmessage e s in
  processedPointData s' = data_points (data e) /\
  published s' = published s ++ [pointCloud_filtered (data_points (data e))] /\
  (processingCallbacks s !! requestId e = None ->
   promises s' = promises s /\
   processingCallbacks s' = processingCallbacks s /\
   toWorker s' = toWorker s).
Proof.
  intros Ht _ _ s'. destruct (filterComplete_installs e s Ht) as [Hdata Hpub].
  split; [exact Hdata|]. split; [exact Hpub|].
  intros Hnone. unfold s', onmessage. rewrite Ht, String.eqb_refl.
  unfold answer. cbn [processingCallbacks set_processedPointData].
  rewrite Hnone. repeat split.
Qed.

Lemma X14_filterComplete_witness :
  let s' := onmessage (filterComplete_message "req_7" None) sample_state in
  processedPointData s' = None /\
  published s' = published sample_state ++ [pointCloud_filtered None] /\
  (processingCallbacks sample_state !! "req_7" = None ->
   promises s' = promises sample_state /\
   processingCallbacks s' = processingCallbacks sample_state /\
   toWorker s' = toWorker sample_state).
Proof.
  apply (X14_filterComplete_always_replaces_the_data
           (filterComplete_message "req_7" None) sample_state);
    reflexivity.
Defined.

Lemma orphaned_bookkeeping (p : nat) (s s' : State) :
  bookkeeping s' = bookkeeping s -> orphaned p s -> orphaned p s'.
Proof.
  unfold bookkeeping, orphaned. intros H. injection H as -> -> -> ->. auto.
Qed.

Lemma orphaned_settle (p q : nat) (o : Settlement) (s : State) :
  q <> p -> orphaned p s -> orphaned p (settle q o s).
Proof.
  intros Hne (Hp & Hcbs & Hmt & Hlt).
  destruct (settle_rest q o s) as (E1 & E2 & E3 & _).
  unfold orphaned. rewrite E1, E2, E3, settle_other by exact Hne. auto.
Qed.

Lemma orphaned_register (p p' : nat) (requestId : string) (s : State) :
  p' <> p -> orphaned p s ->
  orphaned p (set_processingCallbacks
                (<[requestId := install_points p']> (processingCallbacks s)) s).
Proof.
  intros Hp' (Hp & Hcbs & Hmt & Hlt).
  unfold orphaned, set_processingCallbacks; simpl.
  repeat split; try assumption.
  intros rid cb Hl. destruct (decide (rid = requestId)) as [->|Hne].
  - rewrite lookup_insert_eq in Hl. injection Hl as <-. exact Hp'.
  - rewrite lookup_insert_ne in Hl by congruence. eapply Hcbs; eassumption.
Qed.

Lemma orphaned_delete (p : nat) (requestId : string) (s : State) :
  orphaned p s ->
  orphaned p (set_processingCallbacks (delete requestId (processingCallbacks s)) s).
Proof.
  intros (Hp & Hcbs & Hmt & Hlt).
  unfold orphaned, set_processingCallbacks; simpl.
  repeat split; try assumption.
  intros rid cb Hl. destruct (decide (rid = requestId)) as [->|Hne].
  - rewrite lookup_delete_eq in Hl. discriminate.
  - rewrite lookup_delete_ne in Hl by congruence. eapply Hcbs; eassumption.
Qed.

Lemma orphaned_new_promise (p : nat) (s : State) :
  orphaned p s ->
  orphaned p (snd (new_promise s)) /\ fst (new_promise s) <> p.
Proof.
  intros (Hp & Hcbs & Hmt & Hlt).
  unfold orphaned, new_promise; simpl. repeat split; try assumption; lia.
Qed.

Lemma orphaned_enqueue (p p' : nat) (result : list Point) (s : State) :
  p' <> p -> orphaned p s ->
  orphaned p (set_microtasks (microtasks s ++ [install_local result p']) s).
Proof.
  intros Hp' (Hp & Hcbs & Hmt & Hlt).
  unfold orphaned, set_microtasks; simpl. repeat split; try assumption.
  intros t Ht. apply elem_of_app in Ht as [Ht|Ht]; [auto|].
  apply list_elem_of_singleton in Ht as ->. exact Hp'.
Qed.

Lemma orphaned_invoke (p : nat) (cb : Callback) (result : Value)
      (error : option Exception) (s : State) :
  promise_of cb <> p -> orphaned p s ->
  orphaned p (fst (invoke cb result error s)).
Proof.
  intros Hne H.
  destruct cb as [q|q|q], error as [e|]; simpl in *;
    try (apply orphaned_settle; [exact Hne | exact H]).
  destruct (points_of result) as [pts|e]; simpl; [|exact H].
  apply orphaned_settle; [exact Hne|].
  eapply orphaned_bookkeeping; [|exact H]. reflexivity.
Qed.

Lemma orphaned_answer (p : nat) (requestId : string) (result : Value)
      (error : option Exception) (k : State -> State) (s : State) :
  (forall s, bookkeeping (k s) = bookkeeping s) ->
  orphaned p s -> orphaned p (answer requestId result error k s).
Proof.
  intros Hk H. unfold answer.
  destruct (processingCallbacks s !! requestId) as [cb|] eqn:Hl.
  - assert (Hcb : promise_of cb <> p).
    { destruct H as (_ & Hcbs & _). eapply Hcbs; eassumption. }
    pose proof (orphaned_invoke p cb result error s Hcb H) as H'.
    destruct (invoke cb result error s) as [s' threw]. simpl in H'.
    destruct threw; [exact H'|].
    eapply orphaned_bookkeeping; [apply Hk|].
    apply orphaned_delete; assumption.
  - eapply orphaned_bookkeeping; [apply Hk | exact H].
Qed.

(** A pending promise that nothing refers to stays so through every
    event. *)
Lemma orphaned_step (p : nat) (ev : Event) (s : State) :
  orphaned p s -> orphaned p (step ev s).
Proof.
  intros H. destruct ev as [r requestId|e| |].
  - destruct (orphaned_new_promise p s H) as [Hnew Hfresh].
    assert (Hrej : forall e,
               orphaned p (reject (fst (new_promise s)) e (snd (new_promise s))))
      by (intros e; apply orphaned_settle; assumption).
    assert (Hreg : orphaned p
                     (set_processingCallbacks
                        (<[requestId := install_points (fst (new_promise s))]>
                           (processingCallbacks (snd (new_promise s))))
                        (snd (new_promise s))))
      by (apply orphaned_register; assumption).
    assert (Hinst : forall result,
               orphaned p
                 (resolve (fst (new_promise s)) (points_object result)
                          (set_processedPointData (Some result) (snd (new_promise s))))).
    { intros result. apply orphaned_settle; [exact Hfresh|].
      eapply orphaned_bookkeeping; [|exact Hnew]. reflexivity. }
    destruct r as [options|filterType params|m]; simpl;
      unfold processData, applyFilter, applyTransform.
    + destruct (new_promise s) as [p' s0]; simpl in *.
      destruct (rawPointData s0); [|apply Hrej].
      destruct (worker s0); simpl.
      * eapply orphaned_bookkeeping; [|exact Hreg]. reflexivity.
      * apply orphaned_enqueue; assumption.
    + destruct (new_promise s) as [p' s0]; simpl in *.
      destruct (processedPointData s0); [|apply Hrej].
      destruct (worker s0); simpl.
      * eapply orphaned_bookkeeping; [|exact Hreg]. reflexivity.
      * destruct (String.eqb filterType "noise"); [apply Hinst|].
        destruct (String.eqb filterType "downsample"); [apply Hinst | apply Hrej].
    + destruct (new_promise s) as [p' s0]; simpl in *.
      destruct (processedPointData s0); [|apply Hrej].
      destruct (worker s0); simpl.
      * eapply orphaned_bookkeeping; [|exact Hreg]. reflexivity.
      * apply Hinst.
  - simpl. unfold onmessage.
    repeat match goal with
           | |- context [if String.eqb ?a ?b then _ else _] =>
               destruct (String.eqb a b)
           end;
      try (apply orphaned_answer; [intros; reflexivity |]);
      try (eapply orphaned_bookkeeping; [|exact H]; reflexivity);
      exact H.
  - exact H.
  - simpl. unfold run_microtask.
    destruct (microtasks s) as [|[result q] rest] eqn:Hq; [exact H|].
    assert (Hq' : q <> p).
    { destruct H as (_ & _ & Hmt & _).
      apply (Hmt (install_local result q)). rewrite Hq. left. }
    apply orphaned_settle; [exact Hq'|].
    destruct H as (Hp & Hcbs & Hmt & Hlt).
    unfold orphaned; simpl. repeat split; try assumption.
    intros t Ht. apply Hmt. rewrite Hq. right. exact Ht.
Qed.

Lemma orphaned_run (p : nat) (evs : list Event) (s : State) :
  orphaned p s -> orphaned p (run evs s).
Proof.
  revert s; induction evs as [|ev evs IH]; intros s H; [exact H|].
  change (run (ev :: evs) s) with (run evs (step ev s)).
  apply IH. apply orphaned_step. exact H.
Qed.

(** X15.  When a second request is made under the request id of a request
    that is still pending, the stored callback of the first is
    overwritten: the promise of the first request is then never settled,
    whatever requests, worker messages, worker failures and continuations
    follow. *)
Theorem X15_reused_request_id_orphans_the_first_promise
  (s : State) (r1 r2 : Request) (requestId : string) (evs : list Event) :
  well_formed s = true ->
  worker s = true ->
  is_Some (input_of r1 s) ->
  is_Some (input_of r2 s) ->
  let p1 := fst (call r1 requestId s) in
  let s1 := snd (call r1 requestId s) in
  let p2 := fst (call r2 requestId s1) in
  let s2 := snd (call r2 requestId s1) in
  p1 <> p2 /\
  processingCallbacks s2 !! requestId = Some (install_points p2) /\
  promises (run evs s2) !! p1 = None.
Proof.
  intros Hwf Hw Hin1 Hin2 p1 s1 p2 s2.
  destruct (pending_after_call r1 requestId s Hwf Hw Hin1) as (Hpend & Hdata & Hw1).
  fold p1 s1 in Hpend, Hdata, Hw1.
  assert (Hraw : rawPointData s1 = rawPointData s).
  { unfold s1. destruct r1 as [options|filterType params|m]; simpl;
      unfold processData, applyFilter, applyTransform, new_promise; simpl.
    all: destruct Hin1 as [input Hin1]; simpl in Hin1; rewrite Hin1, Hw;
      reflexivity. }
  assert (Hin2' : is_Some (input_of r2 s1))
    by (destruct r2; simpl in *; rewrite ?Hraw, ?Hdata; exact Hin2).
  assert (Hwf1 : well_formed s1 = true)
    by (apply (well_formed_step (called r1 requestId) s Hwf)).
  destruct (pending_after_call r2 requestId s1 Hwf1 Hw1 Hin2')
    as ((Hcb2 & Hp2 & _) & _).
  fold p2 s2 in Hcb2, Hp2.
  assert (Hne : p1 <> p2).
  { destruct Hpend as (_ & _ & _ & _ & Hlt).
    assert (p2 = nextPromise s1); [|lia].
    unfold p2. destruct r2; simpl;
      unfold processData, applyFilter, applyTransform, new_promise; simpl.
    all: destruct Hin2' as [input Hin2']; simpl in Hin2'; rewrite Hin2', Hw1;
      reflexivity. }
  split; [exact Hne|]. split; [exact Hcb2|].
  apply orphaned_run.
  assert (Horph : orphaned p1
            (set_processingCallbacks
               (<[requestId := install_points (nextPromise s1)]>
                  (processingCallbacks s1))
               (snd (new_promise s1)))).
  { destruct Hpend as (_ & Hp & Hothers & Hmt & Hlt).
    unfold orphaned, set_processingCallbacks, new_promise; simpl.
    repeat split; try assumption; [|lia].
    intros rid cb Hl. destruct (decide (rid = requestId)) as [->|Hrid].
    - rewrite lookup_insert_eq in Hl. injection Hl as <-. simpl. lia.
    - rewrite lookup_insert_ne in Hl by congruence. eapply Hothers; eassumption. }
  unfold s2. destruct Hin2' as [input Hin2'].
  destruct r2 as [options|filterType params|m]; simpl in *;
    unfold processData, applyFilter, applyTransform, new_promise;
    cbn [rawPointData processedPointData worker]; rewrite ?Hin2', ?Hw1;
    (eapply orphaned_bookkeeping; [|exact Horph]; reflexivity).
Qed.

Lemma X15_reused_request_id_witness :
  let r1 := request_applyFilter "noise" (mkFilterParams None None None) in
  let r2 := request_applyTransform None in
  let evs := [received (filterComplete_message "req_1" (Some [corner 7 8 9]));
              received (error_message "req_1" "late")] in
  let p1 := fst (call r1 "req_1" sample_state) in
  let s1 := snd (call r1 "req_1" sample_state) in
  let p2 := fst (call r2 "req_1" s1) in
  let s2 := snd (call r2 "req_1" s1) in
  p1 <> p2 /\
  processingCallbacks s2 !! "req_1" = Some (install_points p2) /\
  promises (run evs s2) !! p1 = None.
Proof.
  apply (X15_reused_request_id_orphans_the_first_promise
           sample_state
           (request_applyFilter "noise" (mkFilterParams None None None))
           (request_applyTransform None) "req_1"
           [received (filterComplete_message "req_1" (Some [corner 7 8 9]));
            received (error_message "req_1" "late")]);
    try reflexivity; eexists; reflexivity.
Defined.

(** Running the queue up to and including its last continuation. *)
Lemma run_queue (result : list Point) (p : nat) (queue : list Microtask) :
  forall s : State,
    microtasks s = queue ++ [install_local result p] ->
    (forall t, t ∈ queue -> microtask_promise t <> p) ->
    promises s !! p = None ->
    let s' := run (replicate (S (length queue)) microtask_ran) s in
    processedPointData s' = Some result /\
    promises s' !! p = Some (Resolved (points_object result)) /\
    microtasks s' = [] /\
    toWorker s' = toWorker s.
Proof.
  induction queue as [|[result0 q] queue IH]; intros s Hq Hne Hp; cbn zeta.
  - simpl. unfold run_microtask. rewrite Hq. simpl. unfold resolve.
    match goal with
    | |- context [settle p ?o ?s0] =>
        pose proof (settle_pending p o s0 Hp) as Hset;
        destruct (settle_rest p o s0) as (_ & E2 & _ & E4 & _);
        destruct (settle_outputs p o s0) as (E5 & _)
    end.
    rewrite E2, E4, E5. auto.
  - change (run (replicate (S (length (install_local result0 q :: queue)))
                           microtask_ran) s)
      with (run (replicate (S (length queue)) microtask_ran) (run_microtask s)).
    assert (Hq0 : q <> p)
      by (apply (Hne (install_local result0 q)); left).
    assert (Hstep : microtasks (run_microtask s) = queue ++ [install_local result p] /\
                    promises (run_microtask s) !! p = None /\
                    toWorker (run_microtask s) = toWorker s).
    { unfold run_microtask. rewrite Hq. simpl. unfold resolve.
      match goal with
      | |- context [settle q ?o ?s0] =>
          destruct (settle_rest q o s0) as (_ & E2 & _);
          destruct (settle_outputs q o s0) as (E5 & _);
          pose proof (settle_other p q o s0 Hq0) as Hother
      end.
      rewrite E2, E5, Hother. auto. }
    destruct Hstep as (Hq1 & Hp1 & Hw1).
    destruct (IH (run_microtask s) Hq1) as (H1 & H2 & H3 & H4);
      [intros t Ht; apply Hne; right; exact Ht | exact Hp1 |].
    rewrite <- Hw1. auto.
Qed.

(** X16.  Without a worker, [processData] posts nothing and stores no
    callback; it leaves the promise pending and the processed data as they
    are until its continuation runs.  Once the continuations queued before
    it and its own have run, the processed data is what
    [processDataLocally] makes of the raw data under the options (noise
    filter, then downsampling, then transform, each only if switched on),
    and the promise is fulfilled with it. *)
Theorem X16_processData_on_the_main_thread
  (s : State) (options : ProcessOptions) (requestId : string) (raw : list Point) :
  well_formed s = true ->
  worker s = false ->
  rawPointData s = Some raw ->
  let p := fst (processData options requestId s) in
  let s1 := snd (processData options requestId s) in
  let s2 := run (replicate (S (length (microtasks s))) microtask_ran) s1 in
  let result := processDataLocally raw options in
  (toWorker s1 = toWorker s /\
   processingCallbacks s1 = processingCallbacks s /\
   processedPointData s1 = processedPointData s /\
   promises s1 !! p = None) /\
  (processedPointData s2 = Some result /\
   promises s2 !! p = Some (Resolved (points_object result)) /\
   toWorker s2 = toWorker s).
Proof.
  intros Hwf Hw Hraw p s1 s2 result.
  assert (Hfresh : promises s !! nextPromise s = None)
    by (apply well_formed_promises; [exact Hwf | lia]).
  assert (Hs1 : s1 = set_microtasks
                       (microtasks s ++ [install_local result (nextPromise s)])
                       (snd (new_promise s)) /\ p = nextPromise s).
  { unfold s1, p, processData, new_promise; cbn [rawPointData worker].
    rewrite Hraw, Hw. split; reflexivity. }
  destruct Hs1 as [Hs1 Hp]. split.
  - rewrite Hs1, Hp. repeat split. exact Hfresh.
  - destruct (run_queue result (nextPromise s) (microtasks s) s1)
      as (H1 & H2 & _ & H4).
    + rewrite Hs1. reflexivity.
    + intros t Ht. pose proof (well_formed_microtasks s t Hwf Ht). lia.
    + rewrite Hs1. exact Hfresh.
    + fold s2 in H1, H2, H4. rewrite Hp. rewrite H4, Hs1. auto.
Qed.

Lemma X16_processData_witness :
  let options := mkProcessOptions false (mkFilterParams None None None)
                                  true (Some 2%Z) false None in
  let p := fst (processData options "req_1" workerless_state) in
  let s1 := snd (processData options "req_1" workerless_state) in
  let s2 := run (replicate (S (length (microtasks workerless_state))) microtask_ran)
                s1 in
  let result := processDataLocally [sample_point] options in
  (toWorker s1 = toWorker workerless_state /\
   processingCallbacks s1 = processingCallbacks workerless_state /\
   processedPointData s1 = processedPointData workerless_state /\
   promises s1 !! p = None) /\
  (processedPointData s2 = Some result /\
   promises s2 !! p = Some (Resolved (points_object result)) /\
   toWorker s2 = toWorker workerless_state).
Proof.
  apply (X16_processData_on_the_main_thread
           workerless_state
           (mkProcessOptions false (mkFilterParams None None None)
                             true (Some 2%Z) false None)
           "req_1" [sample_point]);
    reflexivity.
Defined.

(** X17.  Without a worker, [applyFilter] and [applyTransform] work at
    once on the processed data: ['noise'] installs what
    [applyNoiseFilterLocal] returns, ['downsample'] what
    [applyDownsamplingLocal] returns for [params.factor], [applyTransform]
    what [applyTransformLocal] returns, and the promise is fulfilled with
    the installed points; any other filter type rejects the promise with
    an error that names the type and leaves the data as it is.  Nothing is
    posted and no callback is stored. *)
Theorem X17_filters_on_the_main_thread
  (s : State) (filterType : string) (params : FilterParams)
  (matrix : option (list number)) (requestId : string) (processed : list Point) :
  well_formed s = true ->
  worker s = false ->
  processedPointData s = Some processed ->
  let pf := fst (applyFilter filterType params requestId s) in
  let sf := snd (applyFilter filterType params requestId s) in
  let pt := fst (applyTransform matrix requestId s) in
  let st := snd (applyTransform matrix requestId s) in
  (toWorker sf = toWorker s /\
   processingCallbacks sf = processingCallbacks s /\
   if String.eqb filterType "noise" then
     processedPointData sf = Some (applyNoiseFilterLocal processed params) /\
     promises sf !! pf
     = Some (Resolved (points_object (applyNoiseFilterLocal processed params)))
   else if String.eqb filterType "downsample" then
     processedPointData sf
     = Some (applyDownsamplingLocal processed (factor params)) /\
     promises sf !! pf
     = Some (Resolved (points_object
                         (applyDownsamplingLocal processed (factor params))))
   else
     processedPointData sf = Some processed /\
     promises sf !! pf
     = Some (Rejected (Error ("未知のフィルタータイプ: " ++ filterType)))) /\
  (toWorker st = toWorker s /\
   processingCallbacks st = processingCallbacks s /\
   processedPointData st = Some (applyTransformLocal processed matrix) /\
   promises st !! pt
   = Some (Resolved (points_object (applyTransformLocal processed matrix)))).
Proof.
  intros Hwf Hw Hdata.
  assert (Hfresh : promises s !! nextPromise s = None)
    by (apply well_formed_promises; [exact Hwf | lia]).
  assert (H : forall o q s0,
             promises s0 !! q = None ->
             promises (settle q o s0) !! q = Some o /\
             toWorker (settle q o s0) = toWorker s0 /\
             processingCallbacks (settle q o s0) = processingCallbacks s0 /\
             processedPointData (settle q o s0) = processedPointData s0).
  { intros o q s0 Hq.
    destruct (settle_rest q o s0) as (E1 & _ & _ & E4 & _).
    destruct (settle_outputs q o s0) as (E5 & _).
    rewrite E1, E4, E5. split; [apply settle_pending; exact Hq | auto]. }
  unfold applyFilter, applyTransform, new_promise;
    cbn [rawPointData processedPointData worker]; rewrite Hdata, Hw.
  unfold resolve, reject. split.
  - destruct (String.eqb filterType "noise");
      [|destruct (String.eqb filterType "downsample")]; cbn [fst snd].
    all: match goal with
         | |- context [settle ?q ?o ?s0] =>
             destruct (H o q s0 Hfresh) as (Hset & E5 & E1 & E4)
         end.
    all: rewrite E5, E1, E4, Hset; repeat split.
  - cbn [fst snd].
    match goal with
    | |- context [settle ?q ?o ?s0] =>
        destruct (H o q s0 Hfresh) as (Hset & E5 & E1 & E4)
    end.
    rewrite E5, E1, E4, Hset. repeat split.
Qed.

Lemma X17_main_thread_witness :
  let pf := fst (applyFilter "median" (mkFilterParams None None None) "req_1"
                             workerless_state) in
  let sf := snd (applyFilter "median" (mkFilterParams None None None) "req_1"
                             workerless_state) in
  let pt := fst (applyTransform None "req_1" workerless_state) in
  let st := snd (applyTransform None "req_1" workerless_state) in
  (toWorker sf = toWorker workerless_state /\
   processingCallbacks sf = processingCallbacks workerless_state /\
   processedPointData sf = Some [sample_point] /\
   promises sf !! pf
   = Some (Rejected (Error ("未知のフィルタータイプ: " ++ "median")))) /\
  (toWorker st = toWorker workerless_state /\
   processingCallbacks st = processingCallbacks workerless_state /\
   processedPointData st = Some (applyTransformLocal [sample_point] None) /\
   promises st !! pt
   = Some (Resolved (points_object (applyTransformLocal [sample_point] None)))).
Proof.
  apply (X17_filters_on_the_main_thread
           workerless_state "median" (mkFilterParams None None None) None
           "req_1" [sample_point]);
    reflexivity.
Defined.

(** X26.  When the worker answers a pending request for points with an
    ['analysisComplete'] message whose [results] are [undefined], the
    stored callback throws on reading [points]: the handler stops there,
    so the promise stays pending, the callback stays stored under the
    request id, and nothing is published or installed, while
    [analysisResults] has already been overwritten. *)
Theorem X26_a_throwing_callback_leaves_the_request_pending
  (s : State) (r : Request) (evs : list Event) (e : WorkerMessage) :
  well_formed s = true ->
  worker s = true ->
  is_Some (input_of r s) ->
  forallb (fun ev => negb (concerns (requestId e) ev)) evs = true ->
  type e = "analysisComplete"%string ->
  data_results (data e) = absent ->
  let p := fst (call r (requestId e) s) in
  let s1 := snd (call r (requestId e) s) in
  let s2 := run evs s1 in
  let s3 := onmessage e s2 in
  promises s3 !! p = None /\
  processingCallbacks s3 !! requestId e = Some (install_points p) /\
  published s3 = published s2 /\
  processedPointData s3 = processedPointData s2 /\
  analysisResults s3 = absent.
Proof.
  intros Hwf Hw Hin Hevs Ht Hres p s1 s2 s3.
  destruct (pending_after_call r (requestId e) s Hwf Hw Hin) as (Hpend & _).
  fold p s1 in Hpend.
  pose proof (pending_run p (requestId e) evs s1 Hevs Hpend) as Hpend2.
  fold s2 in Hpend2. destruct Hpend2 as (Hcb & Hp & _).
  unfold s3, onmessage. rewrite Ht. cbn [String.eqb Ascii.eqb Bool.eqb].
  unfold answer. cbn [processingCallbacks set_analysisResults].
  rewrite Hcb, Hres. cbn [invoke points_of]. auto.
Qed.

Lemma X26_throwing_callback_witness :
  let r := request_applyTransform None in
  let e := mkWorkerMessage "analysisComplete"
                           (mkData None absent absent "" absent absent) "req_1" in
  let p := fst (call r (requestId e) sample_state) in
  let s1 := snd (call r (requestId e) sample_state) in
  let s2 := run [worker_failed] s1 in
  let s3 := onmessage e s2 in
  promises s3 !! p = None /\
  processingCallbacks s3 !! requestId e = Some (install_points p) /\
  published s3 = published s2 /\
  processedPointData s3 = processedPointData s2 /\
  analysisResults s3 = absent.
Proof.
  apply (X26_a_throwing_callback_leaves_the_request_pending
           sample_state (request_applyTransform None) [worker_failed]
           (mkWorkerMessage "analysisComplete"
                            (mkData None absent absent "" absent absent) "req_1"));
    try reflexivity.
  eexists; reflexivity.
Defined.

End RequestFlows.

(* ===================================================================== *)
(** * The worker: what it posts                                           *)
(* ===================================================================== *)

Section WorkerFlows.

Import Worker.
Local Open Scope worker_scope.
Local Open Scope float_scope.

Lemma posts_ret allowed {A} (a : A) : posts_only allowed (ret a).
Proof. intros w; exists []; simpl; rewrite app_nil_r; auto. Qed.

Lemma posts_seq allowed {A B} (m : W A) (k : A -> W B) :
  posts_only allowed m -> (forall a, posts_only allowed (k a)) ->
  posts_only allowed (seq_ m k).
Proof.
  intros Hm Hk w. unfold seq_.
  destruct (Hm w) as (msgs1 & H1 & Hq1).
  destruct (m w) as [a w1]; simpl in H1.
  destruct (Hk a w1) as (msgs2 & H2 & Hq2).
  exists (msgs1 ++ msgs2). rewrite H2, H1, app_assoc.
  split; [reflexivity|]. rewrite forallb_app, Hq1, Hq2; reflexivity.
Qed.

Lemma posts_postMessage (allowed : Message -> bool) (m : Message) :
  allowed m = true -> posts_only allowed (postMessage m).
Proof. intros Hm w; exists [m]; simpl; rewrite Hm; auto. Qed.

Lemma posts_when allowed (b : bool) (m : W unit) :
  posts_only allowed m -> posts_only allowed (when b m).
Proof. destruct b; [auto | intros _; apply posts_ret]. Qed.

Lemma posts_Math_random allowed : posts_only allowed Math_random.
Proof. intros w; exists []; simpl; rewrite app_nil_r; auto. Qed.

Lemma posts_foldM allowed {A S} (body : S -> A -> W S) (l : list A) (s : S) :
  (forall s a, posts_only allowed (body s a)) -> posts_only allowed (foldM body l s).
Proof.
  intros Hbody; revert s; induction l as [|a l IH]; intros s; simpl.
  - apply posts_ret.
  - apply posts_seq; auto.
Qed.

Lemma posts_if allowed {A} (b : bool) (m1 m2 : W A) :
  posts_only allowed m1 -> posts_only allowed m2 ->
  posts_only allowed (if b then m1 else m2).
Proof. destruct b; auto. Qed.

Create HintDb reports.
#[local] Hint Resolve posts_ret posts_postMessage posts_when posts_Math_random
  posts_if : reports.
#[local] Hint Extern 2 (posts_only _ (seq_ _ _)) =>
  apply posts_seq; [|intros ?] : reports.
#[local] Hint Extern 2 (posts_only _ (foldM _ _ _)) =>
  apply posts_foldM; intros ? ? : reports.
#[local] Hint Extern 1 (is_report _ = true) => reflexivity : reports.

(** The bodies of the four stages post progress and info messages only. *)
Lemma reports_filter pd (o : Options) :
  posts_only is_report
    (if String.eqb (default "statistical"%string (method o)) "statistical" then
       statisticalOutlierRemoval pd (Some (default MIN_DISTANCE (threshold o)))
     else if String.eqb (default "statistical"%string (method o)) "radius" then
       radiusOutlierRemoval pd (Some (default MIN_DISTANCE (threshold o))) None
     else
       distanceFilter pd (Some (default MIN_DISTANCE (threshold o)))).
Proof.
  unfold statisticalOutlierRemoval, radiusOutlierRemoval, distanceFilter.
  auto 12 with reports.
Qed.

Lemma reports_voxelDownsampling pd v : posts_only is_report (voxelDownsampling pd v).
Proof.
  unfold voxelDownsampling.
  apply posts_seq; [auto 12 with reports | intros voxels].
  apply posts_seq; [|auto with reports].
  apply posts_foldM. intros [result done] voxel. auto 12 with reports.
Qed.

Lemma reports_downsample pd (o : Options) :
  posts_only is_report
    (if String.eqb (default "random"%string (method o)) "voxel" then
       voxelDownsampling pd (Some (or_else (voxelSize o) 0.05))
     else
       randomDownsampling pd (Some (default DEFAULT_SAMPLING_RATE (rate o)))).
Proof.
  apply posts_if; [apply reports_voxelDownsampling|].
  unfold randomDownsampling. auto 12 with reports.
Qed.

Lemma reports_transform pd m : posts_only is_report (applyTransformation pd m).
Proof. unfold applyTransformation. auto 12 with reports. Qed.

Lemma reports_optimize pd (o : Options) :
  posts_only is_report
    (if String.eqb (default "octree"%string (method o)) "octree" then buildOctree pd
     else if String.eqb (default "octree"%string (method o)) "kdtree"
          then buildKdTree pd
          else reorderPoints pd).
Proof. unfold buildOctree, buildKdTree, reorderPoints. auto 12 with reports. Qed.

(** What is posted around a stage body [m]: [a], the messages of [m], and
    [c] of what [m] returned. *)
Lemma bracket allowed (a : Message) (c : list number -> Message)
      (m : W (list number)) (w : World) :
  posts_only allowed m ->
  let run := (when true (postMessage a) ;; d <- m ;;
              when true (postMessage (c d)) ;; ret d) in
  exists msgs,
    posted run w = outbox w ++ a :: msgs ++ [c (value run w)] /\
    forallb allowed msgs = true.
Proof.
  intros Hm run. unfold run, posted, value, seq_, when, postMessage, ret.
  destruct (Hm (mkWorld (outbox w ++ [a]) (entropy w))) as (msgs & H & Hq).
  destruct (m (mkWorld (outbox w ++ [a]) (entropy w))) as [d w1].
  cbn [fst snd outbox] in *. exists msgs. rewrite H, <- !app_assoc.
  split; [reflexivity | exact Hq].
Qed.

(** A stage run from the pipeline posts progress and info messages only. *)
Lemma reports_run_stage (cmd : string) stage stage_options pd :
  stage_of cmd = Some stage ->
  posts_only is_report (run_stage stage stage_options pd).
Proof.
  unfold stage_of, run_stage. intros Hstage.
  destruct stage_options as [o|]; [|apply posts_ret].
  repeat match type of Hstage with
         | (if ?b then _ else _) = _ => destruct b
         end; try discriminate; injection Hstage as <-.
  - unfold filterPointCloud. cbn [when].
    apply posts_seq; [apply posts_ret | intros _].
    apply posts_seq; [apply reports_filter | intros d]. auto with reports.
  - unfold downsamplePointCloud. cbn [when].
    apply posts_seq; [apply posts_ret | intros _].
    apply posts_seq; [apply reports_downsample | intros d]. auto with reports.
  - unfold transformPointCloud. cbn [when].
    apply posts_seq; [apply posts_ret | intros _].
    apply posts_seq; [apply reports_transform | intros d]. auto with reports.
  - unfold optimizeDataStructure. cbn [when].
    apply posts_seq; [apply posts_ret | intros _].
    apply posts_seq; [apply reports_optimize | intros d]. auto with reports.
Qed.

Lemma posted_then_ret {A} (m : W A) (w : World) :
  posted (m ;; ret tt) w = posted m w.
Proof. unfold posted, seq_, ret. destruct (m w); reflexivity. Qed.

(** X18.  [self.onmessage] posts an error exactly for a command it has no
    case for: for ['process'], ['filter'], ['downsample'], ['transform']
    and ['optimize'] none of the messages it posts is an error, whatever
    the data and the options; for any other command it posts the single
    message [error "Unknown command: <cmd>"] and nothing else. *)
Theorem X18_worker_posts_an_error_only_for_an_unknown_command
  (e : Request) (w : World) :
  if known_command (cmd e) then
    exists msgs,
      posted (onmessage e) w = outbox w ++ msgs /\
      forallb (fun m => negb (is_error m)) msgs = true
  else
    posted (onmessage e) w = outbox w ++ [error ("Unknown command: " ++ cmd e)].
Proof.
  unfold known_command, onmessage, posted.
  destruct (String.eqb (cmd e) "process"); cbn [orb].
  { apply (quiet_seq _ _ (quiet_processPointCloud _ _) (fun _ => quiet_ret tt)). }
  destruct (String.eqb (cmd e) "filter"); cbn [orb].
  { apply (quiet_seq _ _ (quiet_filterPointCloud _ _ _) (fun _ => quiet_ret tt)). }
  destruct (String.eqb (cmd e) "downsample"); cbn [orb].
  { apply (quiet_seq _ _ (quiet_downsamplePointCloud _ _ _) (fun _ => quiet_ret tt)). }
  destruct (String.eqb (cmd e) "transform"); cbn [orb].
  { apply (quiet_seq _ _ (quiet_transformPointCloud _ _ _) (fun _ => quiet_ret tt)). }
  destruct (String.eqb (cmd e) "optimize"); cbn [orb].
  { apply (quiet_seq _ _ (quiet_optimizeDataStructure _ _ _) (fun _ => quiet_ret tt)). }
  reflexivity.
Qed.

(** X19.  A pipeline run posts ['started'] with the number of input
    points, then progress and info messages only, then ['completed'] with
    the data it returns and their number: the stages it runs announce
    and post nothing of their own, whatever the options. *)
Theorem X19_pipeline_posts_started_reports_completed
  (pointData : list number) (stages : PipelineOptions) (w : World) :
  exists msgs,
    posted (processPointCloud pointData stages) w =
      outbox w ++ started (totalPoints_of pointData) :: msgs ++
      [completed (value (processPointCloud pointData stages) w)
                 (totalPoints_of (value (processPointCloud pointData stages) w))] /\
    forallb is_report msgs = true.
Proof.
  unfold posted, value, processPointCloud, seq_.
  destruct (postMessage (started (totalPoints_of pointData)) w) as [[] w0] eqn:H0.
  assert (Hw0 : outbox w0 = outbox w ++ [started (totalPoints_of pointData)])
    by (injection H0 as <-; reflexivity).
  pose proof (reports_run_stage "filter" filterPointCloud (filter stages) pointData
                eq_refl w0) as (m1 & H1 & Q1).
  destruct (run_stage filterPointCloud (filter stages) pointData w0) as [d1 w1].
  pose proof (reports_run_stage "downsample" downsamplePointCloud
                (downsample stages) d1 eq_refl w1) as (m2 & H2 & Q2).
  destruct (run_stage downsamplePointCloud (downsample stages) d1 w1) as [d2 w2].
  pose proof (reports_run_stage "transform" transformPointCloud
                (transform stages) d2 eq_refl w2) as (m3 & H3 & Q3).
  destruct (run_stage transformPointCloud (transform stages) d2 w2) as [d3 w3].
  pose proof (reports_run_stage "optimize" optimizeDataStructure
                (optimize stages) d3 eq_refl w3) as (m4 & H4 & Q4).
  destruct (run_stage optimizeDataStructure (optimize stages) d3 w3) as [d4 w4].
  cbn [fst snd] in *.
  exists (m1 ++ m2 ++ m3 ++ m4). split.
  - cbn [postMessage outbox snd fst]. rewrite H4, H3, H2, H1, Hw0.
    rewrite <- !app_assoc. reflexivity.
  - rewrite !forallb_app, Q1, Q2, Q3, Q4. reflexivity.
Qed.

(** X20.  A stage command (['filter'], ['downsample'], ['transform'],
    ['optimize']) posts the announcement of its stage with the number of
    input points, then progress and info messages only, then the message
    that carries the data the stage returns, whatever the options. *)
Theorem X20_stage_command_posts_announcement_reports_result
  (e : Request) (w : World)
  (stage : list number -> Options -> bool -> W (list number)) :
  stage_of (cmd e) = Some stage ->
  exists msgs,
    posted (onmessage e) w =
      outbox w ++ announcement (cmd e) (totalPoints_of (data e)) :: msgs ++
      [stage_result (cmd e) (options e)
                    (value (stage (data e) (options e) true) w)] /\
    forallb is_report msgs = true.
Proof.
  destruct e as [c d o st]. cbn [cmd data options].
  unfold stage_of. intros Hstage.
  destruct (String.eqb_spec c "filter") as [->|_].
  { injection Hstage as <-.
    change (onmessage (mkRequest "filter" d o st))
      with (filterPointCloud d o true ;; ret tt).
    rewrite posted_then_ret.
    destruct (bracket is_report (filtering (totalPoints_of d))
                (fun r => filtered r (totalPoints_of r)) _ w (reports_filter d o))
      as (msgs & H & Hq).
    exists msgs. split; [exact H | exact Hq]. }
  destruct (String.eqb_spec c "downsample") as [->|_].
  { injection Hstage as <-.
    change (onmessage (mkRequest "downsample" d o st))
      with (downsamplePointCloud d o true ;; ret tt).
    rewrite posted_then_ret.
    destruct (bracket is_report (downsampling (totalPoints_of d))
                (fun r => downsampled r (totalPoints_of r)) _ w
                (reports_downsample d o))
      as (msgs & H & Hq).
    exists msgs. split; [exact H | exact Hq]. }
  destruct (String.eqb_spec c "transform") as [->|_].
  { injection Hstage as <-.
    change (onmessage (mkRequest "transform" d o st))
      with (transformPointCloud d o true ;; ret tt).
    rewrite posted_then_ret.
    destruct (bracket is_report (transforming (totalPoints_of d))
                (fun r => transformed r (totalPoints_of r)) _ w
                (reports_transform d (default identity_matrix (matrix o))))
      as (msgs & H & Hq).
    exists msgs. split; [exact H | exact Hq]. }
  destruct (String.eqb_spec c "optimize") as [->|_]; [|discriminate].
  injection Hstage as <-.
  change (onmessage (mkRequest "optimize" d o st))
    with (optimizeDataStructure d o true ;; ret tt).
  rewrite posted_then_ret.
  destruct (bracket is_report (optimizing (totalPoints_of d))
              (fun r => optimized r (default "octree"%string (method o))) _ w
              (reports_optimize d o))
    as (msgs & H & Hq).
  exists msgs. split; [exact H | exact Hq].
Qed.

Lemma X20_stage_command_witness :
  let e := mkRequest "transform" [1; 2; 3]
                     (mkOptions None None None None (Some halving_matrix))
                     (mkPipelineOptions None None None None) in
  let w := fresh (fun _ => 0) in
  exists msgs,
    posted (onmessage e) w =
      outbox w ++ announcement (cmd e) (totalPoints_of (data e)) :: msgs ++
      [stage_result (cmd e) (options e)
                    (value (transformPointCloud (data e) (options e) true) w)] /\
    forallb is_report msgs = true.
Proof.
  apply (X20_stage_command_posts_announcement_reports_result
           (mkRequest "transform" [1; 2; 3]
                      (mkOptions None None None None (Some halving_matrix))
                      (mkPipelineOptions None None None None))
           (fresh (fun _ => 0)) transformPointCloud).
  reflexivity.
Defined.

(** A loop whose every round draws one random number. *)
Lemma drawing_loop {T} (body : T -> nat -> W T) (pure : T -> nat -> number -> T)
      (l : list nat) :
  (forall s i w,
      fst (body s i w) = pure s i (entropy w 0%nat) /\
      forall n, entropy (snd (body s i w)) n = entropy w (S n)) ->
  forall (s : T) (w : World),
    fst (foldM body l s w)
    = fold_left (fun s '(i, r) => pure s i r) (combine l (draws w (length l))) s
    /\ forall n, entropy (snd (foldM body l s w)) n = entropy w (length l + n)%nat.
Proof.
  intros Hbody. induction l as [|i l IH]; intros s w; [split; reflexivity|].
  cbn [foldM length]. unfold seq_.
  destruct (Hbody s i w) as [Hv He].
  destruct (body s i w) as [s1 w1]. cbn [fst snd] in Hv, He. subst s1.
  destruct (IH (pure s i (entropy w 0%nat)) w1) as [H1 H2].
  assert (Hdraws : draws w (S (length l))
                   = entropy w 0%nat :: draws w1 (length l)).
  { unfold draws. cbn [seq map]. f_equal.
    rewrite <- seq_shift, map_map. apply map_ext. intros n. symmetry. apply He. }
  rewrite Hdraws. cbn [combine fold_left]. split; [exact H1|].
  intros n. rewrite H2, He. reflexivity.
Qed.

Lemma fold_left_combine_map {A B C T} (g : A -> B) (F : T -> B -> C -> T)
      (l : list A) :
  forall (ds : list C) (acc : T),
    fold_left (fun acc '(a, r) => F acc (g a) r) (combine l ds) acc
    = fold_left (fun acc '(b, r) => F acc b r) (combine (map g l) ds) acc.
Proof.
  induction l as [|a l IH]; intros [|d ds] acc; try reflexivity.
  cbn [map combine fold_left]. apply IH.
Qed.

Lemma fold_left_sampled (rate : number) (prs : list (Triple * number)) :
  forall acc : list number,
    fold_left (fun result '(p, r) =>
                 if r <=? rate then result ++ flat p else result) prs acc
    = acc ++ buffer (map fst (List.filter (fun pr => snd pr <=? rate) prs)).
Proof.
  induction prs as [|[p r] prs IH]; intros acc; cbn [fold_left List.filter snd].
  - rewrite app_nil_r; reflexivity.
  - rewrite IH. destruct (r <=? rate); [|reflexivity].
    cbn [map fst].
    change (buffer (p :: map fst (List.filter (fun pr => snd pr <=? rate) prs)))
      with (flat p ++ buffer (map fst (List.filter (fun pr => snd pr <=? rate) prs))).
    rewrite app_assoc; reflexivity.
Qed.

Lemma reads_stride3_buffer (pts : list Triple) :
  map (reads (buffer pts)) (stride3 (length (buffer pts))) = pts.
Proof.
  rewrite <- (map_snd_imap_pair (fun k => (3 * k)%nat) pts) at 3.
  rewrite <- visits_buffer, map_map. reflexivity.
Qed.

(** X21.  [randomDownsampling] with a rate of at least 1 returns its input
    without drawing a random number or posting anything.  With any other
    rate it draws one random number per point, in input order, and
    returns exactly the points whose number is at most the rate, in input
    order. *)
Theorem X21_random_downsampling_keeps_the_points_drawn_below_the_rate
  (pts : list Triple) (rate : number) (w : World) :
  if geb rate 1 then
    randomDownsampling (buffer pts) (Some rate) w = (buffer pts, w)
  else
    value (randomDownsampling (buffer pts) (Some rate)) w
    = buffer (sampled rate pts w) /\
    forall n,
      entropy (snd (randomDownsampling (buffer pts) (Some rate) w)) n
      = entropy w (length pts + n)%nat.
Proof.
  unfold randomDownsampling, value. cbn [from_option id].
  destruct (geb rate 1); [reflexivity|].
  lazymatch goal with
  | |- context [foldM ?body (stride3 _) [] w] =>
      destruct (drawing_loop body
                  (fun result i r =>
                     if r <=? rate then result ++ flat (reads (buffer pts) i)
                     else result)
                  (stride3 (length (buffer pts)))) with (s := @nil number) (w := w)
        as [H1 H2]
  end.
  { intros s i w'. unfold seq_, Math_random, when, postMessage, ret.
    destruct (is_chunk_start i); split; reflexivity. }
  assert (Hlen : length (stride3 (length (buffer pts))) = length pts)
    by (rewrite stride3_buffer, length_map, length_seq; reflexivity).
  split.
  - rewrite H1, Hlen.
    rewrite (fold_left_combine_map (reads (buffer pts))
               (fun result p r => if r <=? rate then result ++ flat p else result)).
    rewrite reads_stride3_buffer, fold_left_sampled. reflexivity.
  - intros n. rewrite H2, Hlen. reflexivity.
Qed.

(** Facts on binary64 arithmetic: NaN spreads through the operations and
    compares as false. *)
Lemma nan_unique (x : number) : is_nan x = true -> x = nan.
Proof.
  intros H. apply FloatAxioms.Prim2SF_inj.
  unfold is_nan in H. rewrite FloatAxioms.eqb_spec in H.
  destruct (Prim2SF x) as [s|s| |s m e] eqn:Hx; try reflexivity; exfalso.
  - destruct s; discriminate.
  - destruct s; discriminate.
  - unfold SFeqb, SFcompare in H. rewrite Pos.compare_refl, Z.compare_refl in H.
    destruct s; discriminate.
Qed.

Lemma mul_nan_l (y : number) : nan * y = nan.
Proof.
  apply FloatAxioms.Prim2SF_inj. rewrite FloatAxioms.mul_spec.
  change (Prim2SF nan) with S754_nan. reflexivity.
Qed.

Lemma add_nan_l (y : number) : nan + y = nan.
Proof.
  apply FloatAxioms.Prim2SF_inj. rewrite FloatAxioms.add_spec.
  change (Prim2SF nan) with S754_nan. reflexivity.
Qed.

Lemma add_nan_r (y : number) : y + nan = nan.
Proof.
  apply FloatAxioms.Prim2SF_inj. rewrite FloatAxioms.add_spec.
  change (Prim2SF nan) with S754_nan. destruct (Prim2SF y); reflexivity.
Qed.

Lemma leb_nan_l (y : number) : (nan <=? y) = false.
Proof.
  rewrite FloatAxioms.leb_spec. change (Prim2SF nan) with S754_nan. reflexivity.
Qed.

Lemma leb_nan_r (y : number) : (y <=? nan) = false.
Proof.
  rewrite FloatAxioms.leb_spec. change (Prim2SF nan) with S754_nan.
  destruct (Prim2SF y) as [s|s| |s m e]; try destruct s; reflexivity.
Qed.

Lemma within_nan_coordinate (maxDistance : number) (p : Triple) :
  nan_free p = false -> within maxDistance p = false.
Proof.
  destruct p as [[x y] z]. unfold nan_free, within, distance_to_origin, Math_sqrt.
  intros H. apply negb_false_iff in H.
  destruct (is_nan x) eqn:Hx; [apply nan_unique in Hx; subst x|].
  { rewrite mul_nan_l, !add_nan_l. apply leb_nan_l. }
  destruct (is_nan y) eqn:Hy; [apply nan_unique in Hy; subst y|].
  { rewrite mul_nan_l, add_nan_r, add_nan_l. apply leb_nan_l. }
  destruct (is_nan z) eqn:Hz; [apply nan_unique in Hz; subst z|discriminate].
  rewrite mul_nan_l, add_nan_r. apply leb_nan_l.
Qed.

(** X22.  The distance filter never keeps a point with a coordinate that
    is NaN, whatever [maxDistance] is, and it keeps no point at all when
    [maxDistance] is NaN. *)
Theorem X22_distance_filter_drops_NaN
  (pts : list Triple) (maxDistance : number) (w : World) :
  let kept := List.filter (within maxDistance) pts in
  value (distanceFilter (buffer pts) (Some maxDistance)) w = buffer kept /\
  forallb nan_free kept = true /\
  (is_nan maxDistance = true -> kept = []).
Proof.
  intros kept. split; [apply distanceFilter_value|]. split.
  - apply forallb_forall. intros p Hp. apply filter_In in Hp as [_ Hp].
    destruct (nan_free p) eqn:Hfree; [reflexivity|].
    rewrite (within_nan_coordinate maxDistance p Hfree) in Hp. discriminate.
  - intros Hnan. apply nan_unique in Hnan. subst maxDistance. unfold kept.
    induction pts as [|p pts IH]; [reflexivity|].
    cbn [List.filter]. unfold within at 1. rewrite leb_nan_r. exact IH.
Qed.

Lemma value_seq {A B} (m : W A) (k : A -> W B) (w : World) :
  value (seq_ m k) w = value (k (value m w)) (snd (m w)).
Proof. unfold value, seq_. destruct (m w); reflexivity. Qed.

Lemma transformPointCloud_value (pd : list number) (o : Options)
      (returnResult : bool) (w : World) :
  value (transformPointCloud pd o returnResult) w
  = value (applyTransformation pd (default identity_matrix (matrix o)))
          (snd (when returnResult
                     (postMessage (transforming (totalPoints_of pd))) w)).
Proof.
  unfold transformPointCloud. rewrite !value_seq.
  destruct returnResult; reflexivity.
Qed.

Lemma optimizeDataStructure_value (pd : list number) (o : Options)
      (returnResult : bool) (w : World) :
  value (optimizeDataStructure pd o returnResult) w = pd.
Proof.
  unfold optimizeDataStructure. rewrite !value_seq.
  unfold buildOctree, buildKdTree, reorderPoints.
  destruct (String.eqb _ "octree"); [|destruct (String.eqb _ "kdtree")];
    rewrite !value_seq; destruct returnResult; reflexivity.
Qed.

(** X23.  A pipeline run whose options ask for the distance filter and a
    transform, and for no downsampling, returns the points of its input
    that lie within the threshold, transformed by the matrix, in input
    order; the index stage, whichever method it is given, changes nothing
    of the data. *)
Theorem X23_pipeline_filters_then_transforms
  (pts : list Triple) (filterOptions transformOptions : Options)
  (indexOptions : option Options) (filterMethod : string) (w : World) :
  method filterOptions = Some filterMethod ->
  knows_filter_method filterMethod = false ->
  let stages :=
    mkPipelineOptions (Some filterOptions) None (Some transformOptions)
                      indexOptions in
  value (processPointCloud (buffer pts) stages) w
  = buffer (map (worker_transform
                   (default identity_matrix (matrix transformOptions)))
                (List.filter
                   (within (default MIN_DISTANCE (threshold filterOptions)))
                   pts)).
Proof.
  intros Hm Hknown stages. unfold processPointCloud, stages.
  cbn [filter downsample transform optimize run_stage].
  rewrite !value_seq.
  set (w0 := snd (postMessage (started (totalPoints_of (buffer pts))) w)).
  assert (H1 : value (filterPointCloud (buffer pts) filterOptions false) w0
               = buffer (List.filter
                           (within (default MIN_DISTANCE (threshold filterOptions)))
                           pts)).
  { rewrite filterPointCloud_value. unfold filter_stage. rewrite Hm.
    cbn [from_option id]. unfold knows_filter_method in Hknown.
    apply orb_false_iff in Hknown as [-> ->]. apply distanceFilter_value. }
  rewrite H1.
  set (w1 := snd (filterPointCloud (buffer pts) filterOptions false w0)).
  change (value (ret ?d) w1) with d.
  set (w2 := snd (ret _ w1)).
  rewrite transformPointCloud_value, applyTransformation_value.
  destruct indexOptions as [o|]; [apply optimizeDataStructure_value|reflexivity].
Qed.

Lemma X23_pipeline_witness :
  let filterOptions := mkOptions (Some 1) (Some "distance"%string) None None None in
  let transformOptions := mkOptions None None None None (Some halving_matrix) in
  let stages :=
    mkPipelineOptions (Some filterOptions) None (Some transformOptions)
                      (Some no_options) in
  value (processPointCloud (buffer [(0.5, 0, 0); (3, 4, 0)]) stages)
        (fresh (fun _ => 0))
  = buffer (map (worker_transform
                   (default identity_matrix (matrix transformOptions)))
                (List.filter
                   (within (default MIN_DISTANCE (threshold filterOptions)))
                   [(0.5, 0, 0); (3, 4, 0)])).
Proof.
  apply (X23_pipeline_filters_then_transforms
           [(0.5, 0, 0); (3, 4, 0)]
           (mkOptions (Some 1) (Some "distance"%string) None None None)
           (mkOptions None None None None (Some halving_matrix))
           (Some no_options) "distance" (fresh (fun _ => 0)));
    reflexivity.
Defined.

(** The value of the distance filter as a fold over the indices visited. *)
Lemma distanceFilter_fold (pointData : list number) (maxDistance : number)
      (w : World) :
  value (distanceFilter pointData (Some maxDistance)) w
  = fold_left (fun filtered i =>
                 if within maxDistance (reads pointData i)
                 then filtered ++ flat (reads pointData i) else filtered)
              (stride3 (length pointData)) [].
Proof.
  unfold value, distanceFilter. apply foldM_value.
  intros s i w'. unfold seq_, when, postMessage, ret.
  destruct (is_chunk_start i); reflexivity.
Qed.

Lemma fold_left_ext_in {A B} (f g : B -> A -> B) (l : list A) :
  (forall b a, In a l -> f b a = g b a) ->
  forall b, fold_left f l b = fold_left g l b.
Proof.
  induction l as [|a l IH]; intros H b; [reflexivity|].
  cbn [fold_left]. rewrite (H b a) by (left; reflexivity).
  apply IH. intros b' a' Ha. apply H. right. exact Ha.
Qed.

(** X24.  When the array given to the distance filter ends with an
    incomplete point (one or two numbers), the loop visits it, reads
    [undefined] for what is missing, and drops it: the result is the one
    for the array without these trailing numbers. *)
Theorem X24_distance_filter_drops_an_incomplete_last_point
  (pts : list Triple) (rest : list number) (maxDistance : number) (w : World) :
  (0 < length rest < 3)%nat ->
  value (distanceFilter (buffer pts ++ rest) (Some maxDistance)) w
  = buffer (List.filter (within maxDistance) pts).
Proof.
  intros Hrest.
  rewrite <- (distanceFilter_value pts maxDistance w), !distanceFilter_fold.
  set (n := length pts).
  assert (Hlen : length (buffer pts) = (3 * n)%nat) by apply length_buffer.
  assert (Hstride : stride3 (length (buffer pts ++ rest))
                    = stride3 (length (buffer pts)) ++ [(3 * n)%nat]).
  { unfold stride3. rewrite length_app, Hlen.
    replace ((3 * n + length rest + 2) / 3)%nat with (S n)
      by (apply Nat.div_unique with (r := (length rest - 1)%nat); lia).
    replace ((3 * n + 2) / 3)%nat with n
      by (apply Nat.div_unique with (r := 2%nat); lia).
    rewrite seq_S, map_app. reflexivity. }
  rewrite Hstride, fold_left_app. cbn [fold_left].
  assert (Hlast : within maxDistance (reads (buffer pts ++ rest) (3 * n)) = false).
  { apply within_nan_coordinate. unfold reads, nan_free, get.
    rewrite (nth_overflow _ _ (n := 3 * n + 2))
      by (rewrite length_app, Hlen; lia).
    change (is_nan nan) with true. rewrite orb_true_r. reflexivity. }
  rewrite Hlast.
  apply fold_left_ext_in. intros filtered i Hi.
  assert (Hreads : reads (buffer pts ++ rest) i = reads (buffer pts) i).
  { unfold stride3 in Hi. apply in_map_iff in Hi as (k & <- & Hk).
    apply in_seq in Hk.
    replace ((length (buffer pts) + 2) / 3)%nat with n in Hk
      by (rewrite Hlen; apply Nat.div_unique with (r := 2%nat); lia).
    unfold reads, get. rewrite !app_nth1 by (rewrite Hlen; lia). reflexivity. }
  rewrite Hreads. reflexivity.
Qed.

Lemma X24_incomplete_point_witness :
  (0 < length [7; 8] < 3)%nat /\
  value (distanceFilter (buffer [(3, 4, 0); (0.5, 0, 0)] ++ [7; 8]) (Some 100))
        (fresh (fun _ => 0))
  = buffer (List.filter (within 100) [(3, 4, 0); (0.5, 0, 0)]).
Proof.
  split; [simpl; lia|].
  apply (X24_distance_filter_drops_an_incomplete_last_point
           [(3, 4, 0); (0.5, 0, 0)] [7; 8] 100 (fresh (fun _ => 0))).
  simpl; lia.
Defined.

End WorkerFlows.

(* ===================================================================== *)
(** * The analysis of a single point                                      *)
(* ===================================================================== *)

Section SinglePoint.

Import Processor.
Local Open Scope float_scope.

Lemma finite_cases (x : number) :
  is_finite x = true ->
  (exists s, Prim2SF x = S754_zero s) \/ (exists s m e, Prim2SF x = S754_finite s m e).
Proof.
  unfold is_finite, is_nan, is_infinity.
  rewrite !FloatAxioms.eqb_spec, FloatAxioms.abs_spec.
  change (Prim2SF infinity) with (S754_infinity false).
  destruct (Prim2SF x) as [s|s| |s m e]; intros H.
  - left; eexists; reflexivity.
  - destruct s; vm_compute in H; discriminate H.
  - vm_compute in H; discriminate H.
  - right; do 3 eexists; reflexivity.
Qed.

Lemma finite_not_nan (x : number) : is_finite x = true -> is_nan x = false.
Proof.
  unfold is_finite. intros H. apply negb_true_iff, orb_false_iff in H. apply H.
Qed.

Lemma sub_self (x : number) : is_finite x = true -> x - x = 0.
Proof.
  intros H. apply FloatAxioms.Prim2SF_inj. rewrite FloatAxioms.sub_spec.
  change (Prim2SF 0) with (S754_zero false).
  destruct (finite_cases x H) as [[s ->]|(s & m & e & ->)].
  - destruct s; reflexivity.
  - unfold FloatAxioms.SF64sub, SFsub. cbn zeta. rewrite Z.sub_diag. reflexivity.
Qed.

Lemma min_infinity (x : number) : is_finite x = true -> Math_min infinity x = x.
Proof.
  intros H. unfold Math_min. rewrite (finite_not_nan x H).
  change (is_nan infinity) with false. cbn [orb].
  rewrite !FloatAxioms.ltb_spec. change (Prim2SF infinity) with (S754_infinity false).
  destruct (finite_cases x H) as [[s ->]|(s & m & e & ->)]; reflexivity.
Qed.

Lemma max_neg_infinity (x : number) :
  is_finite x = true -> Math_max neg_infinity x = x.
Proof.
  intros H. unfold Math_max. rewrite (finite_not_nan x H).
  change (is_nan neg_infinity) with false. cbn [orb].
  rewrite !FloatAxioms.ltb_spec.
  change (Prim2SF neg_infinity) with (S754_infinity true).
  destruct (finite_cases x H) as [[s ->]|(s & m & e & ->)]; reflexivity.
Qed.

(** X25.  For a single point with finite coordinates [analyzeDataLocal]
    reports the box that has the point as both corners, dimensions 0,
    volume 0, and, dividing the count 1 by that volume, the density
    [Infinity]. *)
Theorem X25_analysis_of_a_single_point_has_infinite_density (p : Point) :
  is_finite (px p) = true -> is_finite (py p) = true -> is_finite (pz p) = true ->
  exists a,
    analyzeDataLocal (Some [p]) = analysis a /\
    analysis_pointCount a = 1%nat /\
    analysis_boundingBox a
    = mkBox (mkVec3 (px p) (py p) (pz p)) (mkVec3 (px p) (py p) (pz p)) /\
    analysis_dimensions a = mkVec3 0 0 0 /\
    analysis_volume a = 0 /\
    analysis_density a = infinity.
Proof.
  intros Hx Hy Hz. eexists. split; [reflexivity|].
  cbn [analysis_pointCount analysis_boundingBox analysis_dimensions
       analysis_volume analysis_density fold_left length
       running_min running_max running_sum vx vy vz].
  rewrite !min_infinity, !max_neg_infinity, !sub_self by assumption.
  repeat split.
Qed.

Lemma X25_single_point_witness :
  exists a,
    analyzeDataLocal (Some [sample_point]) = analysis a /\
    analysis_pointCount a = 1%nat /\
    analysis_boundingBox a
    = mkBox (mkVec3 (px sample_point) (py sample_point) (pz sample_point))
            (mkVec3 (px sample_point) (py sample_point) (pz sample_point)) /\
    analysis_dimensions a = mkVec3 0 0 0 /\
    analysis_volume a = 0 /\
    analysis_density a = infinity.
Proof.
  apply (X25_analysis_of_a_single_point_has_infinite_density sample_point);
    reflexivity.
Defined.

End SinglePoint.
